(** * Perp: the wstat status reporters (wstat.py, wstat2.py)

    A shallow embedding of the reporting core of the two wstat scripts:
    the run index, the task read-model loop, the status aggregator and the
    node-usage tally, with the properties the specification states about
    them.  Python dictionaries are finite maps ([gmap]); [None]-able fields
    are [option]s; raised exceptions are an explicit result; the calls to
    [print] and to the database are recorded as a trace of events. *)

From Stdlib Require Import ZArith Lia Ascii String.
From stdpp Require Import gmap strings list fin_maps sorting.

Local Open Scope string_scope.
Local Open Scope list_scope.
Local Open Scope Z_scope.

(** ** Python primitives *)

Module Py.

(** The exceptions the modelled code can raise; [SystemExit] carries the
    exit status of [sys.exit]. *)
Inductive exn :=
| KeyError
| IndexError
| ValueError
| AssertionError
| SystemExit (code : Z).

(** Result of a computation that may raise. *)
Inductive res (A : Type) :=
| Ok (a : A)
| Raise (e : exn).
Arguments Ok {A} a.
Arguments Raise {A} e.

Definition bind {A B} (m : res A) (k : A → res B) : res B :=
  match m with
  | Ok a => k a
  | Raise e => Raise e
  end.

(** [l[i]] on a Python list: a negative index counts from the end, an index
    out of range raises [IndexError]. *)
Definition index {A} (l : list A) (i : Z) : res A :=
  let j := if i <? 0 then i + Z.of_nat (length l) else i in
  if j <? 0 then Raise IndexError
  else match l !! Z.to_nat j with
       | Some x => Ok x
       | None => Raise IndexError
       end.

(** [d[k]] on a dictionary: a missing key raises [KeyError]. *)
Definition getitem `{Countable K} {V} (d : gmap K V) (k : K) : res V :=
  match d !! k with
  | Some v => Ok v
  | None => Raise KeyError
  end.

(** [d[k] += 1]: reads [d[k]] (raising [KeyError] when absent), then stores
    the successor. *)
Definition incr (d : gmap string nat) (k : string) : res (gmap string nat) :=
  match d !! k with
  | Some v => Ok (<[k := S v]> d)
  | None => Raise KeyError
  end.

(** [a in b] on two strings: [a] occurs in [b] as a contiguous substring. *)
Fixpoint str_in (a b : string) : bool :=
  String.prefix a b ||
  match b with
  | EmptyString => false
  | String _ b' => str_in a b'
  end.

(** [os.path.basename] on a POSIX path: the text after the last slash. *)
Fixpoint basename_aux (p acc : string) : string :=
  match p with
  | EmptyString => acc
  | String c p' =>
      if Ascii.eqb c "/"%char then basename_aux p' EmptyString
      else basename_aux p' (acc +:+ String c EmptyString)
  end.

Definition basename (p : string) : string := basename_aux p EmptyString.

(** [int(s)] on a string of decimal digits with an optional sign; any other
    text raises [ValueError].  (Python also accepts surrounding blanks and
    underscores between digits, which run directory names do not use.) *)
Definition digit (c : Ascii.ascii) : option Z :=
  let n := Z.of_N (Ascii.N_of_ascii c) in
  if (48 <=? n) && (n <=? 57) then Some (n - 48) else None.

Fixpoint digits (s : string) (acc : Z) : option Z :=
  match s with
  | EmptyString => Some acc
  | String c s' =>
      match digit c with
      | Some d => digits s' (10 * acc + d)
      | None => None
      end
  end.

Definition int (s : string) : res Z :=
  let parse body :=
    match body with
    | EmptyString => None
    | _ => digits body 0
    end in
  let r :=
    match s with
    | String "-" body => Z.opp <$> parse body
    | String "+" body => parse body
    | _ => parse s
    end in
  match r with
  | Some z => Ok z
  | None => Raise ValueError
  end.

(** A [for] loop whose body may raise: the loop state is threaded through
    the items in order and the first exception ends the loop. *)
Fixpoint for_each {S A} (body : S → A → res S) (items : list A) (st : S) : res S :=
  match items with
  | [] => Ok st
  | x :: rest =>
      match body st x with
      | Ok st' => for_each body rest st'
      | Raise e => Raise e
      end
  end.

(** [sum(f(v) for v in d.values())] *)
Definition msum {A} (f : A → nat) (d : gmap string A) : nat :=
  map_fold (λ _ v acc, (f v + acc)%nat) 0%nat d.

End Py.

(** [res] with stdpp's monad notations: [x ← m; k] runs [k] only when [m]
    returns, and propagates the exception otherwise. *)
#[global] Instance res_ret : MRet Py.res := @Py.Ok.
#[global] Instance res_bind : MBind Py.res := fun A B k m => Py.bind m k.

(** ** The status aggregator

    [printStatusMatrix] (wstat.py) and [taskStatusMatrix] (wstat2.py) run the
    same tally loop over (task-type name, status) pairs; they differ in the
    list of states the template is built from. *)

Module Aggregator.
Import Py.
Local Open Scope nat_scope.

Section tally.
Variable statList : list string.

(** [for state in self.statList: self.statTemplate[state] = 0] *)
Definition statTemplate : gmap string nat :=
  foldl (λ d state, <[state := 0]> d) ∅ statList.

(** The locals of the loop. *)
Record tally := Tally {
  nTasks : nat;
  nTaskTypes : nat;
  taskStats : gmap string (gmap string nat);
  statTotals : gmap string nat
}.

(** [statTotals = dict(self.statTemplate); statTotals['TOTAL'] = 0] *)
Definition tally_init : tally :=
  Tally 0 0 ∅ (<["TOTAL" := 0]> statTemplate).

(** One iteration of [for task in ...] on [tName], [tStat]. *)
Definition tally_step (st : tally) (task : string * string) : res tally :=
  let '(tName, tStat) := task in
  let nTasks' := S (nTasks st) in
  let '(nTaskTypes', stats) :=
    match taskStats st !! tName with
    | None =>
        (S (nTaskTypes st),
         <[tName := <["TOTAL" := 0]> statTemplate]> (taskStats st))
    | Some _ => (nTaskTypes st, taskStats st)
    end in
  row ← getitem stats tName;
  row ← incr row tStat;
  let stats := <[tName := row]> stats in
  row ← getitem stats tName;
  row ← incr row "TOTAL";
  let stats := <[tName := row]> stats in
  totals ← incr (statTotals st) tStat;
  totals ← incr totals "TOTAL";
  mret (Tally nTasks' nTaskTypes' stats totals).

(** What the call leaves to be rendered. *)
Inductive report :=
| Nothing
| Matrix (m : gmap string (gmap string nat)).

(** The body shared by both scripts: bail out on an empty task list, else
    tally and store the bottom row under the key ['TOTAL']. *)
Definition statusMatrix (tasks : list (string * string)) : res report :=
  if length tasks <? 1 then Ok Nothing
  else
    st ← for_each tally_step tasks tally_init;
    mret (Matrix (<["TOTAL" := statTotals st]> (taskStats st))).

(** *** Reading the matrix

    The data frame has one line per key of [taskStats] and the columns
    [statList + ['TOTAL']]. *)
Definition cell (m : gmap string (gmap string nat)) (t s : string) : nat :=
  (m !!! t) !!! s.

(** The task-type lines: every line but the bottom one. *)
Definition type_rows (m : gmap string (gmap string nat))
  : gmap string (gmap string nat) := delete "TOTAL" m.

(** Sum of the state counts of one line. *)
Definition row_sum (r : gmap string nat) : nat :=
  sum_list ((λ s, r !!! s) <$> statList).

Definition cells_sum (m : gmap string (gmap string nat)) : nat :=
  msum row_sum (type_rows m).

Definition col_sum (m : gmap string (gmap string nat)) (s : string) : nat :=
  msum (λ r, r !!! s) (type_rows m).

(** The three totals properties of a matrix built from [n] rows. *)
Definition matrix_ok (n : nat) (m : gmap string (gmap string nat)) : Prop :=
  cells_sum m = cell m "TOTAL" "TOTAL" ∧
  cells_sum m = n ∧
  (∀ t r, type_rows m !! t = Some r → r !!! "TOTAL" = row_sum r) ∧
  (∀ s, s ∈ statList → cell m "TOTAL" s = col_sum m s).

End tally.
End Aggregator.

(** ** The monitoring database

    The tables are read through SQL text that the scripts compose; the rows
    and the clauses of those queries ([where], [group by], [order by]) are
    modelled here, SQLite itself is not. *)

Module Workflow.
(** A row of the [workflow] table (the columns the scripts read). *)
Record row := Row {
  run_id : string;
  workflow_name : string;
  time_began : option string;
  time_completed : option string;
  host : string;
  user : string;
  rundir : string;
  tasks_failed_count : Z;
  tasks_completed_count : Z
}.
End Workflow.

Module TaskRow.
(** A row of [task t join try y join status s], with the columns that
    [getTaskData] selects. *)
Record row := Row {
  run_id : string;
  task_id : Z;
  task_hashsum : option string;
  task_fail_count : Z;
  task_func_name : string;
  task_stdout : option string;
  timestamp : string;
  task_status_name : string;
  hostname : option string;
  try_id : Z;
  task_try_time_launched : option string;
  task_try_time_running : option string;
  task_try_time_returned : option string
}.
End TaskRow.

Module Sql.

(** Ascending order on a nullable text column: [NULL] sorts first, text is
    compared character by character. *)
Definition null_le (a b : option string) : Prop :=
  match a, b with
  | None, _ => True
  | Some _, None => False
  | Some x, Some y => String.le x y
  end.

#[global] Instance null_le_dec : RelDecision null_le.
Proof. intros [x|] [y|]; simpl; apply _. Defined.

(** [order by time_began asc] on the workflow table. *)
Definition by_time_began (a b : Workflow.row) : Prop :=
  null_le (Workflow.time_began a) (Workflow.time_began b).

#[global] Instance by_time_began_dec : RelDecision by_time_began.
Proof. intros a b. unfold by_time_began. apply _. Defined.

(** [select * from workflow order by time_began asc] *)
Definition workflow_by_time_began (tbl : list Workflow.row) : list Workflow.row :=
  merge_sort by_time_began tbl.

(** The conditions that [getTaskData] puts in its [where] clause. *)
Inductive cond :=
| TaskIdIs (taskID : string)        (* t.task_id='<taskID>' *)
| FuncNameIs (taskName : string).   (* t.task_func_name='<taskName>' *)

(** The integer column [task_id] is compared with quoted text, which SQLite
    converts to a number when it reads as one; the name is compared as
    text. *)
Definition holds (c : cond) (r : TaskRow.row) : bool :=
  match c with
  | TaskIdIs taskID =>
      match Py.int taskID with
      | Py.Ok z => bool_decide (TaskRow.task_id r = z)
      | Py.Raise _ => false
      end
  | FuncNameIs taskName => bool_decide (TaskRow.task_func_name r = taskName)
  end.

(** A [where] clause: the conjunction of its conditions. *)
Definition where_ (conds : list cond) (r : TaskRow.row) : bool :=
  forallb (λ c, holds c r) conds.

(** [order by t.task_id,s.timestamp asc] *)
Definition by_task_then_time (a b : TaskRow.row) : Prop :=
  TaskRow.task_id a < TaskRow.task_id b ∨
  (TaskRow.task_id a = TaskRow.task_id b ∧
   String.le (TaskRow.timestamp a) (TaskRow.timestamp b)).

#[global] Instance by_task_then_time_dec : RelDecision by_task_then_time.
Proof. intros a b. unfold by_task_then_time. apply _. Defined.

(** The row of a group that carries [max(s.timestamp)]: SQLite fills the
    bare columns of the select list from that row. *)
Definition latest (rows : list TaskRow.row) : option TaskRow.row :=
  foldl (λ best r,
           match best with
           | None => Some r
           | Some b =>
               if bool_decide (String.le (TaskRow.timestamp r) (TaskRow.timestamp b))
               then Some b else Some r
           end) None rows.

(** [... where <conds> group by t.task_id order by t.task_id asc] *)
Definition summary (conds : list cond) (joined : list TaskRow.row)
  : list TaskRow.row :=
  let rows := filter (λ r, where_ conds r = true) joined in
  let ids := merge_sort Z.le (remove_dups (TaskRow.task_id <$> rows)) in
  omap (λ i, latest (filter (λ r, TaskRow.task_id r = i) rows)) ids.

(** [... where <conds> order by t.task_id,s.timestamp asc] *)
Definition history (conds : list cond) (joined : list TaskRow.row)
  : list TaskRow.row :=
  merge_sort by_task_then_time (filter (λ r, where_ conds r = true) joined).

End Sql.

(** ** wstat.py *)

Module Wstat.
Import Py.

(** [self.statList], [self.statTemplate] and [self.statPresets] as the
    constructor builds them. *)
Definition statList : list string :=
  ["pending"; "launched"; "joining"; "running"; "unsched"; "unknown";
   "exec_done"; "memo_done"; "failed"; "dep_fail"; "fail_retryable"].

Definition statTemplate : gmap string nat := Aggregator.statTemplate statList.

Definition statPresets : list (string * list string) :=
  [("notdone", ["pending"; "launched"; "running"]);
   ("runz", ["running"; "exec_done"; "memo_done"; "failed"; "dep_fail";
             "fail_retryable"]);
   ("dead", ["exec_done"; "memo_done"; "failed"; "dep_fail"; "fail_retryable"]);
   ("oddball", ["unsched"; "unknown"])].

(** An entry of [self.pTasks]; the fields follow [self.pTitles]. *)
Record pTask := PTask {
  task_id : Z;
  task_name : string;
  run_num : string;
  status : string;
  hostname : option string;
  try_ : Z;
  fails : Z;
  submitTime : option string;
  startTime : option string;
  endTime : option string;
  runTime : option Z;
  stdout : string
}.

(** The instance variables of [pmon] (debug level 0 throughout). *)
Record pmon := Pmon {
  wrows : list Workflow.row;
  runid2num : gmap string string;
  runnum2id : gmap Z string;
  numRuns : nat;
  runmin : Z;
  runmax : Z;
  pTasks : list pTask;
  pTasksFilled : bool;
  taskLimit : Z;
  nodeUsage : gmap string nat
}.

Inductive repType := Summary | History.

(** The database file: the workflow table and the task/try/status join. *)
Record database := Database {
  workflow : list Workflow.row;
  joined : list TaskRow.row
}.

(** What a run of the program does to the outside, in order. *)
Inductive event :=
| QueryWorkflow
| QueryTasks (rep : repType) (conds : list Sql.cond)
| PrintRunRangeError (n runmin runmax : Z)
| PrintWorkflowSummary (row : Workflow.row) (runNumTxt : string)
    (runStart runEnd : string) (duration : option Z)
| PrintTasks (tasks : list pTask)
| PrintNodeUsage (usage : list (string * nat)) (nActive nRunning : nat)
| PrintNothingToDo
| PrintStatusMatrix (m : gmap string (gmap string nat))
| PrintNothingToPlot
| PrintTaskCount (n : nat)
| PrintNoRuntime (task : pTask)
| PrintTooManyNoRuntime
| PrintPlotTotals (nTasks nTaskTypes nDone nErrors : nat)
| Plot (taskName : string) (minutes : list Z)
| PrintRunHistory (rows : list (Workflow.row * option Z))
| PrintRunNums (table : list (string * string))
| PrintUnrecognized (reportType : string).

(** A method of [pmon]: it reads and updates the instance, leaves a trace,
    and returns or raises.  No exception is caught anywhere in the script,
    so the instance is not observed after a raise. *)
Definition M (A : Type) : Type := pmon → list event * res (A * pmon).

#[global] Instance M_ret : MRet M := λ A a self, ([], Ok (a, self)).

#[global] Instance M_bind : MBind M := λ A B k m self,
  match m self with
  | (tr, Ok (a, self')) => let '(tr', r) := k a self' in (tr ++ tr', r)
  | (tr, Raise e) => (tr, Raise e)
  end.

Definition emit (e : event) : M unit := λ self, ([e], Ok ((), self)).
Definition get : M pmon := λ self, ([], Ok (self, self)).
Definition put (self' : pmon) : M unit := λ _, ([], Ok ((), self')).
Definition lift {A} (r : res A) : M A := λ self,
  match r with
  | Ok a => ([], Ok (a, self))
  | Raise e => ([], Raise e)
  end.

(** [for x in items: body] inside a method. *)
Fixpoint for_ {A} (items : list A) (body : A → M unit) : M unit :=
  match items with
  | [] => mret ()
  | x :: rest => body x ≫= λ _, for_ rest body
  end.

(** Assignments to single instance variables. *)
Definition set_runs (self : pmon) rows id2num num2id lo hi : pmon :=
  Pmon rows id2num num2id (numRuns self) lo hi
       (pTasks self) (pTasksFilled self) (taskLimit self) (nodeUsage self).
Definition set_numRuns (self : pmon) (n : nat) : pmon :=
  Pmon (wrows self) (runid2num self) (runnum2id self) n (runmin self)
       (runmax self) (pTasks self) (pTasksFilled self) (taskLimit self)
       (nodeUsage self).
Definition set_pTasks (self : pmon) (ts : list pTask) : pmon :=
  Pmon (wrows self) (runid2num self) (runnum2id self) (numRuns self)
       (runmin self) (runmax self) ts (pTasksFilled self) (taskLimit self)
       (nodeUsage self).
Definition set_pTasksFilled (self : pmon) (b : bool) : pmon :=
  Pmon (wrows self) (runid2num self) (runnum2id self) (numRuns self)
       (runmin self) (runmax self) (pTasks self) b (taskLimit self)
       (nodeUsage self).
Definition set_taskLimit (self : pmon) (n : Z) : pmon :=
  Pmon (wrows self) (runid2num self) (runnum2id self) (numRuns self)
       (runmin self) (runmax self) (pTasks self) (pTasksFilled self) n
       (nodeUsage self).
Definition set_nodeUsage (self : pmon) (u : gmap string nat) : pmon :=
  Pmon (wrows self) (runid2num self) (runnum2id self) (numRuns self)
       (runmin self) (runmax self) (pTasks self) (pTasksFilled self)
       (taskLimit self) u.

(** The instance variables as [__init__] sets them before it reads the
    workflow table. *)
Definition fresh : pmon := Pmon [] ∅ ∅ 0 999999999 (-1) [] false 0 ∅.

(** The parsed command line (the database file exists, [--schemas] and
    [--debug] are not given). *)
Module Args.
Record t := Make {
  reportType : string;
  runnum : option Z;
  taskID : option string;
  taskName : option string;
  taskStatus : option string;
  taskLimit : Z
}.
End Args.

Section methods.
(** Library calls taken as given: [datetime.strptime] with the format
    ['%Y-%m-%d %H:%M:%S.%f'] (a time as microseconds, [None] when it
    raises [ValueError]), [strftime('%Y-%m-%d %H:%M:%S')], and
    [os.path.splitext(p)[0]]. *)
Variable strptime : string → option Z.
Variable strftime : Z → string.
Variable splitext : string → string.

(** The database file the instance is connected to. *)
Variable db : database.

Definition makedt (intime : string) : res Z :=
  match strptime intime with
  | Some t => Ok t
  | None => Raise ValueError
  end.

(** [stripms] on a time that is not [None]. *)
Definition stripms_str (intime : string) : res string :=
  t ← makedt intime; mret (strftime t).

Definition stripms (intime : option string) : res (option string) :=
  match intime with
  | None => Ok None
  | Some s => r ← stripms_str s; mret (Some r)
  end.

Definition timeDiff (start end_ : option string) : res (option Z) :=
  match start, end_ with
  | Some s, Some e =>
      te ← makedt e;
      ts ← makedt s;
      mret (Some (te - ts))
  | _, _ => Ok None
  end.

(** *** The run index *)

(** One iteration of the loop of [readWorkflowTable]. *)
Definition index_row (self : pmon) (row : Workflow.row) : res pmon :=
  let runID := Workflow.run_id row in
  let runNum := basename (Workflow.rundir row) in
  n ← int runNum;
  mret (set_runs self (wrows self)
          (<[runID := runNum]> (runid2num self))
          (<[n := runID]> (runnum2id self))
          (if n <? runmin self then n else runmin self)
          (if runmax self <? n then n else runmax self)).

Definition readWorkflowTable : M unit :=
  emit QueryWorkflow;;
  self ← get;
  let rows := Sql.workflow_by_time_began (workflow db) in
  self ← lift (for_each index_row rows
                 (set_runs self rows ∅ ∅ (runmin self) (runmax self)));
  put (set_numRuns self (length rows)).

(** [for rdx in range(len(self.wrows))] of [selectRunID], with the rows
    still to visit and the index of the first of them. *)
Fixpoint selectRunID_loop (self : pmon) (runnum : Z)
    (rows : list Workflow.row) (rdx : Z) : res Z :=
  match rows with
  | [] => Raise AssertionError
  | row :: rest =>
      id ← getitem (runnum2id self) runnum;
      if bool_decide (Workflow.run_id row = id) then Ok rdx
      else selectRunID_loop self runnum rest (rdx + 1)
  end.

Definition selectRunID (self : pmon) (runnum : option Z) : res Z :=
  match runnum with
  | None => Ok (-1)
  | Some n => selectRunID_loop self n (wrows self) 0
  end.

Definition printWorkflowSummary (runnum : option Z) : M unit :=
  self ← get;
  rowindex ← lift (selectRunID self runnum);
  row ← lift (index (wrows self) rowindex);
  let runNum := basename (Workflow.rundir row) in
  irunNum ← lift (int runNum);
  let runNumTxt :=
    if bool_decide (irunNum = runmax self)
    then runNum +:+ "    <<-most current run->>" else runNum in
  runStart ← lift (match Workflow.time_began row with
                   | None => Ok "*pending*"
                   | Some t => stripms_str t
                   end);
  runEnd ← lift (match Workflow.time_completed row with
                 | None => Ok "*pending*"
                 | Some t => stripms_str t
                 end);
  duration ← lift (match Workflow.time_began row, Workflow.time_completed row with
                   | Some _, Some _ =>
                       timeDiff (Workflow.time_began row)
                                (Workflow.time_completed row)
                   | _, _ => Ok None
                   end);
  emit (PrintWorkflowSummary row runNumTxt runStart runEnd duration).

(** *** The task read-model *)

(** The status selection of [getTaskData]: whether a row with status
    [status] is kept under the filter [taskStatus]. *)
Fixpoint preset_loop (taskStatus status : string)
    (presets : list (string * list string)) : bool :=
  match presets with
  | [] => false
  | (prekey, states) :: rest =>
      if bool_decide (taskStatus = prekey) && bool_decide (status ∈ states)
      then true
      else preset_loop taskStatus status rest
  end.

Definition keep (taskStatus : option string) (status : string) : bool :=
  match taskStatus with
  | None => true
  | Some ts =>
      if bool_decide (ts ∈ statPresets.*1)
      then preset_loop ts status statPresets
      else str_in ts status
  end.

(** The list [pTask] built for one row. *)
Definition shape (self : pmon) (row : TaskRow.row) : res pTask :=
  let stdDir :=
    match TaskRow.task_stdout row with
    | None => "None"
    | Some p => splitext p
    end in
  num ← getitem (runid2num self) (TaskRow.run_id row);
  launched ← stripms (TaskRow.task_try_time_launched row);
  running ← stripms (TaskRow.task_try_time_running row);
  returned ← stripms (TaskRow.task_try_time_returned row);
  diff ← timeDiff (TaskRow.task_try_time_running row)
                  (TaskRow.task_try_time_returned row);
  mret (PTask (TaskRow.task_id row) (TaskRow.task_func_name row) num
              (TaskRow.task_status_name row) (TaskRow.hostname row)
              (TaskRow.try_id row) (TaskRow.task_fail_count row)
              launched running returned diff stdDir).

(** [self.nodeUsage] after one more running task on [host]. *)
Definition count_node (usage : gmap string nat) (host : option string)
  : gmap string nat :=
  let hn := match host with None => "unknown" | Some h => h end in
  match usage !! hn with
  | None => <[hn := 1%nat]> usage
  | Some n => <[hn := S n]> usage
  end.

(** The counters local to [getTaskData]. *)
Record counters := Counters { rCount : nat; grCount : nat; nRunning : nat }.

(** [for row in tRowz], with [continue] and [break]. *)
Fixpoint task_loop (taskStatus : option string) (tRowz : list TaskRow.row)
    (c : counters) : M counters :=
  match tRowz with
  | [] => mret c
  | row :: rest =>
      let c := Counters (S (rCount c)) (grCount c) (nRunning c) in
      if negb (keep taskStatus (TaskRow.task_status_name row))
      then task_loop taskStatus rest c
      else
        let c := Counters (rCount c) (S (grCount c)) (nRunning c) in
        self ← get;
        pTask ← lift (shape self row);
        let running := bool_decide (TaskRow.task_status_name row = "running") in
        let c := if running
                 then Counters (rCount c) (grCount c) (S (nRunning c))
                 else c in
        let self := if running
                    then set_nodeUsage self
                           (count_node (nodeUsage self) (TaskRow.hostname row))
                    else self in
        put (set_pTasks self (pTasks self ++ [pTask]));;
        if (0 <? taskLimit self) && (taskLimit self <=? Z.of_nat (grCount c))
        then mret c
        else task_loop taskStatus rest c
  end.

(** [sorted(self.nodeUsage.items())] *)
Definition sorted_items (usage : gmap string nat) : list (string * nat) :=
  merge_sort (λ a b, String.le a.1 b.1) (map_to_list usage).

Definition getTaskData (runnum : option Z) (rep : repType) (printSummary : bool)
    (taskID taskStatus taskName : option string) : M unit :=
  self ← get;
  rowindex ← lift (selectRunID self runnum);
  wrow ← lift (index (wrows self) rowindex);
  _ ← lift (match runnum with
            | None =>
                num ← getitem (runid2num self) (Workflow.run_id wrow);
                n ← int num; mret (Some n)
            | Some n => Ok (Some n)
            end);
  let byID := from_option (λ t, [Sql.TaskIdIs t]) [] taskID in
  let byName := from_option (λ n, [Sql.FuncNameIs n]) [] taskName in
  let conds := match rep with
               | Summary => byID ++ byName
               | History => byID
               end in
  emit (QueryTasks rep conds);;
  let tRowz := match rep with
               | Summary => Sql.summary conds (joined db)
               | History => Sql.history conds (joined db)
               end in
  c ← task_loop taskStatus tRowz (Counters 0 0 0);
  self ← get;
  (if printSummary then emit (PrintTasks (pTasks self)) else mret ());;
  put (set_pTasksFilled self true);;
  if (0 <? size (nodeUsage self))%nat
  then emit (PrintNodeUsage (sorted_items (nodeUsage self))
                            (size (nodeUsage self)) (nRunning c))
  else mret ().

(** *** The status matrix and the run-time tally *)

Definition printStatusMatrix (runnum : option Z) : M unit :=
  self ← get;
  (if pTasksFilled self then mret ()
   else getTaskData runnum Summary false None None None);;
  self ← get;
  r ← lift (Aggregator.statusMatrix statList
              ((λ task, (task_name task, status task)) <$> pTasks self));
  match r with
  | Aggregator.Nothing => emit PrintNothingToDo
  | Aggregator.Matrix m => emit (PrintStatusMatrix m)
  end.

(** [histData]: run times per task type, in order of first appearance.
    [hist_add] is [histData[tName] = [x]] for a new name and
    [histData[tName].append(x)] otherwise. *)
Fixpoint hist_add (histData : list (string * list Z)) (tName : string) (x : Z)
  : list (string * list Z) :=
  match histData with
  | [] => [(tName, [x])]
  | (k, xs) :: rest =>
      if bool_decide (k = tName) then (k, xs ++ [x]) :: rest
      else (k, xs) :: hist_add rest tName x
  end.

(** The locals of the tally loop of [plotStats]. *)
Record plotTally := PlotTally {
  histData : list (string * list Z);
  nTasks : nat;
  nTaskTypes : nat;
  nDone : nat;
  nErrors : nat
}.

(** One iteration of that loop: what it prints and the locals after it.
    Run times stay in microseconds; the script divides by a minute. *)
Definition plot_step (t : plotTally) (task : pTask) : list event * plotTally :=
  let t := PlotTally (histData t) (S (nTasks t)) (nTaskTypes t) (nDone t)
                     (nErrors t) in
  if str_in "done" (status task) then
    let t := PlotTally (histData t) (nTasks t) (nTaskTypes t) (S (nDone t))
                       (nErrors t) in
    match runTime task with
    | None =>
        let t := PlotTally (histData t) (nTasks t) (nTaskTypes t) (nDone t)
                           (S (nErrors t)) in
        (if (nErrors t <? 10)%nat then [PrintNoRuntime task]
         else if (nErrors t =? 10)%nat then [PrintTooManyNoRuntime]
         else [], t)
    | Some d =>
        ([], PlotTally (hist_add (histData t) (task_name task) d) (nTasks t)
                       (if bool_decide (task_name task ∈ (histData t).*1)
                        then nTaskTypes t else S (nTaskTypes t))
                       (nDone t) (nErrors t))
    end
  else ([], t).

Fixpoint plot_loop (tasks : list pTask) (t : plotTally) : list event * plotTally :=
  match tasks with
  | [] => ([], t)
  | task :: rest =>
      let '(tr, t) := plot_step t task in
      let '(tr', t) := plot_loop rest t in
      (tr ++ tr', t)
  end.

Definition plotStats (runnum : option Z) : M unit :=
  self ← get;
  (if pTasksFilled self then mret ()
   else getTaskData runnum Summary false None None None);;
  self ← get;
  if (length (pTasks self) <? 1)%nat then emit PrintNothingToPlot
  else
    emit (PrintTaskCount (length (pTasks self)));;
    let '(tr, t) := plot_loop (pTasks self) (PlotTally [] 0 0 0 0) in
    for_ tr emit;;
    emit (PrintPlotTotals (nTasks t) (nTaskTypes t) (nDone t) (nErrors t));;
    for_ (histData t) (λ '(task, data), emit (Plot task data)).

(** *** Driver functions *)

Definition taskSummary (runnum : option Z) (rep : repType) (printSummary : bool)
    (taskID taskStatus taskName : option string) : M unit :=
  printWorkflowSummary runnum;;
  getTaskData None rep printSummary taskID taskStatus taskName;;
  printStatusMatrix runnum.

Definition shortSummary (runnum : option Z) : M unit :=
  printWorkflowSummary runnum;;
  printStatusMatrix runnum.

Definition plot (runnum : option Z) : M unit :=
  printWorkflowSummary None;;
  printStatusMatrix runnum;;
  plotStats runnum.

Definition runHistory : M unit :=
  emit QueryWorkflow;;
  rows ← lift (for_each
                 (λ rows wrow,
                    run_duration ← timeDiff (Workflow.time_began wrow)
                                            (Workflow.time_completed wrow);
                    _ ← stripms (Workflow.time_began wrow);
                    _ ← stripms (Workflow.time_completed wrow);
                    mret (rows ++ [(wrow, run_duration)]))
                 (Sql.workflow_by_time_began (workflow db)) []);
  emit (PrintRunHistory rows).

Definition runNums : M unit :=
  self ← get;
  emit (PrintRunNums ((λ kv, (kv.2, kv.1)) <$> map_to_list (runid2num self))).

(** *** The main program

    [m = pmon(...)], the check of the run number, the task limit and the
    report.  The closing [sys.exit()] is a normal return. *)

Definition check_runnum (runnum : option Z) : M unit :=
  m ← get;
  match runnum with
  | Some n =>
      if (runmax m <? n) || (n <? runmin m)
      then emit (PrintRunRangeError n (runmin m) (runmax m));;
           lift (Raise (SystemExit 1))
      else mret ()
  | None => mret ()
  end.

Definition report (a : Args.t) : M unit :=
  let rt := Args.reportType a in
  if bool_decide (rt = "taskSummary") then
    taskSummary (Args.runnum a) Summary true (Args.taskID a)
                (Args.taskStatus a) (Args.taskName a)
  else if bool_decide (rt = "shortSummary") then shortSummary (Args.runnum a)
  else if bool_decide (rt = "taskHistory") then
    taskSummary (Args.runnum a) History true (Args.taskID a)
                (Args.taskStatus a) (Args.taskName a)
  else if bool_decide (rt = "runHistory") then runHistory
  else if bool_decide (rt = "plot") then plot None
  else if bool_decide (rt = "runNums") then runNums
  else emit (PrintUnrecognized rt);; lift (Raise (SystemExit 1)).

Definition main (a : Args.t) : list event * res (unit * pmon) :=
  (readWorkflowTable;;
   check_runnum (Args.runnum a);;
   (if 0 <? Args.taskLimit a
    then m ← get; put (set_taskLimit m (Args.taskLimit a))
    else mret ());;
   report a) fresh.

End methods.
End Wstat.

(** ** wstat2.py *)

Module Run.
(** A row of the query of [loadWorkflowTable]: the workflow table joined
    with the view [runview], which supplies [runnum]. *)
Record row := Row {
  runnum : Z;
  run_id : string;
  workflow_name : string;
  began : option string;
  completed : option string;
  runElapsedTime : option string;
  host : string;
  user : string;
  completed_count : Z;
  failed_count : Z;
  rundir : string
}.
End Run.

Module SummaryRow.
(** A row of the view [summary], columns [self.tSumCols]. *)
Record row := Row {
  runnum : Z;
  tasknum : Z;
  task_id : Z;
  function : string;
  status : string;
  lastUpdate : option string;
  fails : Z;
  try_id : Z;
  hostname : option string;
  launched : option string;
  start : option string;
  waitTime : option string;
  ended : option string;
  runTime : option string
}.
End SummaryRow.

Module HistoryRow.
(** A row of the join behind [taskHistoryQuery] ([stdSources]): the columns
    of [stdVariables], with [timestamp] the value of [s.timestamp] that the
    query orders by. *)
Record row := Row {
  runnum : Z;
  tasknum : Z;
  task_id : Z;
  function : string;
  status : string;
  timestamp : string;
  fails : Z;
  try_id : Z;
  hostname : option string;
  launched : option string;
  start : option string;
  waitTime : option string;
  ended : option string;
  runTime : option string
}.
End HistoryRow.

Module Wstat2.
Import Py.

Definition statList : list string :=
  ["pending"; "launched"; "running"; "joining"; "running_ended"; "unsched";
   "unknown"; "exec_done"; "memo_done"; "failed"; "dep_fail"; "fail_retryable"].

Definition statTemplate : gmap string nat := Aggregator.statTemplate statList.

Definition statPresets : list (string * list string) :=
  [("notdone", ["pending"; "launched"; "running"]);
   ("runz", ["running"; "joining"; "running_ended"; "exec_done"; "memo_done";
             "failed"; "dep_fail"; "fail_retryable"]);
   ("dead", ["exec_done"; "memo_done"; "failed"; "dep_fail"; "fail_retryable"]);
   ("oddball", ["unsched"; "unknown"])].

(** The instance variables of [pmon] that hold the run index and the task
    summary rows. *)
Record pmon := Pmon {
  wrows : list Run.row;
  runid2num : gmap string Z;
  runnum2id : gmap Z string;
  numRuns : nat;
  runmin : Z;
  runmax : Z;
  sumFlag : bool;
  trows : list SummaryRow.row
}.

Definition fresh : pmon := Pmon [] ∅ ∅ 0 999999999 (-1) false [].

(** Modelled from the spec: the view [runview] is defined in makeViews.sql,
    which is not among the sources.  Following section 4.2 of the
    specification, it numbers the runs from 1 in ascending start-time order;
    [workflow_query] is then the result of the query of [loadWorkflowTable],
    [workflow w join runview rv ... order by w.time_began asc]. *)
Definition workflow_query (tbl : list Workflow.row) : list Run.row :=
  imap (λ i w,
          Run.Row (Z.of_nat i + 1) (Workflow.run_id w) (Workflow.workflow_name w)
                  (Workflow.time_began w) (Workflow.time_completed w) None
                  (Workflow.host w) (Workflow.user w)
                  (Workflow.tasks_completed_count w)
                  (Workflow.tasks_failed_count w) (Workflow.rundir w))
       (Sql.workflow_by_time_began tbl).

(** One iteration of the loop of [loadWorkflowTable]. *)
Definition index_row (self : pmon) (row : Run.row) : pmon :=
  let runID := Run.run_id row in
  let runnum := Run.runnum row in
  Pmon (wrows self)
       (<[runID := runnum]> (runid2num self))
       (<[runnum := runID]> (runnum2id self))
       (numRuns self)
       (if runnum <? runmin self then runnum else runmin self)
       (if runmax self <? runnum then runnum else runmax self)
       (sumFlag self) (trows self).

(** [loadWorkflowTable] on the rows its query returns. *)
Definition loadWorkflowTable (rows : list Run.row) (self : pmon) : pmon :=
  let self := Pmon rows ∅ ∅ (numRuns self) (runmin self) (runmax self)
                   (sumFlag self) (trows self) in
  let self := foldl index_row self rows in
  Pmon (wrows self) (runid2num self) (runnum2id self) (length rows)
       (runmin self) (runmax self) (sumFlag self) (trows self).

Fixpoint selectRunID_loop (self : pmon) (runnum : Z)
    (rows : list Run.row) (rdx : Z) : res Z :=
  match rows with
  | [] => Raise AssertionError
  | row :: rest =>
      id ← getitem (runnum2id self) runnum;
      if bool_decide (Run.run_id row = id) then Ok rdx
      else selectRunID_loop self runnum rest (rdx + 1)
  end.

Definition selectRunID (self : pmon) (runnum : option Z) : res Z :=
  match runnum with
  | None => Ok (-1)
  | Some n => selectRunID_loop self n (wrows self) 0
  end.

(** [printWorkflowSummary]: the row it selects and prints, or the exception
    it raises before printing. *)
Definition printWorkflowSummary (self : pmon) (runnum : option Z) : res Run.row :=
  rowindex ← selectRunID self runnum;
  index (wrows self) rowindex.

(** The conditions [taskSum] puts in its [where] clause. *)
Inductive cond :=
| RunnumIs (runnum : Z)          (* runnum=<runnum> *)
| TasknumIs (tasknum : string)   (* tasknum=<tasknum> *)
| TaskIdIs (taskid : string)     (* task_id=<taskid> *)
| FunctionIs (taskname : string) (* function=<taskname>, quoted *)
| StatusIs (status : string).    (* status=<status>, quoted *)

Definition whereList (runnum : option Z)
    (tasknum taskid taskname status : option string) : list cond :=
  from_option (λ n, [RunnumIs n]) [] runnum ++
  from_option (λ t, [TasknumIs t]) [] tasknum ++
  from_option (λ t, [TaskIdIs t]) [] taskid ++
  from_option (λ t, [FunctionIs t]) [] taskname ++
  from_option (λ t, [StatusIs t]) [] status.

(** Each condition as SQLite evaluates it on a row of [summary], for filter
    values it reads as literals: unquoted text that is a number, quoted text
    that names no column. *)
Definition num_is (text : string) (z : Z) : bool :=
  match int text with
  | Ok n => bool_decide (z = n)
  | Raise _ => false
  end.

Definition holds (c : cond) (r : SummaryRow.row) : bool :=
  match c with
  | RunnumIs n => bool_decide (SummaryRow.runnum r = n)
  | TasknumIs t => num_is t (SummaryRow.tasknum r)
  | TaskIdIs t => num_is t (SummaryRow.task_id r)
  | FunctionIs t => bool_decide (SummaryRow.function r = t)
  | StatusIs t => bool_decide (SummaryRow.status r = t)
  end.

(** [loadTaskData]: [select ... from summary where <conds joined by and>]. *)
Definition loadTaskData (view : list SummaryRow.row) (conds : list cond)
    (self : pmon) : pmon :=
  Pmon (wrows self) (runid2num self) (runnum2id self) (numRuns self)
       (runmin self) (runmax self) true
       (filter (λ r, forallb (λ c, holds c r) conds = true) view).

(** [taskSum]: the rows it loads and prints. *)
Definition taskSum (view : list SummaryRow.row) (runnum : option Z)
    (tasknum taskid taskname status : option string) (self : pmon) : pmon :=
  loadTaskData view (whereList runnum tasknum taskid taskname status) self.

(** [taskStatusMatrix]: the matrix it prints ([Nothing] for the message
    that there are no tasks), or the exception it raises. *)
Definition taskStatusMatrix (view : list SummaryRow.row) (self : pmon)
  : res Aggregator.report :=
  let self := if sumFlag self then self else loadTaskData view [] self in
  Aggregator.statusMatrix statList
    ((λ task, (SummaryRow.function task, SummaryRow.status task)) <$> trows self).

(** [order by s.timestamp asc] *)
Definition by_time (a b : HistoryRow.row) : Prop :=
  String.le (HistoryRow.timestamp a) (HistoryRow.timestamp b).

#[global] Instance by_time_dec : RelDecision by_time.
Proof. intros a b. unfold by_time. apply _. Defined.

(** The [where] clause of [taskHis]: [tv.tasknum=<tasknum>], then the
    optional [rv.runnum=<runnum>] and [status=<status>], joined by [and]. *)
Definition history_holds (tasknum : string) (runnum : option Z)
    (status : option string) (r : HistoryRow.row) : bool :=
  num_is tasknum (HistoryRow.tasknum r) &&
  from_option (λ n, bool_decide (HistoryRow.runnum r = n)) true runnum &&
  from_option (λ t, bool_decide (HistoryRow.status r = t)) true status.

(** [taskHis]: the rows it prints; [None] for the message that a task
    number is required. *)
Definition taskHis (joined : list HistoryRow.row) (runnum : option Z)
    (tasknum status : option string) : option (list HistoryRow.row) :=
  match tasknum with
  | None => None
  | Some t =>
      Some (merge_sort by_time
              (filter (λ r, history_holds t runnum status r = true) joined))
  end.

End Wstat2.

(** * Vocabulary of the properties

    The statements below are written with these definitions; none of them
    is part of the scripts. *)

(** ** The tally loop *)

Section tally_vocabulary.
Import Py Aggregator.
Local Open Scope nat_scope.

Variable statList : list string.

(** A freshly allocated line: the template with a zero ['TOTAL']. *)
Definition zero_row : gmap string nat := <["TOTAL" := 0]> (statTemplate statList).

(** The keys of a line: the states and ['TOTAL']. *)
Definition keys_ok (r : gmap string nat) : Prop :=
  ∀ k, is_Some (r !! k) ↔ k ∈ statList ∨ k = "TOTAL".

(** What one iteration does when it does not raise: the line of [tName]
    (a fresh one if the name is new) and the bottom line both get the cell
    [tStat] and then the cell ['TOTAL'] incremented. *)
Definition bump (r : gmap string nat) (tStat : string) : gmap string nat :=
  <["TOTAL" := S (<[tStat := S (r !!! tStat)]> r !!! "TOTAL")]>
    (<[tStat := S (r !!! tStat)]> r).

Definition line (st : tally) (tName : string) : gmap string nat :=
  default zero_row (taskStats st !! tName).

(** The shape of the dictionaries: enough for the loop not to raise. *)
Definition keys_inv (st : tally) : Prop :=
  (∀ t r, taskStats st !! t = Some r → keys_ok r) ∧ keys_ok (statTotals st).

(** The totals invariant of the loop, after [n] rows. *)
Record inv (n : nat) (st : tally) : Prop := Inv {
  inv_keys : keys_inv st;
  inv_no_total : taskStats st !! "TOTAL" = None;
  inv_rows : ∀ t r, taskStats st !! t = Some r →
                    r !!! "TOTAL" = row_sum statList r;
  inv_grand : statTotals st !!! "TOTAL" = n;
  inv_cols : ∀ s, s ∈ statList →
                  statTotals st !!! s = msum (λ r, r !!! s) (taskStats st);
  inv_cells : msum (row_sum statList) (taskStats st) = n
}.

End tally_vocabulary.

(** The (task type, status) pairs the two scripts tally. *)
Definition wstat_pairs (tasks : list Wstat.pTask) : list (string * string) :=
  (λ task, (Wstat.task_name task, Wstat.status task)) <$> tasks.

Definition wstat2_pairs (rows : list SummaryRow.row) : list (string * string) :=
  (λ task, (SummaryRow.function task, SummaryRow.status task)) <$> rows.

(** The rows [taskStatusMatrix] tallies: the loaded ones, or the whole view
    when none were loaded yet. *)
Definition wstat2_rows (view : list SummaryRow.row) (self : Wstat2.pmon)
  : list SummaryRow.row :=
  Wstat2.trows (if Wstat2.sumFlag self then self
                else Wstat2.loadTaskData view [] self).

(** ** The task read-model *)

(** The rows that [task_loop] shapes: the kept ones, up to the task limit.
    [gr] is [grCount] on entry. *)
Fixpoint processed (taskStatus : option string) (limit : Z)
    (tRowz : list TaskRow.row) (gr : nat) : list TaskRow.row :=
  match tRowz with
  | [] => []
  | row :: rest =>
      if Wstat.keep taskStatus (TaskRow.task_status_name row)
      then row :: (if (0 <? limit) && (limit <=? Z.of_nat (S gr)) then []
                   else processed taskStatus limit rest (S gr))
      else processed taskStatus limit rest gr
  end.

Definition is_running (row : TaskRow.row) : Prop :=
  TaskRow.task_status_name row = "running".

(** [self.nodeUsage] after the running tasks of [rows] are counted. *)
Definition count_nodes (usage : gmap string nat) (rows : list TaskRow.row)
  : gmap string nat :=
  foldl Wstat.count_node usage (TaskRow.hostname <$> filter is_running rows).

(** The key a host is counted under. *)
Definition host_key (host : option string) : string :=
  match host with None => "unknown" | Some h => h end.

(** The [where] clause and the rows of the query of [getTaskData]. *)
Definition task_conds (rep : Wstat.repType) (taskID taskName : option string)
  : list Sql.cond :=
  let byID := from_option (λ t, [Sql.TaskIdIs t]) [] taskID in
  let byName := from_option (λ n, [Sql.FuncNameIs n]) [] taskName in
  match rep with
  | Wstat.Summary => byID ++ byName
  | Wstat.History => byID
  end.

Definition task_rows (db : Wstat.database) (rep : Wstat.repType)
    (taskID taskName : option string) : list TaskRow.row :=
  match rep with
  | Wstat.Summary => Sql.summary (task_conds rep taskID taskName) (Wstat.joined db)
  | Wstat.History => Sql.history (task_conds rep taskID taskName) (Wstat.joined db)
  end.

(** Earlier rows have a timestamp that is not later. *)
Definition time_le (a b : TaskRow.row) : Prop :=
  String.le (TaskRow.timestamp a) (TaskRow.timestamp b).

(** ** The status presets *)

Module Spec.
(** The presets in the words of the specification (section 3), to compare
    [self.statPresets] of each script with. *)
Definition presets : list (string * list string) :=
  [("notdone", ["pending"; "launched"; "running"]);
   ("runz", ["running"; "joining"; "running_ended"; "exec_done"; "memo_done";
             "failed"; "dep_fail"; "fail_retryable"]);
   ("dead", ["exec_done"; "memo_done"; "failed"; "dep_fail"; "fail_retryable"]);
   ("oddball", ["unsched"; "unknown"])].
End Spec.

(** [presets[name]], when [name] is a key. *)
Definition preset (presets : list (string * list string)) (name : string)
  : option (list string) :=
  (list_to_map presets : gmap string (list string)) !! name.

(** ** The run index *)

(** The bounds and the dictionary that the loading loops maintain, over the
    (run number, run id) pairs of the rows. *)
Definition lower (lo : Z) (nums : list Z) : Z :=
  foldl (λ lo n, if n <? lo then n else lo) lo nums.

Definition upper (hi : Z) (nums : list Z) : Z :=
  foldl (λ hi n, if hi <? n then n else hi) hi nums.

Definition num2id (d : gmap Z string) (pairs : list (Z * string)) : gmap Z string :=
  foldl (λ d p, <[p.1 := p.2]> d) d pairs.

(** The run number of a row of the workflow table in wstat.py: the number
    its run directory is named by. *)
Definition run_number (row : Workflow.row) : Py.res Z :=
  Py.int (Py.basename (Workflow.rundir row)).

(** The first two statements of [printWorkflowSummary] and [getTaskData] of
    wstat.py: the row of the requested run. *)
Definition resolve (self : Wstat.pmon) (runnum : option Z) : Py.res Workflow.row :=
  rowindex ← Wstat.selectRunID self runnum;
  Py.index (Wstat.wrows self) rowindex.

(** The index an instance of wstat.py holds after the constructor has
    returned on the workflow table of [db]. *)
Record indexed (db : Wstat.database) (self : Wstat.pmon) (nums : list Z) : Prop :=
  Indexed {
    ix_wrows : Wstat.wrows self = Sql.workflow_by_time_began (Wstat.workflow db);
    ix_nums : Forall2 (λ row n, run_number row = Py.Ok n) (Wstat.wrows self) nums;
    ix_runmin : Wstat.runmin self = lower 999999999 nums;
    ix_runmax : Wstat.runmax self = upper (-1) nums;
    ix_runnum2id :
      Wstat.runnum2id self
      = num2id ∅ (zip nums (Workflow.run_id <$> Wstat.wrows self))
  }.

(** ** Missing run times *)

(** A task in a done state without a run time. *)
Definition no_runtime (task : Wstat.pTask) : Prop :=
  Py.str_in "done" (Wstat.status task) = true ∧ Wstat.runTime task = None.

#[global] Instance no_runtime_dec task : Decision (no_runtime task).
Proof. unfold no_runtime. apply _. Defined.

(** What the tally loop of [plotStats] prints for the tasks without a run
    time, [nErrors] of them having been met before. *)
Fixpoint warnings (nErrors : nat) (tasks : list Wstat.pTask) : list Wstat.event :=
  match tasks with
  | [] => []
  | task :: rest =>
      (if (S nErrors <? 10)%nat then [Wstat.PrintNoRuntime task]
       else if (S nErrors =? 10)%nat then [Wstat.PrintTooManyNoRuntime]
       else []) ++ warnings (S nErrors) rest
  end.

(** ** Counting the tallied rows *)

(** The number of (task type, status) pairs with a given type and status,
    and with a given status. *)
Definition count_cell (t s : string) (tasks : list (string * string)) : nat :=
  length (filter (λ task, task = (t, s)) tasks).

Definition count_status (s : string) (tasks : list (string * string)) : nat :=
  length (filter (λ task, task.2 = s) tasks).

Section count_vocabulary.
Import Py Aggregator.
Local Open Scope nat_scope.

Variable statList : list string.

(** The state of the tally loop after the rows [done]: which lines exist
    and what their state cells hold. *)
Record counted (done : list (string * string)) (st : tally) : Prop := Counted {
  cnt_keys : keys_inv statList st;
  cnt_types : ∀ t, is_Some (taskStats st !! t) ↔ t ∈ done.*1;
  cnt_cells : ∀ t s, s ≠ "TOTAL" →
                     line statList st t !!! s = count_cell t s done;
  cnt_status : ∀ s, s ≠ "TOTAL" → statTotals st !!! s = count_status s done
}.

End count_vocabulary.

(** ** Reading a trace *)

(** The queries for task rows among the events of a run. *)
Definition is_task_query (e : Wstat.event) : bool :=
  match e with
  | Wstat.QueryTasks _ _ => true
  | _ => false
  end.

Definition task_queries (tr : list Wstat.event) : nat :=
  length (filter (λ e, is_task_query e = true) tr).

(** ** Times that can be read *)

(** A time of the database that is absent or in the format that
    [datetime.strptime] is called with. *)
Definition parses (strptime : string → option Z) (t : option string) : Prop :=
  ∀ s, t = Some s → is_Some (strptime s).

(** ** The run-time histograms *)

(** The run times of the tasks of one type that are in a done state and
    have a run time, in the order of the task list. *)
Definition done_times (name : string) (tasks : list Wstat.pTask) : list Z :=
  omap Wstat.runTime
       (filter (λ task, Wstat.task_name task = name ∧
                        Py.str_in "done" (Wstat.status task) = true) tasks).

(** What [histData] holds after the tasks [done]. *)
Definition hist_ok (done : list Wstat.pTask) (h : list (string * list Z)) : Prop :=
  NoDup h.*1 ∧
  ∀ name data, (name, data) ∈ h ↔ data ≠ [] ∧ data = done_times name done.

(** The names of the histograms drawn in a run, in order. *)
Definition plot_names (tr : list Wstat.event) : list string :=
  omap (λ e, match e with Wstat.Plot name _ => Some name | _ => None end) tr.

(** ** Sample data *)

Module Sample.
Import Wstat.

(** Stand-ins for the library calls: times are not parsed. *)
Definition strptime (_ : string) : option Z := None.
Definition strftime (_ : Z) : string := "".
Definition splitext (p : string) : string := p.

(** A task of [self.pTasks] with the given type and status. *)
Definition task (name status : string) : pTask :=
  PTask 0 name "000" status None 0 0 None None None None "None".

(** An instance whose task list is filled with [tasks]. *)
Definition filled (tasks : list pTask) : pmon :=
  Pmon [] ∅ ∅ 0 999999999 (-1) tasks true 0 ∅.

Definition db0 : database := Database [] [].

(** A database with one run, begun from the directory [runinfo/000], and
    two running tasks, one on [node07] and one without a host. *)
Definition run (id began rundir : string) : Workflow.row :=
  Workflow.Row id "workflow" (Some began) None "login01" "user" rundir 0 0.

Definition event (task_id : Z) (status : string) (host : option string)
    (timestamp : string) : TaskRow.row :=
  TaskRow.Row "run-a" task_id None 0 "add" None timestamp status host 0
              None None None.

Definition db1 : database :=
  Database [run "run-a" "2021-04-01 10:00:00.000000" "/work/runinfo/000"]
           [event 0 "running" (Some "node07") "2021-04-01 10:00:05.000000";
            event 1 "running" None "2021-04-01 10:00:06.000000"].

(** The same run with the three status events of task 0 stored out of
    order, and one event of task 1. *)
Definition db2 : database :=
  Database [run "run-a" "2021-04-01 10:00:00.000000" "/work/runinfo/000"]
           [event 0 "launched" None "2021-04-01 10:00:02.000000";
            event 1 "pending" None "2021-04-01 10:00:01.500000";
            event 0 "running" (Some "node07") "2021-04-01 10:00:05.000000";
            event 0 "pending" None "2021-04-01 10:00:01.000000"].

(** Two runs that share the database: the earlier one begun from
    [/a/runinfo/002], the later one from [/b/runinfo/000]. *)
Definition db3 : database :=
  Database [run "run-a" "2021-04-01 10:00:00.000000" "/a/runinfo/002";
            run "run-b" "2021-04-02 10:00:00.000000" "/b/runinfo/000"]
           [].

(** The instance the constructor builds on a database. *)
Definition loaded (db : database) : pmon :=
  match readWorkflowTable db fresh with
  | (_, Py.Ok (_, self)) => self
  | (_, Py.Raise _) => fresh
  end.

(** A row of the view [summary] with the given function and status. *)
Definition srow (function status : string) : SummaryRow.row :=
  SummaryRow.Row 1 0 0 function status None 0 0 None None None None None None.
End Sample.

(** ** More sample data *)

Module Sample2.
Import Wstat.

(** A run whose directory is recorded with a trailing slash. *)
Definition db_slash : database :=
  Database [Sample.run "run-a" "2021-04-01 10:00:00.000000" "/work/runinfo/000/"]
           [].

(** Two runs begun from [runinfo/000] and [runinfo/001]. *)
Definition db_two : database :=
  Database [Sample.run "run-a" "2021-04-01 10:00:00.000000" "/work/runinfo/000";
            Sample.run "run-b" "2021-04-02 10:00:00.000000" "/work/runinfo/001"]
           [].

(** Rows of the query of [loadWorkflowTable] for two runs. *)
Definition run2 (runnum : Z) (id : string) : Run.row :=
  Run.Row runnum id "workflow" None None None "login01" "user" 0 0
          "/work/runinfo/000".

Definition runs2 : list Run.row := [run2 1 "run-a"; run2 2 "run-b"].

(** A stand-in for [datetime.strptime] under which every text is a time:
    the number of its characters, in microseconds. *)
Definition strptime (s : string) : option Z := Some (Z.of_nat (String.length s)).
End Sample2.

(** * Properties *)

(** ** Sums over dictionaries *)

Section sums.
Import Py.
Local Open Scope nat_scope.

Lemma msum_empty {A} (f : A → nat) : msum f ∅ = 0.
Proof. unfold msum. by rewrite map_fold_empty. Qed.

Lemma msum_insert_fresh {A} (f : A → nat) (m : gmap string A) k v :
  m !! k = None → msum f (<[k := v]> m) = f v + msum f m.
Proof.
  intros Hk. unfold msum.
  rewrite map_fold_insert_L; [done | intros; lia | done].
Qed.

Lemma msum_lookup {A} (f : A → nat) (m : gmap string A) k v :
  m !! k = Some v → msum f m = f v + msum f (delete k m).
Proof.
  intros Hk. unfold msum.
  rewrite (map_fold_delete_L _ _ k v m); [done | intros; lia | done].
Qed.

(** Storing [v] under [k] replaces the contribution of the former value,
    if any, by that of [v]. *)
Lemma msum_insert {A} (f : A → nat) (m : gmap string A) k v :
  msum f (<[k := v]> m) + from_option f 0 (m !! k) = f v + msum f m.
Proof.
  destruct (m !! k) as [w|] eqn:Hk; simpl.
  - rewrite (msum_lookup f m k w Hk).
    rewrite <- (insert_delete_eq m k v).
    rewrite msum_insert_fresh by apply lookup_delete_eq. lia.
  - rewrite msum_insert_fresh by done. lia.
Qed.

(** The sum of a column list over a row after one cell is stored. *)
Lemma sum_insert_in (l : list string) (r : gmap string nat) k v :
  NoDup l → k ∈ l →
  sum_list ((λ s, <[k := v]> r !!! s) <$> l) + r !!! k
  = sum_list ((λ s, r !!! s) <$> l) + v.
Proof.
  induction 1 as [|x l Hx Hl IH]; intros Hin; [by apply elem_of_nil in Hin|].
  rewrite !fmap_cons. simpl.
  destruct (decide (x = k)) as [->|Hne].
  - rewrite lookup_total_insert_eq.
    assert (Hsame : (λ s, <[k := v]> r !!! s) <$> l = (λ s, r !!! s) <$> l).
    { apply list_fmap_ext. intros i s Hs.
      apply lookup_total_insert_ne. intros ->.
      apply Hx. by eapply list_elem_of_lookup_2. }
    rewrite Hsame. lia.
  - rewrite lookup_total_insert_ne by done.
    apply elem_of_cons in Hin as [->|Hin]; [done|].
    specialize (IH Hin). lia.
Qed.

Lemma sum_insert_notin (l : list string) (r : gmap string nat) k v :
  k ∉ l →
  sum_list ((λ s, <[k := v]> r !!! s) <$> l) = sum_list ((λ s, r !!! s) <$> l).
Proof.
  intros Hk. f_equal. apply list_fmap_ext. intros i s Hs.
  apply lookup_total_insert_ne. intros ->.
  apply Hk. by eapply list_elem_of_lookup_2.
Qed.

End sums.

(** ** The tally loop of the status aggregator *)

Section tally_facts.
Import Py Aggregator.
Local Open Scope nat_scope.

Variable statList : list string.
Hypothesis statList_NoDup : NoDup statList.
Hypothesis statList_TOTAL : "TOTAL" ∉ statList.

Local Abbreviation zero_row := (zero_row statList).
Local Abbreviation keys_ok := (keys_ok statList).
Local Abbreviation line := (line statList).
Local Abbreviation keys_inv := (keys_inv statList).
Local Abbreviation inv := (inv statList).
Local Abbreviation inv_keys := (inv_keys statList).
Local Abbreviation inv_no_total := (inv_no_total statList).
Local Abbreviation inv_rows := (inv_rows statList).
Local Abbreviation inv_grand := (inv_grand statList).
Local Abbreviation inv_cols := (inv_cols statList).
Local Abbreviation inv_cells := (inv_cells statList).

Lemma template_fold (l : list string) (d : gmap string nat) k :
  foldl (λ d state, <[state := 0]> d) d l !! k
  = if decide (k ∈ l) then Some 0 else d !! k.
Proof.
  revert d. induction l as [|x l IH]; intros d; simpl.
  - done.
  - rewrite IH. destruct (decide (k ∈ l)) as [Hl|Hl].
    + rewrite decide_True; [done | by right].
    + destruct (decide (k = x)) as [->|Hne].
      * rewrite lookup_insert_eq, decide_True; [done | by left].
      * rewrite lookup_insert_ne by done.
        rewrite decide_False; [done|].
        intros [?|?]%elem_of_cons; done.
Qed.

Lemma statTemplate_lookup k :
  statTemplate statList !! k = if decide (k ∈ statList) then Some 0 else None.
Proof. unfold statTemplate. by rewrite template_fold, lookup_empty. Qed.

Lemma zero_row_lookup k :
  zero_row !! k
  = if decide (k ∈ statList ∨ k = "TOTAL") then Some 0 else None.
Proof.
  unfold zero_row. destruct (decide (k = "TOTAL")) as [->|Hne].
  - rewrite lookup_insert_eq, decide_True; [done | by right].
  - rewrite lookup_insert_ne by done. rewrite statTemplate_lookup.
    destruct (decide (k ∈ statList)).
    + rewrite decide_True; [done | by left].
    + rewrite decide_False; [done | intros [?|?]; done].
Qed.

Lemma zero_row_total k : zero_row !!! k = 0.
Proof.
  rewrite lookup_total_alt, zero_row_lookup. by case_decide.
Qed.

Lemma zero_row_sum : row_sum statList zero_row = 0.
Proof.
  unfold row_sum.
  assert (H : ∀ l : list string, sum_list ((λ s, zero_row !!! s) <$> l) = 0).
  { induction l as [|x l IH]; [done|].
    rewrite fmap_cons. simpl. by rewrite zero_row_total, IH. }
  apply H.
Qed.

Lemma zero_row_keys : keys_ok zero_row.
Proof.
  intros k. rewrite zero_row_lookup.
  case_decide as H; split; intros H'; try done.
Qed.

Lemma keys_ok_insert r k v : keys_ok r → is_Some (r !! k) → keys_ok (<[k := v]> r).
Proof.
  intros Hr Hk j. destruct (decide (k = j)) as [->|Hne].
  - rewrite lookup_insert_eq. split; [intros _; by apply Hr | by eauto].
  - rewrite lookup_insert_ne by done. apply Hr.
Qed.

Lemma incr_Ok d k d' :
  incr d k = Ok d' → ∃ v, d !! k = Some v ∧ d' = <[k := S v]> d.
Proof.
  unfold incr. destruct (d !! k) as [v|]; [|done].
  intros [= <-]. eauto.
Qed.

Lemma incr_Some d k v : d !! k = Some v → incr d k = Ok (<[k := S v]> d).
Proof. unfold incr. by intros ->. Qed.

Lemma incr_None d k : d !! k = None → incr d k = Raise KeyError.
Proof. unfold incr. by intros ->. Qed.

Lemma getitem_Some {V} (d : gmap string V) k v :
  d !! k = Some v → getitem d k = Ok v.
Proof. unfold getitem. by intros ->. Qed.

Lemma bind_Ok {A B} (a : A) (k : A → res B) : (Ok a ≫= k) = k a.
Proof. done. Qed.

Lemma bind_Ok_inv {A B} (m : res A) (k : A → res B) b :
  (m ≫= k) = Ok b → ∃ a, m = Ok a ∧ k a = Ok b.
Proof. destruct m as [a|e]; [eauto | done]. Qed.

Lemma tally_step_Ok st tName tStat st' :
  tally_step statList st (tName, tStat) = Ok st' →
  is_Some (line st tName !! tStat) ∧
  is_Some (statTotals st !! tStat) ∧
  nTasks st' = S (nTasks st) ∧
  taskStats st'
    = <[tName := bump (line st tName) tStat]> (taskStats st) ∧
  statTotals st' = bump (statTotals st) tStat.
Proof.
  unfold tally_step, line. fold zero_row.
  assert (Hrow : ∃ stats n,
    (let '(n', s') := match taskStats st !! tName with
                       | Some _ => (nTaskTypes st, taskStats st)
                       | None => (S (nTaskTypes st), <[tName := zero_row]> (taskStats st))
                       end in (n', s')) = (n, stats) ∧
    stats !! tName = Some (default zero_row (taskStats st !! tName)) ∧
    ∀ r, <[tName := r]> stats = <[tName := r]> (taskStats st)).
  { destruct (taskStats st !! tName) as [r|] eqn:Hr; eexists _, _;
      (split; [done|]); simpl; split; try done.
    - apply lookup_insert_eq.
    - intros r. apply insert_insert_eq. }
  destruct Hrow as (stats & n & Heq & Hlk & Hins).
  destruct (match taskStats st !! tName with
            | Some _ => _ | None => _ end) as [n' s'].
  injection Heq as -> ->.
  rewrite (getitem_Some _ _ _ Hlk), bind_Ok.
  intros (r1 & H1 & Hk)%bind_Ok_inv.
  apply incr_Ok in H1 as (v & Hv & ->).
  rewrite (getitem_Some _ _ _ (lookup_insert_eq _ _ _)), bind_Ok in Hk.
  apply bind_Ok_inv in Hk as (r2 & H2 & Hk).
  apply incr_Ok in H2 as (w & Hw & ->).
  apply bind_Ok_inv in Hk as (t1 & H3 & Hk).
  apply incr_Ok in H3 as (u & Hu & ->).
  apply bind_Ok_inv in Hk as (t2 & H4 & Hk).
  apply incr_Ok in H4 as (x & Hx & ->).
  injection Hk as <-. simpl. unfold bump.
  rewrite !(lookup_total_correct _ _ _ Hv), !(lookup_total_correct _ _ _ Hw).
  rewrite !(lookup_total_correct _ _ _ Hu), !(lookup_total_correct _ _ _ Hx).
  rewrite insert_insert_eq, Hins. eauto 10.
Qed.

(** *** The cells after an increment *)

Lemma bump_total r tStat :
  tStat ≠ "TOTAL" → bump r tStat !!! "TOTAL" = S (r !!! "TOTAL").
Proof.
  intros Hne. unfold bump.
  by rewrite lookup_total_insert_eq, lookup_total_insert_ne.
Qed.

Lemma bump_same r tStat :
  tStat ≠ "TOTAL" → bump r tStat !!! tStat = S (r !!! tStat).
Proof.
  intros Hne. unfold bump.
  by rewrite lookup_total_insert_ne, lookup_total_insert_eq.
Qed.

Lemma bump_other r tStat s :
  s ≠ tStat → s ≠ "TOTAL" → bump r tStat !!! s = r !!! s.
Proof.
  intros H1 H2. unfold bump.
  by rewrite !lookup_total_insert_ne.
Qed.

Lemma bump_row_sum r tStat :
  tStat ∈ statList → row_sum statList (bump r tStat) = S (row_sum statList r).
Proof.
  intros Hin. unfold row_sum, bump.
  rewrite sum_insert_notin by done.
  pose proof (sum_insert_in statList r tStat (S (r !!! tStat))
                statList_NoDup Hin) as H.
  lia.
Qed.

Lemma bump_keys r tStat :
  keys_ok r → is_Some (r !! tStat) → keys_ok (bump r tStat).
Proof.
  intros Hr Hs. unfold bump.
  apply keys_ok_insert; [by apply keys_ok_insert|].
  destruct (decide (tStat = "TOTAL")) as [->|Hne].
  - rewrite lookup_insert_eq. eauto.
  - rewrite lookup_insert_ne by done. apply Hr. by right.
Qed.

(** *** The shape of the dictionaries: enough for the loop not to raise *)

Lemma line_keys st tName : keys_inv st → keys_ok (line st tName).
Proof.
  intros [Hrows _]. unfold line.
  destruct (taskStats st !! tName) as [r|] eqn:Hr; simpl; eauto using zero_row_keys.
Qed.

Lemma keys_inv_init : keys_inv (tally_init statList).
Proof.
  split; simpl.
  - intros t r. by rewrite lookup_empty.
  - apply zero_row_keys.
Qed.

Lemma keys_inv_step st task st' :
  keys_inv st → tally_step statList st task = Ok st' → keys_inv st'.
Proof.
  destruct task as [tName tStat].
  intros Hinv (Hl & Ht & _ & Hstats & Htot)%tally_step_Ok.
  split.
  - intros t r. rewrite Hstats.
    destruct (decide (tName = t)) as [->|Hne].
    + rewrite lookup_insert_eq. intros [= <-].
      apply bump_keys; [by apply line_keys | done].
    + rewrite lookup_insert_ne by done. apply Hinv.
  - rewrite Htot. apply bump_keys; [apply Hinv | done].
Qed.

Lemma tally_step_progress st tName tStat :
  keys_inv st → tStat ∈ statList →
  ∃ st', tally_step statList st (tName, tStat) = Ok st'.
Proof.
  intros Hinv Hin.
  pose proof (line_keys st tName Hinv) as Hline.
  assert (Hne : tStat ≠ "TOTAL") by (intros ->; done).
  destruct (proj2 (Hline tStat) (or_introl Hin)) as [v Hv].
  destruct (proj2 (Hline "TOTAL") (or_intror eq_refl)) as [w Hw].
  destruct (proj2 (proj2 Hinv tStat) (or_introl Hin)) as [u Hu].
  destruct (proj2 (proj2 Hinv "TOTAL") (or_intror eq_refl)) as [x Hx].
  unfold tally_step. fold zero_row.
  assert (Hrow : ∃ stats n,
    (let '(n', s') := match taskStats st !! tName with
                       | Some _ => (nTaskTypes st, taskStats st)
                       | None => (S (nTaskTypes st), <[tName := zero_row]> (taskStats st))
                       end in (n', s')) = (n, stats) ∧
    stats !! tName = Some (line st tName)).
  { unfold line. destruct (taskStats st !! tName) as [r|] eqn:Hr; eexists _, _;
      (split; [done|]); simpl; try done.
    apply lookup_insert_eq. }
  destruct Hrow as (stats & n & Heq & Hlk).
  destruct (match taskStats st !! tName with
            | Some _ => _ | None => _ end) as [n' s'].
  injection Heq as -> ->.
  rewrite (getitem_Some _ _ _ Hlk), bind_Ok.
  rewrite (incr_Some _ _ _ Hv), bind_Ok.
  rewrite (getitem_Some _ _ _ (lookup_insert_eq _ _ _)), bind_Ok.
  rewrite (incr_Some (<[tStat := S v]> (line st tName)) "TOTAL" w), bind_Ok
    by (by rewrite lookup_insert_ne).
  rewrite (incr_Some _ _ _ Hu), bind_Ok.
  rewrite (incr_Some (<[tStat := S u]> (statTotals st)) "TOTAL" x), bind_Ok
    by (by rewrite lookup_insert_ne).
  eauto.
Qed.

Lemma for_each_progress tasks st :
  keys_inv st → Forall (λ task, task.2 ∈ statList) tasks →
  ∃ st', for_each (tally_step statList) tasks st = Ok st'.
Proof.
  intros Hinv Hall. revert st Hinv.
  induction Hall as [|[tName tStat] tasks Hin _ IH]; intros st Hinv.
  - simpl. eauto.
  - destruct (tally_step_progress st tName tStat Hinv Hin) as [st1 H1].
    cbn [for_each]. rewrite H1. apply IH. by eapply keys_inv_step.
Qed.

(** *** The totals invariant of the loop *)

Lemma inv_init : inv 0 (tally_init statList).
Proof.
  split; simpl.
  - apply keys_inv_init.
  - apply lookup_empty.
  - intros t r. by rewrite lookup_empty.
  - by rewrite lookup_total_insert_eq.
  - intros s Hs. rewrite msum_empty. apply zero_row_total.
  - apply msum_empty.
Qed.

(** The line of [tName] before the iteration contributes to a sum what
    [line] says, a missing line contributing nothing. *)
Lemma from_option_line (f : gmap string nat → nat) st tName :
  f zero_row = 0 → from_option f 0 (taskStats st !! tName) = f (line st tName).
Proof. intros Hz. unfold line. by destruct (taskStats st !! tName). Qed.

Lemma line_total st n tName :
  inv n st → line st tName !!! "TOTAL" = row_sum statList (line st tName).
Proof.
  intros Hinv. unfold line.
  destruct (taskStats st !! tName) as [r|] eqn:Hr; simpl.
  - by eapply inv_rows.
  - by rewrite zero_row_total, zero_row_sum.
Qed.

Lemma inv_step n st tName tStat st' :
  inv n st → tName ≠ "TOTAL" → tStat ≠ "TOTAL" →
  tally_step statList st (tName, tStat) = Ok st' → inv (S n) st'.
Proof.
  intros Hinv HtN HtS Hstep.
  pose proof (keys_inv_step _ _ _ (inv_keys _ _ Hinv) Hstep) as Hkeys.
  apply tally_step_Ok in Hstep as (Hl & Ht & _ & Hstats & Htot).
  assert (Hin : tStat ∈ statList).
  { apply (line_keys st tName (inv_keys _ _ Hinv)) in Hl as [?|?]; done. }
  split; [done|..].
  - rewrite Hstats, lookup_insert_ne by done. apply (inv_no_total _ _ Hinv).
  - intros t r. rewrite Hstats.
    destruct (decide (tName = t)) as [->|Hne].
    + rewrite lookup_insert_eq. intros [= <-].
      rewrite bump_total, bump_row_sum by done.
      f_equal. by eapply line_total.
    + rewrite lookup_insert_ne by done. apply (inv_rows _ _ Hinv).
  - rewrite Htot, bump_total by done. f_equal. by eapply inv_grand.
  - intros s Hs. rewrite Htot, Hstats.
    pose proof (msum_insert (λ r, r !!! s) (taskStats st) tName
                  (bump (line st tName) tStat)) as Hsum.
    rewrite (from_option_line (λ r, r !!! s)) in Hsum by apply zero_row_total.
    pose proof (inv_cols _ _ Hinv s Hs) as Hcol.
    assert (Hs' : s ≠ "TOTAL") by (intros ->; done).
    destruct (decide (s = tStat)) as [->|Hne].
    + rewrite bump_same in * by done. simpl in Hsum. lia.
    + rewrite bump_other in * by done. simpl in Hsum. lia.
  - rewrite Hstats.
    pose proof (msum_insert (row_sum statList) (taskStats st) tName
                  (bump (line st tName) tStat)) as Hsum.
    rewrite (from_option_line (row_sum statList)) in Hsum by apply zero_row_sum.
    rewrite bump_row_sum in Hsum by done.
    pose proof (inv_cells _ _ Hinv). lia.
Qed.

Lemma inv_loop tasks : ∀ n st st',
  inv n st →
  Forall (λ task, task.1 ≠ "TOTAL" ∧ task.2 ≠ "TOTAL") tasks →
  for_each (tally_step statList) tasks st = Ok st' →
  inv (n + length tasks) st'.
Proof.
  induction tasks as [|[tName tStat] tasks IH]; intros n st st' Hinv Hall.
  - simpl. intros [= <-]. by rewrite Nat.add_0_r.
  - apply Forall_cons in Hall as [[HtN HtS] Hall]. cbn [for_each].
    destruct (tally_step statList st (tName, tStat)) as [st1|] eqn:H1; [|done].
    intros Hrest. simpl length. rewrite Nat.add_succ_r.
    apply (IH (S n) st1); [|done..].
    simpl in HtN, HtS. exact (inv_step _ _ _ _ _ Hinv HtN HtS H1).
Qed.

(** *** The matrix *)

(** The matrix of a row set without the reserved name: the three totals
    properties hold. *)
Lemma statusMatrix_ok tasks m :
  Forall (λ task, task.1 ≠ "TOTAL" ∧ task.2 ≠ "TOTAL") tasks →
  statusMatrix statList tasks = Ok (Matrix m) →
  matrix_ok statList (length tasks) m.
Proof.
  intros Hall. unfold statusMatrix.
  destruct (length tasks <? 1); [done|].
  intros (st & Hloop & [= <-])%bind_Ok_inv.
  pose proof (inv_loop tasks 0 _ _ inv_init Hall Hloop) as Hinv.
  simpl in Hinv.
  assert (Hrows : type_rows (<["TOTAL" := statTotals st]> (taskStats st))
                  = taskStats st).
  { unfold type_rows. rewrite delete_insert_eq.
    apply delete_id, (inv_no_total _ _ Hinv). }
  unfold matrix_ok, cells_sum, col_sum, cell. rewrite Hrows.
  rewrite lookup_total_insert_eq.
  rewrite (inv_cells _ _ Hinv), (inv_grand _ _ Hinv).
  repeat split; try done.
  - intros t r. apply (inv_rows _ _ Hinv).
  - apply (inv_cols _ _ Hinv).
Qed.

(** A non-empty row set whose statuses are all states yields a matrix. *)
Lemma statusMatrix_total tasks :
  tasks ≠ [] → Forall (λ task, task.2 ∈ statList) tasks →
  ∃ m, statusMatrix statList tasks = Ok (Matrix m).
Proof.
  intros Hne Hall. unfold statusMatrix.
  destruct tasks as [|task tasks]; [done|]. cbn [length Nat.ltb Nat.leb].
  destruct (for_each_progress (task :: tasks) _ keys_inv_init Hall) as [st Hst].
  rewrite Hst. simpl. eauto.
Qed.

(** A status that is neither a state nor ['TOTAL'] makes the call raise
    [KeyError]. *)
Lemma tally_step_KeyError st tName tStat :
  keys_inv st → tStat ∉ statList → tStat ≠ "TOTAL" →
  tally_step statList st (tName, tStat) = Raise KeyError.
Proof.
  intros Hinv Hnot Hne.
  pose proof (line_keys st tName Hinv) as Hline.
  assert (Hv : line st tName !! tStat = None).
  { apply eq_None_not_Some. intros [?|?]%Hline; done. }
  unfold tally_step. fold zero_row.
  assert (Hrow : ∃ stats n,
    (let '(n', s') := match taskStats st !! tName with
                       | Some _ => (nTaskTypes st, taskStats st)
                       | None => (S (nTaskTypes st), <[tName := zero_row]> (taskStats st))
                       end in (n', s')) = (n, stats) ∧
    stats !! tName = Some (line st tName)).
  { unfold line. destruct (taskStats st !! tName) as [r|] eqn:Hr; eexists _, _;
      (split; [done|]); simpl; try done.
    apply lookup_insert_eq. }
  destruct Hrow as (stats & n & Heq & Hlk).
  destruct (match taskStats st !! tName with
            | Some _ => _ | None => _ end) as [n' s'].
  injection Heq as -> ->.
  rewrite (getitem_Some _ _ _ Hlk), bind_Ok.
  by rewrite (incr_None _ _ Hv).
Qed.

End tally_facts.

(** ** Methods of wstat.py *)

Section method_facts.
Import Py Wstat.

Lemma M_bind_inv {A B} (m : M A) (k : A → M B) self tr r :
  (m ≫= k) self = (tr, r) →
  (∃ e, m self = (tr, Raise e) ∧ r = Raise e) ∨
  (∃ tr1 a self1 tr2,
      m self = (tr1, Ok (a, self1)) ∧ k a self1 = (tr2, r) ∧ tr = tr1 ++ tr2).
Proof.
  unfold mbind, M_bind.
  destruct (m self) as [tr1 [[a self1]|e]].
  - destruct (k a self1) as [tr2 r2] eqn:Hk. intros [= <- <-].
    right. eauto 10.
  - intros [= <- <-]. left. eauto.
Qed.

Lemma M_bind_Ok_inv {A B} (m : M A) (k : A → M B) self tr b self' :
  (m ≫= k) self = (tr, Ok (b, self')) →
  ∃ tr1 a self1 tr2,
    m self = (tr1, Ok (a, self1)) ∧ k a self1 = (tr2, Ok (b, self')) ∧
    tr = tr1 ++ tr2.
Proof. intros [(e & _ & [=])|H]%M_bind_inv; done. Qed.

Lemma lift_Ok_inv {A} (r : res A) self tr a self' :
  lift r self = (tr, Ok (a, self')) → r = Ok a ∧ tr = [] ∧ self' = self.
Proof. unfold lift. destruct r; intros [=]; by subst. Qed.

Variable strptime : string → option Z.
Variable strftime : Z → string.
Variable splitext : string → string.

(** What the loop leaves behind when it does not raise. *)
Lemma task_loop_Ok taskStatus tRowz : ∀ c self tr c' self',
  task_loop strptime strftime splitext taskStatus tRowz c self
    = (tr, Ok (c', self')) →
  let rows := processed taskStatus (taskLimit self) tRowz (grCount c) in
  tr = [] ∧
  (∃ tasks,
      Forall2 (λ row task, shape strptime strftime splitext self row = Ok task)
              rows tasks ∧
      pTasks self' = pTasks self ++ tasks) ∧
  nodeUsage self' = count_nodes (nodeUsage self) rows ∧
  nRunning c' = (nRunning c + length (filter is_running rows))%nat ∧
  wrows self' = wrows self ∧ runid2num self' = runid2num self ∧
  runnum2id self' = runnum2id self ∧ numRuns self' = numRuns self ∧
  runmin self' = runmin self ∧ runmax self' = runmax self ∧
  pTasksFilled self' = pTasksFilled self ∧ taskLimit self' = taskLimit self.
Proof.
  induction tRowz as [|row rest IH]; intros c self tr c' self'.
  - simpl. intros [= <- <- <-]. unfold count_nodes. simpl.
    split_and!; try done; try lia.
    exists []. by rewrite app_nil_r.
  - cbn [task_loop processed].
    destruct (keep taskStatus (TaskRow.task_status_name row)) eqn:Hkeep; simpl negb; cbv iota.
    2:{ intros H. apply IH in H. simpl in H. exact H. }
    intros (tra & s0 & sa & trb & Hget & Hk & ->)%M_bind_Ok_inv.
    injection Hget as <- <- <-.
    apply M_bind_Ok_inv in Hk as (trc & task & sc & trd & Hshape & Hk & ->).
    apply lift_Ok_inv in Hshape as (Hshape & -> & ->).
    apply M_bind_Ok_inv in Hk as (tre & [] & se & trf & Hput & Hk & ->).
    injection Hput as <- <-.
    destruct (bool_decide (TaskRow.task_status_name row = "running")) eqn:Hrun;
      cbn [rCount grCount nRunning taskLimit set_nodeUsage set_pTasks pTasks nodeUsage] in Hk.
    all: [> apply bool_decide_eq_true in Hrun | apply bool_decide_eq_false in Hrun ].
    all: unfold count_nodes; rewrite !filter_cons.
    all: [> rewrite !decide_True by exact Hrun | rewrite !decide_False by exact Hrun ].
    all: destruct ((0 <? taskLimit self) && (taskLimit self <=? Z.of_nat (S (grCount c))))
           eqn:Hbrk.
    all: try (injection Hk as <- <- <-; simpl;
              split_and!; try done; try lia;
              exists [task]; split; [by constructor | done]).
    all: apply IH in Hk; cbn [rCount grCount nRunning taskLimit set_nodeUsage
                                set_pTasks pTasks nodeUsage wrows runid2num runnum2id
                                numRuns runmin runmax pTasksFilled] in Hk.
    all: destruct Hk as (-> & (tasks & Hall & Hp') & Hn' & Hr' & Hw' & Hi' & Hj' &
                         Hnr' & Hmin' & Hmax' & Hf' & Hl').
    all: split_and!; try done; try (simpl; lia).
    all: exists (task :: tasks); split;
           [ constructor; [done | exact Hall]
           | by rewrite Hp', <- app_assoc ].
Qed.

Variable db : database.

Local Abbreviation task_rows := (task_rows db).

(** What a call of [getTaskData] that returns has done. *)
Lemma getTaskData_Ok runnum rep printSummary taskID taskStatus taskName
    self tr self' :
  getTaskData strptime strftime splitext db runnum rep printSummary
              taskID taskStatus taskName self = (tr, Ok ((), self')) →
  let rows := processed taskStatus (taskLimit self)
                        (task_rows rep taskID taskName) 0 in
  (∃ tasks,
      Forall2 (λ row task, shape strptime strftime splitext self row = Ok task)
              rows tasks ∧
      pTasks self' = pTasks self ++ tasks) ∧
  nodeUsage self' = count_nodes (nodeUsage self) rows ∧
  pTasksFilled self' = true ∧
  wrows self' = wrows self ∧ runid2num self' = runid2num self ∧
  runnum2id self' = runnum2id self ∧ runmin self' = runmin self ∧
  runmax self' = runmax self ∧ taskLimit self' = taskLimit self ∧
  tr = [QueryTasks rep (task_conds rep taskID taskName)] ++
       (if printSummary then [PrintTasks (pTasks self')] else []) ++
       (if (0 <? size (nodeUsage self'))%nat
        then [PrintNodeUsage (sorted_items (nodeUsage self'))
                             (size (nodeUsage self'))
                             (length (filter is_running rows))]
        else []).
Proof.
  unfold getTaskData.
  intros (tra & s0 & sa & trb & Hget & Hk & ->)%M_bind_Ok_inv.
  injection Hget as <- <- <-.
  apply M_bind_Ok_inv in Hk as (trc & rowindex & sc & trd & H1 & Hk & ->).
  apply lift_Ok_inv in H1 as (_ & -> & ->).
  apply M_bind_Ok_inv in Hk as (tre & wrow & se & trf & H2 & Hk & ->).
  apply lift_Ok_inv in H2 as (_ & -> & ->).
  apply M_bind_Ok_inv in Hk as (trg & n & sg & trh & H3 & Hk & ->).
  apply lift_Ok_inv in H3 as (_ & -> & ->).
  apply M_bind_Ok_inv in Hk as (tri & [] & si & trj & H4 & Hk & ->).
  injection H4 as <- <-.
  apply M_bind_Ok_inv in Hk as (trk & c & sk & trl & Hloop & Hk & ->).
  fold (task_conds rep taskID taskName) in *.
  change (match rep with
          | Summary => Sql.summary (task_conds rep taskID taskName) (joined db)
          | History => Sql.history (task_conds rep taskID taskName) (joined db)
          end) with (task_rows rep taskID taskName) in Hloop.
  apply task_loop_Ok in Hloop. cbn [grCount nRunning] in Hloop.
  destruct Hloop as (-> & Htasks & Hn & Hr & Hw & Hi & Hj & Hnr & Hmin & Hmax & Hf & Hl).
  apply M_bind_Ok_inv in Hk as (trm & s1 & sm & trn & Hget & Hk & ->).
  injection Hget as <- <- <-.
  apply M_bind_Ok_inv in Hk as (tro & [] & so & trp & Hprint & Hk & ->).
  apply M_bind_Ok_inv in Hk as (trq & [] & sq & trr & Hput & Hk & ->).
  injection Hput as <- <-.
  assert (Hso : so = sk ∧ tro = if printSummary then [PrintTasks (pTasks sk)] else []).
  { destruct printSummary; injection Hprint as <- <-; done. }
  destruct Hso as [-> ->].
  assert (Hend : self' = set_pTasksFilled sk true ∧
                 trr = if (0 <? size (nodeUsage sk))%nat
                       then [PrintNodeUsage (sorted_items (nodeUsage sk))
                                            (size (nodeUsage sk)) (nRunning c)]
                       else []).
  { destruct (0 <? size (nodeUsage sk))%nat; injection Hk as <- <-; done. }
  destruct Hend as [-> ->]. simpl.
  rewrite Hr. simpl.
  split_and!; try done.
Qed.

(** *** Node usage *)

Lemma count_node_sum usage host :
  msum (λ n, n) (count_node usage host) = S (msum (λ n, n) usage).
Proof.
  unfold count_node. fold (host_key host).
  pose proof (msum_insert (λ n : nat, n) usage (host_key host)) as H.
  destruct (usage !! host_key host) as [n|] eqn:Hn; simpl in H.
  - specialize (H (S n)). lia.
  - specialize (H 1%nat). lia.
Qed.

Lemma count_node_lookup usage host h :
  count_node usage host !!! h
  = ((usage !!! h) + (if decide (host_key host = h) then 1 else 0))%nat.
Proof.
  unfold count_node. fold (host_key host).
  destruct (decide (host_key host = h)) as [<-|Hne].
  - rewrite (lookup_total_alt usage).
    destruct (usage !! host_key host) as [n|]; simpl;
      rewrite lookup_total_insert_eq; lia.
  - destruct (usage !! host_key host) as [n|]; simpl;
      rewrite lookup_total_insert_ne by done; lia.
Qed.

Lemma count_nodes_sum rows : ∀ usage,
  msum (λ n, n) (count_nodes usage rows)
  = (msum (λ n, n) usage + length (filter is_running rows))%nat.
Proof.
  unfold count_nodes.
  induction (filter is_running rows) as [|row l IH]; intros usage; simpl.
  - lia.
  - rewrite IH, count_node_sum. lia.
Qed.

Lemma count_nodes_lookup rows h : ∀ usage,
  count_nodes usage rows !!! h
  = ((usage !!! h) +
     length (filter (λ row, host_key (TaskRow.hostname row) = h)
                    (filter is_running rows)))%nat.
Proof.
  unfold count_nodes.
  induction (filter is_running rows) as [|row l IH]; intros usage; simpl.
  - lia.
  - rewrite IH, count_node_lookup, filter_cons.
    destruct (decide (host_key (TaskRow.hostname row) = h)); simpl; lia.
Qed.

End method_facts.

(** ** The status matrix of both scripts *)

Section matrix_facts.
Import Py Aggregator.

Lemma wstat_statList_NoDup : NoDup Wstat.statList.
Proof. apply (bool_decide_unpack _). by vm_compute. Qed.

Lemma wstat_statList_TOTAL : "TOTAL" ∉ Wstat.statList.
Proof. apply (bool_decide_unpack _). by vm_compute. Qed.

Lemma wstat2_statList_NoDup : NoDup Wstat2.statList.
Proof. apply (bool_decide_unpack _). by vm_compute. Qed.

Lemma wstat2_statList_TOTAL : "TOTAL" ∉ Wstat2.statList.
Proof. apply (bool_decide_unpack _). by vm_compute. Qed.

Variable strptime : string → option Z.
Variable strftime : Z → string.
Variable splitext : string → string.
Variable db : Wstat.database.

(** [printStatusMatrix] once the task list is filled. *)
Lemma printStatusMatrix_filled runnum self :
  Wstat.pTasksFilled self = true →
  Wstat.printStatusMatrix strptime strftime splitext db runnum self
  = match statusMatrix Wstat.statList (wstat_pairs (Wstat.pTasks self)) with
    | Ok Nothing => ([Wstat.PrintNothingToDo], Ok ((), self))
    | Ok (Matrix m) => ([Wstat.PrintStatusMatrix m], Ok ((), self))
    | Raise e => ([], Raise e)
    end.
Proof.
  intros Hf. unfold Wstat.printStatusMatrix, wstat_pairs.
  unfold mbind at 1, Wstat.M_bind. simpl. rewrite Hf.
  unfold mbind at 1, Wstat.M_bind. simpl.
  unfold mbind at 1, Wstat.M_bind. simpl.
  unfold mbind at 1, Wstat.M_bind.
  destruct (statusMatrix _ _) as [[|m]|e]; done.
Qed.

(** Whenever [printStatusMatrix] prints a matrix, it is the tally of the
    task list it leaves in [self.pTasks]. *)
Lemma printStatusMatrix_printed runnum self tr self' m :
  Wstat.printStatusMatrix strptime strftime splitext db runnum self
    = (tr, Ok ((), self')) →
  Wstat.PrintStatusMatrix m ∈ tr →
  statusMatrix Wstat.statList (wstat_pairs (Wstat.pTasks self')) = Ok (Matrix m).
Proof.
  destruct (Wstat.pTasksFilled self) eqn:Hf.
  - rewrite printStatusMatrix_filled by done.
    destruct (statusMatrix _ _) as [[|m']|e] eqn:Hm; intros [= <- <-];
      intros Hin; apply list_elem_of_singleton in Hin; by simplify_eq.
  - unfold Wstat.printStatusMatrix.
    intros (tra & s0 & sa & trb & Hget & Hk & ->)%M_bind_Ok_inv.
    injection Hget as <- <- <-. rewrite Hf in Hk.
    apply M_bind_Ok_inv in Hk as (trc & [] & sc & trd & Hgtd & Hk & ->).
    apply getTaskData_Ok in Hgtd.
    destruct Hgtd as (_ & _ & _ & _ & _ & _ & _ & _ & _ & ->).
    apply M_bind_Ok_inv in Hk as (tre & s1 & se & trf & Hget & Hk & ->).
    injection Hget as <- <- <-.
    apply M_bind_Ok_inv in Hk as (trg & r & sg & trh & Hlift & Hk & ->).
    apply lift_Ok_inv in Hlift as (Hm & -> & ->).
    fold (wstat_pairs (Wstat.pTasks sc)) in Hm.
    assert (Hend : self' = sc ∧
              trh = match r with
                    | Nothing => [Wstat.PrintNothingToDo]
                    | Matrix m => [Wstat.PrintStatusMatrix m]
                    end).
    { destruct r; injection Hk as <- <-; done. }
    destruct Hend as [-> ->]. simpl.
    intros Hin. rewrite Hm. do 2 f_equal.
    apply elem_of_cons in Hin as [Hin|Hin]; [done|].
    apply elem_of_app in Hin as [Hin|Hin].
    + destruct (0 <? size _)%nat;
        [apply list_elem_of_singleton in Hin; done | by apply elem_of_nil in Hin].
    + destruct r; apply list_elem_of_singleton in Hin; by simplify_eq.
Qed.

End matrix_facts.

(** ** Status aggregator: totals (C1) *)

Section C1.
Import Py Aggregator.




End C1.

(** ** Status aggregator: a status outside the state list (C2) *)

Section C2.
Import Py Aggregator.

Lemma bind_Raise_inv {A B} (m : res A) (k : A → res B) e :
  (m ≫= k) = Raise e → m = Raise e ∨ ∃ a, m = Ok a ∧ k a = Raise e.
Proof. destruct m as [a|e']; [right; eauto | intros [= <-]; by left]. Qed.

Lemma getitem_Raise {V} (d : gmap string V) k e :
  getitem d k = Raise e → e = KeyError.
Proof. unfold getitem. destruct (d !! k); by intros [= <-]. Qed.

Lemma incr_Raise d k e : incr d k = Raise e → e = KeyError.
Proof. unfold incr. destruct (d !! k); by intros [= <-]. Qed.

(** The only exception an iteration of the tally can raise. *)
Lemma tally_step_Raise statList st task e :
  tally_step statList st task = Raise e → e = KeyError.
Proof.
  destruct task as [tName tStat]. unfold tally_step.
  destruct (match taskStats st !! tName with Some _ => _ | None => _ end)
    as [n stats].
  repeat (intros [H|(? & _ & H)]%bind_Raise_inv;
          [by (apply getitem_Raise in H || apply incr_Raise in H)|];
          revert H).
  done.
Qed.

(** A row set that holds a status outside the state list (and other than
    ['TOTAL']) makes the tally raise [KeyError]: no matrix is built. *)
Lemma statusMatrix_KeyError statList tasks :
  Exists (λ task, (task.2 ∉ statList) ∧ task.2 ≠ "TOTAL") tasks →
  statusMatrix statList tasks = Raise KeyError.
Proof.
  intros Hex. unfold statusMatrix.
  destruct tasks as [|task0 tasks0] eqn:Htasks; [by apply Exists_nil in Hex|].
  cbn [length Nat.ltb Nat.leb]. rewrite <- Htasks in *. clear Htasks.
  assert (Hloop : ∀ st, keys_inv statList st →
                        for_each (tally_step statList) tasks st = Raise KeyError).
  { induction Hex as [[tName tStat] rest [Hnot Hne]|task rest _ IH]; intros st Hinv.
    - cbn [for_each]. simpl in Hnot, Hne.
      by rewrite (tally_step_KeyError statList st tName tStat Hinv Hnot Hne).
    - cbn [for_each].
      destruct (tally_step statList st task) as [st1|e] eqn:Hstep.
      + apply IH. by eapply keys_inv_step.
      + by apply tally_step_Raise in Hstep as ->. }
  by rewrite (Hloop _ (keys_inv_init statList)).
Qed.

(** C2.  The code does not do what the claim says.  In wstat.py a task
    whose status is [running_ended] (a state of the vocabulary that the
    state list of wstat.py lacks), and in wstat2.py a task whose status is
    any text outside its state list, make the aggregator raise [KeyError]
    before anything is printed: the row is not counted under [unknown], no
    warning is issued and no matrix is rendered. *)
Theorem unknown_status_raises :
  Wstat.printStatusMatrix Sample.strptime Sample.strftime Sample.splitext
    Sample.db0 None (Sample.filled [Sample.task "add" "running_ended"])
  = ([], Raise KeyError) ∧
  Wstat2.taskStatusMatrix [Sample.srow "add" "cancelled"] Wstat2.fresh
  = Raise KeyError.
Proof. split; by vm_compute. Qed.

End C2.

(** ** Substrings *)

Section strings.
Import Py.

Lemma prefix_spec a b : String.prefix a b = true ↔ ∃ post, b = a +:+ post.
Proof.
  revert b. induction a as [|c a IH]; intros b.
  - destruct b; simpl; split; eauto.
  - destruct b as [|d b]; simpl.
    + split; [done | intros [post [=]]].
    + destruct (ascii_dec c d) as [->|Hne].
      * rewrite IH. split; intros [post Hp]; exists post.
        -- by rewrite Hp.
        -- by injection Hp.
      * split; [done | intros [post [=]]; done].
Qed.

(** [a in b] holds exactly when [b] is some text, then [a], then some
    text. *)
Lemma str_in_spec a b :
  str_in a b = true ↔ ∃ pre post, b = pre +:+ a +:+ post.
Proof.
  induction b as [|d b IH]; cbn [str_in].
  - rewrite orb_false_r, prefix_spec. split.
    + intros [post Hp]. by exists "", post.
    + intros (pre & post & Hp). destruct pre; [by exists post|done].
  - rewrite orb_true_iff, IH, prefix_spec. split.
    + intros [[post Hp]|(pre & post & Hp)].
      * by exists "", post.
      * exists (String d pre), post. simpl. by rewrite Hp.
    + intros (pre & post & Hp). destruct pre as [|c pre]; simpl in Hp.
      * left. by exists post.
      * right. injection Hp as -> ->. by exists pre, post.
Qed.

Lemma str_in_refl a : str_in a a = true.
Proof.
  apply str_in_spec. exists "", "".
  induction a as [|c a IH]; [done|].
  change (String c a = String c ("" +:+ a +:+ "")). by f_equal.
Qed.

End strings.

(** ** The status presets (C5) *)

Section C5.

(** C5, as stated, fails for wstat.py: the specification puts [joining]
    (and [running_ended]) in [runz], the [runz] of wstat.py holds neither,
    so the filter [runz] drops a task whose status is [joining]. *)
Lemma presets_counterexample :
  ∃ spec_runz runz,
    preset Spec.presets "runz" = Some spec_runz ∧
    preset Wstat.statPresets "runz" = Some runz ∧
    "joining" ∈ spec_runz ∧ ("joining" ∉ runz) ∧
    Wstat.keep (Some "runz") "joining" = false.
Proof.
  eexists _, _. split; [reflexivity|]. split; [reflexivity|].
  split_and!; [| |reflexivity]; apply (bool_decide_unpack _); by vm_compute.
Qed.

(** C5 (amended).  The presets of wstat2.py are exactly those of the
    specification, name by name and state by state.  The presets of
    wstat.py have the same four names; [notdone], [dead] and [oddball] are
    those of the specification, and [runz] is running, exec_done,
    memo_done, failed, dep_fail, fail_retryable: the [runz] of the
    specification without [joining] and [running_ended]. *)
Theorem presets_as_coded :
  Wstat2.statPresets = Spec.presets ∧
  Wstat.statPresets.*1 = Spec.presets.*1 ∧
  preset Wstat.statPresets "notdone" = preset Spec.presets "notdone" ∧
  preset Wstat.statPresets "dead" = preset Spec.presets "dead" ∧
  preset Wstat.statPresets "oddball" = preset Spec.presets "oddball" ∧
  preset Wstat.statPresets "runz"
  = Some ["running"; "exec_done"; "memo_done"; "failed"; "dep_fail";
          "fail_retryable"] ∧
  (∀ runz spec_runz s,
      preset Wstat.statPresets "runz" = Some runz →
      preset Spec.presets "runz" = Some spec_runz →
      s ∈ runz ↔ s ∈ spec_runz ∧ s ≠ "joining" ∧ s ≠ "running_ended").
Proof.
  split_and!; try reflexivity.
  intros runz spec_runz s H1 H2. vm_compute in H1, H2.
  injection H1 as <-. injection H2 as <-.
  rewrite !elem_of_cons, !elem_of_nil. split.
  - intros H. split; [tauto|].
    split; intros ->; repeat (destruct H as [H|H]; [discriminate H|]); done.
  - intros (H & ? & ?). tauto.
Qed.

(** The state [failed] belongs to both versions of [runz]. *)
Lemma presets_as_coded_witness :
  "failed" ∈ ["running"; "exec_done"; "memo_done"; "failed"; "dep_fail";
              "fail_retryable"] ↔
  "failed" ∈ ["running"; "joining"; "running_ended"; "exec_done"; "memo_done";
              "failed"; "dep_fail"; "fail_retryable"] ∧
  "failed" ≠ "joining" ∧ "failed" ≠ "running_ended".
Proof.
  apply (proj2 (proj2 (proj2 (proj2 (proj2 (proj2 presets_as_coded)))))).
  - reflexivity.
  - reflexivity.
Defined.

End C5.

(** ** Filtering (C4) *)

Section filter_facts.
Import Py.

Lemma preset_loop_spec ts status presets :
  Wstat.preset_loop ts status presets = true ↔
  ∃ states, (ts, states) ∈ presets ∧ status ∈ states.
Proof.
  induction presets as [|[prekey states] rest IH]; simpl.
  - split; [done | intros (? & []%elem_of_nil & _)].
  - destruct (bool_decide (ts = prekey) && bool_decide (status ∈ states)) eqn:Hb.
    + apply andb_true_iff in Hb as [->%bool_decide_eq_true Hin%bool_decide_eq_true].
      split; [|done]. intros _. exists states. split; [apply list_elem_of_here | done].
    + rewrite IH. split.
      * intros (st & Hin & Hs). exists st. split; [by apply list_elem_of_further | done].
      * intros (st & Hin & Hs).
        apply elem_of_cons in Hin as [[= -> ->]|Hin]; [|by exists st].
        apply andb_false_iff in Hb as [Hb|Hb]; apply bool_decide_eq_false in Hb; done.
Qed.

Lemma wstat_presets_NoDup : NoDup Wstat.statPresets.*1.
Proof. apply (bool_decide_unpack _). by vm_compute. Qed.

Lemma preset_elem_of ts states :
  preset Wstat.statPresets ts = Some states ↔ (ts, states) ∈ Wstat.statPresets.
Proof. unfold preset. symmetry. apply elem_of_list_to_map, wstat_presets_NoDup. Qed.

Lemma preset_is_key ts :
  ts ∈ Wstat.statPresets.*1 ↔ is_Some (preset Wstat.statPresets ts).
Proof.
  rewrite list_elem_of_fmap. split.
  - intros ([k states] & -> & Hin). exists states. by apply preset_elem_of.
  - intros [states Hs%preset_elem_of]. by exists (ts, states).
Qed.

(** A preset name keeps the statuses of its list. *)
Lemma keep_preset ts states status :
  preset Wstat.statPresets ts = Some states →
  Wstat.keep (Some ts) status = true ↔ status ∈ states.
Proof.
  intros Hp. unfold Wstat.keep.
  rewrite bool_decide_eq_true_2 by (apply preset_is_key; eauto).
  rewrite preset_loop_spec. split.
  - intros (states' & Hin%preset_elem_of & Hs). congruence.
  - intros Hs. exists states. split; [by apply preset_elem_of | done].
Qed.

(** Any other text keeps the statuses it occurs in. *)
Lemma keep_literal ts status :
  preset Wstat.statPresets ts = None →
  Wstat.keep (Some ts) status = true ↔ ∃ pre post, status = pre +:+ ts +:+ post.
Proof.
  intros Hp. unfold Wstat.keep.
  rewrite bool_decide_eq_false_2.
  - apply str_in_spec.
  - intros [states Hs]%preset_is_key. congruence.
Qed.

(** Without a task limit the loop shapes every kept row. *)
Lemma processed_no_limit taskStatus limit tRowz : ∀ gr,
  limit ≤ 0 →
  processed taskStatus limit tRowz gr
  = filter (λ row, Wstat.keep taskStatus (TaskRow.task_status_name row) = true) tRowz.
Proof.
  intros gr Hl. revert gr. induction tRowz as [|row rest IH]; intros gr; [done|].
  cbn [processed]. rewrite filter_cons.
  destruct (Wstat.keep taskStatus (TaskRow.task_status_name row)) eqn:Hk.
  - rewrite decide_True by done.
    replace (0 <? limit) with false by (symmetry; apply Z.ltb_ge; lia).
    simpl. by rewrite IH.
  - rewrite decide_False by done. apply IH.
Qed.

(** *** The rows of the queries *)

Lemma latest_elem_of rows r : Sql.latest rows = Some r → r ∈ rows.
Proof.
  unfold Sql.latest.
  assert (H : ∀ best,
    foldl (λ best r,
             match best with
             | None => Some r
             | Some b =>
                 if bool_decide (String.le (TaskRow.timestamp r) (TaskRow.timestamp b))
                 then Some b else Some r
             end) best rows = Some r →
    best = Some r ∨ r ∈ rows).
  { induction rows as [|x rows IH]; intros best; simpl; [by left|].
    intros [Hb|Hin]%IH; [|right; by right].
    destruct best as [b|]; [|injection Hb as ->; right; by left].
    destruct (bool_decide _); injection Hb as ->; [by left | right; by left]. }
  intros [?|?]%H; done.
Qed.

Lemma history_elem_of conds joined r :
  r ∈ Sql.history conds joined ↔ r ∈ joined ∧ Sql.where_ conds r = true.
Proof.
  unfold Sql.history. rewrite merge_sort_Permutation, list_elem_of_filter. tauto.
Qed.

Lemma summary_elem_of conds joined r :
  r ∈ Sql.summary conds joined → r ∈ joined ∧ Sql.where_ conds r = true.
Proof.
  unfold Sql.summary. rewrite list_elem_of_omap.
  intros (i & _ & Hl%latest_elem_of).
  apply list_elem_of_filter in Hl as [_ Hl].
  apply list_elem_of_filter in Hl. tauto.
Qed.

Lemma where_task_conds rep taskID taskName r :
  Sql.where_ (task_conds rep taskID taskName) r = true ↔
  (∀ id, taskID = Some id → Sql.holds (Sql.TaskIdIs id) r = true) ∧
  (∀ n, rep = Wstat.Summary → taskName = Some n → TaskRow.task_func_name r = n).
Proof.
  unfold Sql.where_, task_conds.
  destruct rep, taskID as [id|], taskName as [n|]; simpl;
    rewrite ?andb_true_r, ?andb_true_iff, ?bool_decide_eq_true;
    split; try done; try (intros; split; intros; simplify_eq; done).
  all: try (intros [H1 H2]; split; intros; simplify_eq; done).
  all: try (intros [H1 H2]; eauto; fail).
  all: try (intros H; split; intros; simplify_eq; done).
  all: try (intros [H1 H2]; split; eauto; fail).
Qed.

Lemma whereList_holds runnum tasknum taskid taskname status r :
  forallb (λ c, Wstat2.holds c r)
          (Wstat2.whereList runnum tasknum taskid taskname status) = true ↔
  (∀ n, runnum = Some n → SummaryRow.runnum r = n) ∧
  (∀ t, tasknum = Some t → Wstat2.num_is t (SummaryRow.tasknum r) = true) ∧
  (∀ t, taskid = Some t → Wstat2.num_is t (SummaryRow.task_id r) = true) ∧
  (∀ t, taskname = Some t → SummaryRow.function r = t) ∧
  (∀ t, status = Some t → SummaryRow.status r = t).
Proof.
  unfold Wstat2.whereList. rewrite !forallb_app, !andb_true_iff.
  assert (Hopt : ∀ {A} (x : option A) (mk : A → Wstat2.cond) (P : A → Prop),
             (∀ a, Wstat2.holds (mk a) r = true ↔ P a) →
             forallb (λ c, Wstat2.holds c r) (from_option (λ a, [mk a]) [] x) = true
             ↔ ∀ a, x = Some a → P a).
  { intros A [a|] mk P HP; simpl.
    - rewrite andb_true_r, HP. split; [by intros ? ? [= <-] | eauto].
    - split; [by intros | done]. }
  rewrite (Hopt _ runnum Wstat2.RunnumIs (λ n, SummaryRow.runnum r = n))
    by (intros; apply bool_decide_eq_true).
  rewrite (Hopt _ tasknum Wstat2.TasknumIs
             (λ t, Wstat2.num_is t (SummaryRow.tasknum r) = true)) by done.
  rewrite (Hopt _ taskid Wstat2.TaskIdIs
             (λ t, Wstat2.num_is t (SummaryRow.task_id r) = true)) by done.
  rewrite (Hopt _ taskname Wstat2.FunctionIs (λ t, SummaryRow.function r = t))
    by (intros; apply bool_decide_eq_true).
  rewrite (Hopt _ status Wstat2.StatusIs (λ t, SummaryRow.status r = t))
    by (intros; apply bool_decide_eq_true).
  done.
Qed.

End filter_facts.

Section C4.
Import Py.




End C4.

(** ** Node usage (C9) *)

Section C9.
Import Py.

Lemma processed_kept taskStatus limit tRowz : ∀ gr,
  Forall (λ row, Wstat.keep taskStatus (TaskRow.task_status_name row) = true)
         (processed taskStatus limit tRowz gr).
Proof.
  induction tRowz as [|row rest IH]; intros gr; cbn [processed]; [constructor|].
  destruct (Wstat.keep taskStatus (TaskRow.task_status_name row)) eqn:Hk; [|apply IH].
  constructor; [done|]. destruct (_ && _); [constructor | apply IH].
Qed.

Lemma processed_sublist taskStatus limit tRowz : ∀ gr,
  processed taskStatus limit tRowz gr `sublist_of` tRowz.
Proof.
  induction tRowz as [|row rest IH]; intros gr; cbn [processed]; [done|].
  destruct (Wstat.keep taskStatus (TaskRow.task_status_name row)).
  - apply sublist_skip. destruct (_ && _); [apply sublist_nil_l | apply IH].
  - apply sublist_cons, IH.
Qed.

(** C9.  After a call of [getTaskData] that returns, the counts of
    [self.nodeUsage] have grown in total by [nRunning], the number of
    running tasks counted in that pass and printed with the node usage
    summary; on the instance as the constructor leaves it ([nodeUsage]
    empty) their sum is [nRunning].  The count of every host key has grown
    by the number of rows of that pass that were kept by the status filter,
    whose status is exactly [running], and whose host is that key, with an
    absent host counted under the key [unknown]. *)
Theorem node_usage_counts_running
    strptime strftime splitext db runnum rep printSummary taskID taskStatus
    taskName self tr self' :
  Wstat.getTaskData strptime strftime splitext db runnum rep printSummary
                    taskID taskStatus taskName self = (tr, Ok ((), self')) →
  let rows := processed taskStatus (Wstat.taskLimit self)
                        (task_rows db rep taskID taskName) 0 in
  let nRunning := length (filter is_running rows) in
  msum (λ n, n) (Wstat.nodeUsage self')
  = (msum (λ n, n) (Wstat.nodeUsage self) + nRunning)%nat ∧
  (Wstat.nodeUsage self = ∅ → msum (λ n, n) (Wstat.nodeUsage self') = nRunning) ∧
  (∀ h, Wstat.nodeUsage self' !!! h
        = ((Wstat.nodeUsage self !!! h) +
           length (filter (λ row, host_key (TaskRow.hostname row) = h)
                          (filter is_running rows)))%nat) ∧
  Forall (λ row, Wstat.keep taskStatus (TaskRow.task_status_name row) = true)
         rows ∧
  ((0 < size (Wstat.nodeUsage self'))%nat →
   Wstat.PrintNodeUsage (Wstat.sorted_items (Wstat.nodeUsage self'))
                        (size (Wstat.nodeUsage self')) nRunning ∈ tr).
Proof.
  intros Hrun rows nRunning.
  apply getTaskData_Ok in Hrun.
  destruct Hrun as (_ & Hn & _ & _ & _ & _ & _ & _ & _ & ->).
  fold rows in Hn |- *. fold nRunning.
  split_and!.
  - rewrite Hn. apply count_nodes_sum.
  - intros He. rewrite Hn, count_nodes_sum, He. unfold msum.
    by rewrite map_fold_empty.
  - intros h. rewrite Hn. apply count_nodes_lookup.
  - apply processed_kept.
  - intros Hsize. apply Nat.ltb_lt in Hsize. rewrite Hsize.
    apply elem_of_cons. right. apply elem_of_app. right. apply list_elem_of_here.
Qed.

(** The scenario of the specification: a running task on [node07] and a
    running task without a host. *)
Lemma node_usage_counts_running_witness :
  ∃ tr self',
    Wstat.getTaskData Sample.strptime Sample.strftime Sample.splitext Sample.db1
      None Wstat.Summary false None None None (Sample.loaded Sample.db1)
    = (tr, Ok ((), self')) ∧
    msum (λ n, n) (Wstat.nodeUsage self') = 2%nat ∧
    Wstat.nodeUsage self' !!! "node07" = 1%nat ∧
    Wstat.nodeUsage self' !!! "unknown" = 1%nat.
Proof.
  eexists _, _. split; [vm_compute; reflexivity|].
  assert (H := node_usage_counts_running Sample.strptime Sample.strftime
                 Sample.splitext Sample.db1 None Wstat.Summary false None None None
                 (Sample.loaded Sample.db1) _ _ ltac:(vm_compute; reflexivity)).
  destruct H as (_ & Hsum & Hhost & _).
  split_and!.
  - rewrite Hsum by reflexivity. by vm_compute.
  - rewrite Hhost. by vm_compute.
  - rewrite Hhost. by vm_compute.
Defined.

End C9.

(** ** History mode: order of the rows (C8) *)

Section C8.
Import Py.

#[local] Instance by_task_then_time_trans : Transitive Sql.by_task_then_time.
Proof.
  intros a b c [Hab|[Hab Hab']] [Hbc|[Hbc Hbc']]; unfold Sql.by_task_then_time.
  - left. lia.
  - left. lia.
  - left. lia.
  - right. split; [lia|]. by etrans.
Qed.

#[local] Instance by_task_then_time_total : Total Sql.by_task_then_time.
Proof.
  intros a b. unfold Sql.by_task_then_time.
  destruct (Z.lt_trichotomy (TaskRow.task_id a) (TaskRow.task_id b))
    as [?|[?|?]]; [by left; left | | by right; left].
  destruct (total String.le (TaskRow.timestamp a) (TaskRow.timestamp b));
    [left | right]; right; done.
Qed.

#[local] Instance by_time_trans : Transitive Wstat2.by_time.
Proof. intros a b c. unfold Wstat2.by_time. apply transitivity. Qed.

#[local] Instance by_time_total : Total Wstat2.by_time.
Proof. intros a b. unfold Wstat2.by_time. apply total, _. Qed.

Lemma StronglySorted_sublist {A} (R : relation A) l1 l2 :
  l1 `sublist_of` l2 → StronglySorted R l2 → StronglySorted R l1.
Proof.
  induction 1 as [|x l1 l2 Hsub IH|x l1 l2 Hsub IH]; [done|..].
  - rewrite !StronglySorted_cons. intros [Hall Hs]. split; [|by apply IH].
    apply Forall_forall. intros y Hy.
    apply (proj1 (Forall_forall _ _) Hall). by eapply elem_of_sublist.
  - rewrite StronglySorted_cons. intros [_ Hs]. by apply IH.
Qed.

Lemma StronglySorted_weaken {A} (R1 R2 : relation A) (P : A → Prop) l :
  (∀ x y, P x → P y → R1 x y → R2 x y) →
  Forall P l → StronglySorted R1 l → StronglySorted R2 l.
Proof.
  intros HR. induction l as [|x l IH]; [constructor|].
  rewrite Forall_cons, !StronglySorted_cons. intros [Hx Hl] [Hall Hs].
  split; [|by apply IH].
  apply Forall_forall. intros y Hy. apply HR; [done| |].
  - by apply (proj1 (Forall_forall _ _) Hl).
  - by apply (proj1 (Forall_forall _ _) Hall).
Qed.

(** The rows of one task id, in the order [getTaskData] goes through them
    in History mode. *)
Lemma history_rows_of_task_sorted db taskID taskName taskStatus limit id :
  StronglySorted time_le
    (filter (λ row, TaskRow.task_id row = id)
            (processed taskStatus limit
                       (task_rows db Wstat.History taskID taskName) 0)).
Proof.
  apply (StronglySorted_weaken Sql.by_task_then_time time_le
           (λ row, TaskRow.task_id row = id)).
  - intros x y Hx Hy [Hlt|[_ Hle]]; [lia | done].
  - apply Forall_forall. by intros row [? _]%list_elem_of_filter.
  - eapply StronglySorted_sublist; [apply sublist_filter|].
    eapply StronglySorted_sublist; [apply processed_sublist|].
    unfold task_rows, Sql.history. apply StronglySorted_merge_sort; apply _.
Qed.

(** C8.  In History mode the rows that belong to one task id appear in
    non-decreasing timestamp order: in wstat.py, where the query orders by
    task id and then timestamp and [getTaskData] goes through its rows in
    that order, keeping or dropping each; and in wstat2.py, where the
    query of [taskHis] orders all its rows by timestamp.  (The order by
    clause is read as SQLite evaluates it on timestamps stored as text.) *)
Theorem history_rows_sorted :
  (∀ strptime strftime splitext db runnum printSummary taskID taskStatus
     taskName self tr self',
      Wstat.getTaskData strptime strftime splitext db runnum Wstat.History
        printSummary taskID taskStatus taskName self = (tr, Ok ((), self')) →
      ∃ rows tasks,
        Wstat.pTasks self' = Wstat.pTasks self ++ tasks ∧
        Forall2 (λ row task,
                   Wstat.shape strptime strftime splitext self row = Ok task)
                rows tasks ∧
        rows `sublist_of` Sql.history (task_conds Wstat.History taskID taskName)
                                      (Wstat.joined db) ∧
        ∀ id, StronglySorted time_le
                (filter (λ row, TaskRow.task_id row = id) rows)) ∧
  (∀ joined runnum tasknum status rows id,
      Wstat2.taskHis joined runnum (Some tasknum) status = Some rows →
      StronglySorted Wstat2.by_time
        (filter (λ row, HistoryRow.task_id row = id) rows)).
Proof.
  split.
  - intros strptime strftime splitext db runnum printSummary taskID taskStatus
           taskName self tr self' Hrun.
    apply getTaskData_Ok in Hrun as ((tasks & Hall & Hp) & _).
    eexists _, tasks. split_and!; [done | exact Hall | apply processed_sublist|].
    intros id. apply history_rows_of_task_sorted.
  - intros joined runnum tasknum status rows id [= <-].
    eapply StronglySorted_sublist; [apply sublist_filter|].
    apply StronglySorted_merge_sort; apply _.
Qed.

(** The history of a run whose status events are stored out of order. *)
Lemma history_rows_sorted_witness :
  ∃ tr self' rows tasks,
    Wstat.getTaskData Sample.strptime Sample.strftime Sample.splitext Sample.db2
      None Wstat.History false None None None (Sample.loaded Sample.db2)
    = (tr, Ok ((), self')) ∧
    Wstat.status <$> Wstat.pTasks self'
    = ["pending"; "launched"; "running"; "pending"] ∧
    Wstat.pTasks self' = Wstat.pTasks (Sample.loaded Sample.db2) ++ tasks ∧
    Forall2 (λ row task,
               Wstat.shape Sample.strptime Sample.strftime Sample.splitext
                           (Sample.loaded Sample.db2) row = Ok task)
            rows tasks ∧
    ∀ id, StronglySorted time_le
            (filter (λ row, TaskRow.task_id row = id) rows).
Proof.
  destruct (proj1 history_rows_sorted Sample.strptime Sample.strftime
              Sample.splitext Sample.db2 None false None None None
              (Sample.loaded Sample.db2) _ _ ltac:(vm_compute; reflexivity))
    as (rows & tasks & Hp & Hall & _ & Hsorted).
  eexists _, _, rows, tasks.
  split_and!; [vm_compute; reflexivity | by vm_compute | exact Hp | exact Hall
              | exact Hsorted].
Defined.

End C8.

(** ** The run index *)

Section index_facts.
Import Py.

Lemma lower_le nums : ∀ lo, lower lo nums ≤ lo ∧ ∀ n, n ∈ nums → lower lo nums ≤ n.
Proof.
  induction nums as [|x nums IH]; intros lo; simpl.
  - split; [lia | by intros n ?%elem_of_nil].
  - destruct (IH (if x <? lo then x else lo)) as [H1 H2].
    split; [destruct (Z.ltb_spec x lo); lia|].
    intros n [->|Hn]%elem_of_cons; [|by apply H2].
    destruct (Z.ltb_spec x lo); lia.
Qed.

Lemma upper_ge nums : ∀ hi, hi ≤ upper hi nums ∧ ∀ n, n ∈ nums → n ≤ upper hi nums.
Proof.
  induction nums as [|x nums IH]; intros hi; simpl.
  - split; [lia | by intros n ?%elem_of_nil].
  - destruct (IH (if hi <? x then x else hi)) as [H1 H2].
    split; [destruct (Z.ltb_spec hi x); lia|].
    intros n [->|Hn]%elem_of_cons; [|by apply H2].
    destruct (Z.ltb_spec hi x); lia.
Qed.

Lemma lower_elem_of nums : ∀ lo, lower lo nums = lo ∨ lower lo nums ∈ nums.
Proof.
  induction nums as [|x nums IH]; intros lo; simpl; [by left|].
  destruct (IH (if x <? lo then x else lo)) as [H|H].
  - rewrite H. destruct (x <? lo); [right; by left | by left].
  - right. by right.
Qed.

Lemma upper_elem_of nums : ∀ hi, upper hi nums = hi ∨ upper hi nums ∈ nums.
Proof.
  induction nums as [|x nums IH]; intros hi; simpl; [by left|].
  destruct (IH (if hi <? x then x else hi)) as [H|H].
  - rewrite H. destruct (hi <? x); [right; by left | by left].
  - right. by right.
Qed.

(** On a non-empty list whose numbers do not pass the initial bound, the
    bound ends as one of the numbers. *)
Lemma lower_attained lo nums :
  nums ≠ [] → Forall (λ n, n ≤ lo) nums → lower lo nums ∈ nums.
Proof.
  intros Hne Hall. destruct (lower_elem_of nums lo) as [H|H]; [|done].
  destruct nums as [|x nums]; [done|].
  pose proof (lower_le (x :: nums) lo) as [_ Hle].
  assert (x ≤ lo) by (by apply Forall_cons in Hall as [? _]).
  assert (lower lo (x :: nums) ≤ x) by (apply Hle; by left).
  assert (lower lo (x :: nums) = x) as -> by lia. by left.
Qed.

Lemma upper_attained hi nums :
  nums ≠ [] → Forall (λ n, hi ≤ n) nums → upper hi nums ∈ nums.
Proof.
  intros Hne Hall. destruct (upper_elem_of nums hi) as [H|H]; [|done].
  destruct nums as [|x nums]; [done|].
  pose proof (upper_ge (x :: nums) hi) as [_ Hle].
  assert (hi ≤ x) by (by apply Forall_cons in Hall as [? _]).
  assert (x ≤ upper hi (x :: nums)) by (apply Hle; by left).
  assert (upper hi (x :: nums) = x) as -> by lia. by left.
Qed.

Lemma num2id_lookup pairs : ∀ d n id,
  num2id d pairs !! n = Some id → d !! n = Some id ∨ (n, id) ∈ pairs.
Proof.
  induction pairs as [|[k v] pairs IH]; intros d n id; simpl; [by left|].
  intros [H|H]%IH; [|right; by right].
  destruct (decide (k = n)) as [->|Hne].
  - rewrite lookup_insert_eq in H. injection H as ->. right. by left.
  - rewrite lookup_insert_ne in H by done. by left.
Qed.

Lemma num2id_is_Some pairs : ∀ d n,
  is_Some (num2id d pairs !! n) ↔ is_Some (d !! n) ∨ n ∈ pairs.*1.
Proof.
  induction pairs as [|[k v] pairs IH]; intros d n; simpl.
  - split; [by left | by intros [?|?%elem_of_nil]].
  - rewrite IH, elem_of_cons. simpl.
    destruct (decide (k = n)) as [->|Hne].
    + rewrite lookup_insert_eq. split; [intros _; right; by left | eauto].
    + rewrite lookup_insert_ne by done. split; [tauto|].
      intros [?|[?|?]]; [by left | congruence | by right].
Qed.

(** With distinct run ids, the run registered under a number is the only
    one carrying that id. *)
Lemma num2id_last pairs : ∀ d,
  ∀ n, n ∈ pairs.*1 → ∃ id, num2id d pairs !! n = Some id ∧ (n, id) ∈ pairs.
Proof.
  induction pairs as [|[k v] pairs IH]; intros d n; simpl.
  - by intros ?%elem_of_nil.
  - intros Hin.
    destruct (decide (n ∈ pairs.*1)) as [Hn|Hn].
    + destruct (IH (<[k := v]> d) n Hn) as (id & Hl & Hid).
      exists id. split; [done | by right].
    + apply elem_of_cons in Hin as [->|Hin]; [|done].
      exists v. split; [|by left].
      destruct (num2id (<[k:=v]> d) pairs !! k) as [id|] eqn:Hl.
      * apply num2id_lookup in Hl as [Hl|Hl].
        -- by rewrite lookup_insert_eq in Hl.
        -- exfalso. apply Hn. apply list_elem_of_fmap. by exists (k, id).
      * assert (Hs : is_Some (num2id (<[k:=v]> d) pairs !! k)).
        { apply num2id_is_Some. left. rewrite lookup_insert_eq. eauto. }
        rewrite Hl in Hs. by destruct Hs.
Qed.

End index_facts.

(** ** The run index of wstat.py *)

Section wstat_index.
Import Py Wstat.

Lemma index_loop rows : ∀ self self',
  for_each index_row rows self = Ok self' →
  ∃ nums,
    Forall2 (λ row n, run_number row = Ok n) rows nums ∧
    runmin self' = lower (runmin self) nums ∧
    runmax self' = upper (runmax self) nums ∧
    runnum2id self'
    = num2id (runnum2id self) (zip nums (Workflow.run_id <$> rows)) ∧
    wrows self' = wrows self ∧ numRuns self' = numRuns self ∧
    pTasks self' = pTasks self ∧ pTasksFilled self' = pTasksFilled self ∧
    taskLimit self' = taskLimit self ∧ nodeUsage self' = nodeUsage self.
Proof.
  induction rows as [|row rows IH]; intros self self'; cbn [for_each].
  - intros [= <-]. exists []. split_and!; done.
  - destruct (index_row self row) as [self1|e] eqn:Hrow; [|done].
    intros (nums & Hall & Hlo & Hhi & Hd & Hw & Hn & Hp & Hf & Hl & Hu)%IH.
    unfold index_row in Hrow. fold (run_number row) in Hrow.
    destruct (run_number row) as [n|] eqn:Hn'; [|done].
    injection Hrow as <-. simpl in *.
    exists (n :: nums). split_and!; try done. by constructor.
Qed.

(** What the constructor leaves when it returns. *)
Lemma readWorkflowTable_Ok db self tr self' :
  readWorkflowTable db self = (tr, Ok ((), self')) →
  let rows := Sql.workflow_by_time_began (workflow db) in
  tr = [QueryWorkflow] ∧
  wrows self' = rows ∧
  numRuns self' = length rows ∧
  ∃ nums,
    Forall2 (λ row n, run_number row = Ok n) rows nums ∧
    runmin self' = lower (runmin self) nums ∧
    runmax self' = upper (runmax self) nums ∧
    runnum2id self' = num2id ∅ (zip nums (Workflow.run_id <$> rows)).
Proof.
  unfold readWorkflowTable.
  intros (tra & [] & sa & trb & Hemit & Hk & ->)%M_bind_Ok_inv.
  injection Hemit as <- <-.
  apply M_bind_Ok_inv in Hk as (trc & s0 & sc & trd & Hget & Hk & ->).
  unfold get in Hget. simplify_eq.
  apply M_bind_Ok_inv in Hk as (tre & s1 & se & trf & Hloop & Hk & ->).
  apply lift_Ok_inv in Hloop as (Hloop & -> & ->).
  unfold put in Hk. simplify_eq.
  apply index_loop in Hloop
    as (nums & Hall & Hlo & Hhi & Hd & Hw & Hn & Hp & Hf & Hl & Hu).
  simpl in *. split_and!; try done. by exists nums.
Qed.

(** *** Indexing the rows *)

Lemma index_nat {A} (l : list A) k x :
  l !! k = Some x → index l (Z.of_nat k) = Ok x.
Proof.
  intros Hk. unfold index. cbv zeta.
  assert (H : (Z.of_nat k <? 0) = false) by (apply Z.ltb_ge; lia).
  rewrite H. cbv iota. by rewrite H, Nat2Z.id, Hk.
Qed.

Lemma index_last {A} (l : list A) x : last l = Some x → index l (-1) = Ok x.
Proof.
  intros Hl. unfold index. cbv zeta.
  change (-1 <? 0) with true. cbv iota.
  assert (Hlen : (0 < length l)%nat) by (destruct l; [done | simpl; lia]).
  assert (H : (-1 + Z.of_nat (length l) <? 0) = false) by (apply Z.ltb_ge; lia).
  rewrite H.
  replace (Z.to_nat (-1 + Z.of_nat (length l))) with (pred (length l)) by lia.
  by rewrite <- last_lookup, Hl.
Qed.

Lemma index_nil {A} i : index (@nil A) i = Raise IndexError.
Proof.
  unfold index. simpl length.
  destruct (i <? 0); destruct (_ <? 0); try done; by rewrite lookup_nil.
Qed.

(** The loop of [selectRunID] stops at the first row that carries the id
    registered under the requested number. *)
Lemma selectRunID_loop_found self n id rows : ∀ rdx0,
  runnum2id self !! n = Some id →
  id ∈ Workflow.run_id <$> rows →
  ∃ k row, selectRunID_loop self n rows rdx0 = Ok (rdx0 + Z.of_nat k) ∧
           rows !! k = Some row ∧ Workflow.run_id row = id.
Proof.
  intros rdx0 Hid. revert rdx0.
  induction rows as [|row rows IH]; intros rdx0 Hin; [by apply elem_of_nil in Hin|].
  cbn [selectRunID_loop]. unfold getitem. rewrite Hid.
  change (Ok id ≫= ?k) with (k id). cbv beta.
  case_bool_decide as Heq.
  - exists 0%nat, row. split_and!; [f_equal; lia | done | done].
  - rewrite fmap_cons in Hin. apply elem_of_cons in Hin as [Hin|Hin]; [done|].
    destruct (IH (rdx0 + 1) Hin) as (k & r & Hl & Hk & Hr).
    exists (S k), r. split_and!; [rewrite Hl; f_equal; lia | done | done].
Qed.

Lemma selectRunID_loop_KeyError self n rows rdx0 :
  runnum2id self !! n = None → rows ≠ [] →
  selectRunID_loop self n rows rdx0 = Raise KeyError.
Proof.
  intros Hn Hne. destruct rows as [|row rows]; [done|].
  cbn [selectRunID_loop]. unfold getitem. by rewrite Hn.
Qed.

End wstat_index.

Section wstat_runs.
Import Py Wstat.

Lemma M_bind_Ok_run {A B} (m : M A) (k : A → M B) self tr1 a self1 :
  m self = (tr1, Ok (a, self1)) →
  (m ≫= k) self = (tr1 ++ (k a self1).1, (k a self1).2).
Proof.
  intros Hm. unfold mbind, M_bind. rewrite Hm. by destruct (k a self1).
Qed.

Lemma M_bind_Raise_run {A B} (m : M A) (k : A → M B) self tr e :
  m self = (tr, Raise e) → (m ≫= k) self = (tr, Raise e).
Proof. intros Hm. unfold mbind, M_bind. by rewrite Hm. Qed.

Lemma constructor_indexed db tr self :
  readWorkflowTable db fresh = (tr, Ok ((), self)) →
  tr = [QueryWorkflow] ∧ ∃ nums, indexed db self nums.
Proof.
  intros (-> & Hw & _ & nums & Hall & Hlo & Hhi & Hd)%readWorkflowTable_Ok.
  split; [done|]. exists nums. split; try done; by rewrite Hw.
Qed.

Section with_index.
Variables (db : database) (self : pmon) (nums : list Z).
Hypothesis Hix : indexed db self nums.

Lemma indexed_keys n : is_Some (runnum2id self !! n) ↔ n ∈ nums.
Proof.
  rewrite (ix_runnum2id _ _ _ Hix), num2id_is_Some, lookup_empty.
  rewrite fst_zip.
  - split; [intros [[? [=]]|?]; done | by right].
  - rewrite length_fmap.
    by rewrite (Forall2_length _ _ _ (ix_nums _ _ _ Hix)).
Qed.

Lemma indexed_nums n :
  n ∈ nums ↔ ∃ row, row ∈ workflow db ∧ run_number row = Ok n.
Proof.
  pose proof (ix_nums _ _ _ Hix) as Hall. split.
  - intros (i & Hi)%list_elem_of_lookup_1.
    destruct (Forall2_lookup_r _ _ _ _ _ Hall Hi) as (row & Hrow & Hn).
    exists row. split; [|done].
    apply list_elem_of_lookup_2 in Hrow.
    rewrite (ix_wrows _ _ _ Hix) in Hrow.
    unfold Sql.workflow_by_time_began in Hrow.
    by rewrite merge_sort_Permutation in Hrow.
  - intros (row & Hin & Hn).
    assert (Hin' : row ∈ wrows self).
    { rewrite (ix_wrows _ _ _ Hix). unfold Sql.workflow_by_time_began.
      by rewrite merge_sort_Permutation. }
    apply list_elem_of_lookup_1 in Hin' as (i & Hi).
    destruct (Forall2_lookup_l _ _ _ _ _ Hall Hi) as (m & Hm & Hn').
    rewrite Hn in Hn'. injection Hn' as ->. by eapply list_elem_of_lookup_2.
Qed.

Lemma indexed_bounds n : n ∈ nums → runmin self ≤ n ≤ runmax self.
Proof.
  intros Hn. rewrite (ix_runmin _ _ _ Hix), (ix_runmax _ _ _ Hix). split.
  - by apply lower_le.
  - by apply upper_ge.
Qed.

Lemma indexed_attained :
  nums ≠ [] → Forall (λ n, -1 ≤ n ≤ 999999999) nums →
  runmin self ∈ nums ∧ runmax self ∈ nums.
Proof.
  intros Hne Hall.
  rewrite (ix_runmin _ _ _ Hix), (ix_runmax _ _ _ Hix). split.
  - apply lower_attained; [done|]. eapply Forall_impl; [exact Hall|].
    simpl. lia.
  - apply upper_attained; [done|]. eapply Forall_impl; [exact Hall|].
    simpl. lia.
Qed.

(** The default request selects the last row in start-time order. *)
Lemma resolve_None row :
  last (wrows self) = Some row → resolve self None = Ok row.
Proof. intros Hl. unfold resolve. simpl. by apply index_last. Qed.

(** A number that some run carries selects a run with that number,
    provided the run ids are distinct. *)
Lemma resolve_Some n :
  NoDup (Workflow.run_id <$> workflow db) → n ∈ nums →
  ∃ row, resolve self (Some n) = Ok row ∧ row ∈ wrows self ∧
         run_number row = Ok n.
Proof.
  intros Hnd Hn.
  assert (Hnd' : NoDup (Workflow.run_id <$> wrows self)).
  { rewrite (ix_wrows _ _ _ Hix). unfold Sql.workflow_by_time_began.
    by rewrite merge_sort_Permutation. }
  pose proof (ix_nums _ _ _ Hix) as Hall.
  assert (Hlen : length nums = length (Workflow.run_id <$> wrows self)).
  { rewrite length_fmap. symmetry. by eapply Forall2_length. }
  destruct (num2id_last (zip nums (Workflow.run_id <$> wrows self)) ∅ n)
    as (id & Hid & Hpair).
  { rewrite fst_zip by lia. done. }
  rewrite <- (ix_runnum2id _ _ _ Hix) in Hid.
  apply list_elem_of_lookup_1 in Hpair as (i & Hi).
  apply lookup_zip_with_Some in Hi as (n' & id' & [= <- <-] & Hni & Hidi).
  rewrite list_lookup_fmap in Hidi.
  destruct (wrows self !! i) as [ri|] eqn:Hri; [|done].
  injection Hidi as Hidi.
  destruct (Forall2_lookup_l _ _ _ _ _ Hall Hri) as (m & Hm & Hnum).
  rewrite Hni in Hm. injection Hm as <-.
  destruct (selectRunID_loop_found self n id (wrows self) 0 Hid)
    as (k & row & Hsel & Hk & Hrow).
  { apply list_elem_of_fmap. exists ri. split; [done|].
    by eapply list_elem_of_lookup_2. }
  assert (k = i) as ->.
  { eapply NoDup_lookup; [exact Hnd'| |]; rewrite list_lookup_fmap.
    - rewrite Hk. simpl. by rewrite Hrow.
    - rewrite Hri. simpl. by rewrite Hidi. }
  rewrite Hri in Hk. injection Hk as <-.
  exists ri. split_and!; [|by eapply list_elem_of_lookup_2 | done].
  unfold resolve. simpl. rewrite Hsel. simpl.
  change (Ok ?x ≫= ?f) with (f x). by apply index_nat.
Qed.

End with_index.

End wstat_runs.

(** ** Resolving a run (C3) *)

Section C3.
Import Py Wstat.

(** [printWorkflowSummary] raises what resolving the run raises, before it
    prints. *)
Lemma printWorkflowSummary_Raise strptime strftime runnum self e :
  resolve self runnum = Raise e →
  printWorkflowSummary strptime strftime runnum self = ([], Raise e).
Proof.
  unfold resolve, printWorkflowSummary. intros Hres.
  unfold mbind at 1, M_bind. simpl.
  unfold mbind at 1, M_bind.
  destruct (selectRunID self runnum) as [rowindex|e'] eqn:Hsel; simpl.
  - change (Ok rowindex ≫= ?f) with (f rowindex) in Hres.
    unfold mbind at 1, M_bind. by rewrite Hres.
  - by injection Hres as ->.
Qed.

(** C3, as stated, fails.  Two runs share the database, the earlier one
    begun from the directory [/a/runinfo/002] and the later one from
    [/b/runinfo/000]: the bounds are 0 and 2, the default request resolves
    to the later run, whose number is 0 and not [runmax], and the request
    for run 1, inside the bounds, raises [KeyError] instead of returning a
    run or the range error. *)
Lemma resolve_run_counterexample :
  let self := Sample.loaded Sample.db3 in
  runmin self = 0 ∧ runmax self = 2 ∧
  (∃ row, resolve self None = Ok row ∧ run_number row = Ok 0) ∧
  resolve self (Some 1) = Raise KeyError ∧
  main Sample.strptime Sample.strftime Sample.splitext Sample.db3
       (Args.Make "shortSummary" (Some 1) None None None 0)
  = ([QueryWorkflow], Raise KeyError).
Proof.
  split_and!; try by vm_compute.
  eexists. split; by vm_compute.
Qed.

(** C3 (amended).  For every run table the constructor loads and whose run
    ids are distinct: the default request (None) resolves to the last run
    in start-time order; a requested number outside [runmin, runmax] makes
    the program print the range message and exit with status 1, with no
    query but the one of the constructor and no report; a requested number
    that a run of the table carries lies within the bounds and resolves to
    a run of the table with that number.  [printWorkflowSummary] raises
    what resolving raises, and otherwise prints the resolved run. *)
Theorem resolve_run strptime strftime splitext db tr self :
  readWorkflowTable db fresh = (tr, Ok ((), self)) →
  NoDup (Workflow.run_id <$> workflow db) →
  (∀ row, last (Sql.workflow_by_time_began (workflow db)) = Some row →
          resolve self None = Ok row) ∧
  (∀ n a, Args.runnum a = Some n → n < runmin self ∨ runmax self < n →
          main strptime strftime splitext db a
          = ([QueryWorkflow; PrintRunRangeError n (runmin self) (runmax self)],
             Raise (SystemExit 1))) ∧
  (∀ n, (∃ row, row ∈ workflow db ∧ run_number row = Ok n) →
        runmin self ≤ n ≤ runmax self ∧
        ∃ row, resolve self (Some n) = Ok row ∧ row ∈ workflow db ∧
               run_number row = Ok n) ∧
  (∀ runnum e, resolve self runnum = Raise e →
               printWorkflowSummary strptime strftime runnum self
               = ([], Raise e)).
Proof.
  intros Hinit Hnd.
  destruct (constructor_indexed _ _ _ Hinit) as (-> & nums & Hix).
  split_and!.
  - intros row Hl. apply resolve_None. by rewrite (ix_wrows _ _ _ Hix).
  - intros n a Ha Hout. unfold main.
    rewrite (M_bind_Ok_run _ _ _ _ _ _ Hinit).
    assert (Hchk : check_runnum (Args.runnum a) self
                   = ([PrintRunRangeError n (runmin self) (runmax self)],
                      Raise (SystemExit 1))).
    { rewrite Ha. unfold check_runnum. unfold mbind at 1, M_bind. simpl.
      replace ((runmax self <? n) || (n <? runmin self)) with true; [done|].
      symmetry. apply orb_true_iff.
      destruct Hout; [right | left]; by apply Z.ltb_lt. }
    by rewrite (M_bind_Raise_run _ _ _ _ _ Hchk).
  - intros n Hrow. apply (indexed_nums _ _ _ Hix) in Hrow.
    split; [by eapply indexed_bounds|].
    destruct (resolve_Some _ _ _ Hix n Hnd Hrow) as (row & Hres & Hin & Hn).
    exists row. split_and!; try done.
    rewrite (ix_wrows _ _ _ Hix) in Hin. unfold Sql.workflow_by_time_began in Hin.
    by rewrite merge_sort_Permutation in Hin.
  - intros runnum e. apply printWorkflowSummary_Raise.
Qed.

(** A database with a single run, requested by its number. *)
Lemma resolve_run_witness :
  ∃ row, resolve (Sample.loaded Sample.db1) (Some 0) = Ok row ∧
         row ∈ workflow Sample.db1 ∧ run_number row = Ok 0.
Proof.
  refine (proj2 (proj1 (proj2 (proj2
            (resolve_run Sample.strptime Sample.strftime Sample.splitext
               Sample.db1 _ (Sample.loaded Sample.db1) _ _))) 0 _)).
  - vm_compute. reflexivity.
  - apply (bool_decide_unpack _). by vm_compute.
  - eexists. split; [apply list_elem_of_here | by vm_compute].
Defined.

End C3.

(** ** An empty workflow table (C10) *)

Section C10.
Import Py Wstat.

Variable strptime : string → option Z.
Variable strftime : Z → string.
Variable splitext : string → string.

Lemma resolve_empty self : wrows self = [] → resolve self None = Raise IndexError.
Proof. intros Hw. unfold resolve. simpl. rewrite Hw. apply index_nil. Qed.

Lemma printWorkflowSummary_empty self :
  wrows self = [] →
  printWorkflowSummary strptime strftime None self = ([], Raise IndexError).
Proof. intros Hw. by apply printWorkflowSummary_Raise, resolve_empty. Qed.

(** Comparisons of report names are decided by evaluation. *)
Ltac eval_bool_decide :=
  repeat match goal with
         | |- context [bool_decide (?a = ?b)] =>
             let v := eval vm_compute in (bool_decide (a = b)) in
             change (bool_decide (a = b)) with v; cbv iota
         end.

(** The reports that begin by resolving the run. *)
Lemma report_empty db a self :
  wrows self = [] →
  Args.runnum a = None →
  Args.reportType a ∈ ["shortSummary"; "taskSummary"; "taskHistory"; "plot"] →
  report strptime strftime splitext db a self = ([], Raise IndexError).
Proof.
  intros Hw Hnone Hrep. unfold report. rewrite Hnone.
  pose proof (printWorkflowSummary_empty self Hw) as Hp.
  repeat (apply elem_of_cons in Hrep as [Hrt|Hrep];
          [ rewrite Hrt; eval_bool_decide;
            unfold shortSummary, taskSummary, plot;
            by rewrite (M_bind_Raise_run _ _ _ _ _ Hp) |]).
  by apply elem_of_nil in Hrep.
Qed.

Lemma readWorkflowTable_empty db :
  workflow db = [] →
  readWorkflowTable db fresh = ([QueryWorkflow], Ok ((), fresh)).
Proof. destruct db as [tbl joined]. simpl. by intros ->. Qed.

(** C10.  With an empty workflow table, resolving the default run gives the
    index -1 and indexing the empty list of rows raises [IndexError]: the
    reports of wstat.py that resolve a run (shortSummary, taskSummary,
    taskHistory, plot) end with that exception after the query of the
    constructor, with nothing printed; [printWorkflowSummary] of wstat2.py
    raises it in the same way. *)
Theorem empty_table_index_error db a :
  workflow db = [] →
  Args.runnum a = None →
  Args.reportType a ∈ ["shortSummary"; "taskSummary"; "taskHistory"; "plot"] →
  readWorkflowTable db fresh = ([QueryWorkflow], Ok ((), fresh)) ∧
  selectRunID fresh None = Ok (-1) ∧
  resolve fresh None = Raise IndexError ∧
  printWorkflowSummary strptime strftime None fresh = ([], Raise IndexError) ∧
  main strptime strftime splitext db a = ([QueryWorkflow], Raise IndexError) ∧
  (let self2 := Wstat2.loadWorkflowTable [] Wstat2.fresh in
   Wstat2.selectRunID self2 None = Ok (-1) ∧
   Wstat2.printWorkflowSummary self2 None = Raise IndexError).
Proof.
  intros Hdb Hnone Hrep.
  pose proof (readWorkflowTable_empty db Hdb) as Hinit.
  split_and!.
  - done.
  - done.
  - by apply resolve_empty.
  - by apply printWorkflowSummary_empty.
  - unfold main.
    rewrite (M_bind_Ok_run _ _ _ _ _ _ Hinit).
    assert (Hchk : check_runnum (Args.runnum a) fresh = ([], Ok ((), fresh)))
      by (by rewrite Hnone).
    rewrite (M_bind_Ok_run _ _ _ _ _ _ Hchk).
    assert (Hlim : ∃ self,
               (if 0 <? Args.taskLimit a
                then m ← get; put (set_taskLimit m (Args.taskLimit a))
                else mret ()) fresh = ([], Ok ((), self)) ∧ wrows self = []).
    { destruct (0 <? Args.taskLimit a); eexists; split; reflexivity. }
    destruct Hlim as (self & Hlim & Hw).
    rewrite (M_bind_Ok_run _ _ _ _ _ _ Hlim).
    by rewrite (report_empty db a self Hw Hnone Hrep).
  - done.
Qed.

End C10.

(** The default report on a database without runs. *)
Lemma empty_table_index_error_witness :
  Wstat.main Sample.strptime Sample.strftime Sample.splitext Sample.db0
             (Wstat.Args.Make "shortSummary" None None None None 0)
  = ([Wstat.QueryWorkflow], Py.Raise Py.IndexError).
Proof.
  refine (proj1 (proj2 (proj2 (proj2 (proj2
            (empty_table_index_error Sample.strptime Sample.strftime
               Sample.splitext Sample.db0 _ _ _ _)))))).
  - reflexivity.
  - reflexivity.
  - apply list_elem_of_here.
Defined.

(** ** Run numbers (C6) *)

Section wstat2_index.
Import Py.

Lemma wstat2_index_loop rows : ∀ self,
  let self' := foldl Wstat2.index_row self rows in
  Wstat2.runmin self' = lower (Wstat2.runmin self) (Run.runnum <$> rows) ∧
  Wstat2.runmax self' = upper (Wstat2.runmax self) (Run.runnum <$> rows) ∧
  Wstat2.runnum2id self'
  = num2id (Wstat2.runnum2id self)
           (zip (Run.runnum <$> rows) (Run.run_id <$> rows)) ∧
  Wstat2.wrows self' = Wstat2.wrows self.
Proof.
  induction rows as [|row rows IH]; intros self; [done|].
  simpl. destruct (IH (Wstat2.index_row self row)) as (Hlo & Hhi & Hd & Hw).
  by rewrite Hlo, Hhi, Hd, Hw.
Qed.

(** What [loadWorkflowTable] of wstat2.py builds from the rows of its
    query. *)
Lemma wstat2_loaded rows :
  let self := Wstat2.loadWorkflowTable rows Wstat2.fresh in
  Wstat2.wrows self = rows ∧
  Wstat2.runmin self = lower 999999999 (Run.runnum <$> rows) ∧
  Wstat2.runmax self = upper (-1) (Run.runnum <$> rows) ∧
  ∀ n, is_Some (Wstat2.runnum2id self !! n) ↔ n ∈ Run.runnum <$> rows.
Proof.
  unfold Wstat2.loadWorkflowTable. simpl.
  pose proof (wstat2_index_loop rows
                (Wstat2.Pmon rows ∅ ∅ 0 999999999 (-1) false []))
    as (Hlo & Hhi & Hd & Hw).
  simpl in *. rewrite Hlo, Hhi, Hd, Hw. split_and!; try done.
  intros n. rewrite num2id_is_Some, lookup_empty, fst_zip.
  - split; [intros [[? [=]]|?]; done | by right].
  - by rewrite !length_fmap.
Qed.

(** The numbers that the view of the specification gives: 1, 2, ... in
    start-time order. *)
Lemma workflow_query_runnums tbl :
  Run.runnum <$> Wstat2.workflow_query tbl
  = (λ i, Z.of_nat i + 1) <$> seq 0 (length tbl).
Proof.
  unfold Wstat2.workflow_query.
  assert (Hlen : length (Sql.workflow_by_time_began tbl) = length tbl).
  { unfold Sql.workflow_by_time_began. by rewrite merge_sort_Permutation. }
  rewrite <- Hlen. generalize (Sql.workflow_by_time_began tbl). intros l.
  rewrite fmap_imap.
  assert (H : ∀ (k : nat) (l : list Workflow.row),
             imap (λ i _, Z.of_nat (k + i) + 1) l
             = (λ i, Z.of_nat i + 1) <$> seq k (length l)).
  { intros k l0. revert k. induction l0 as [|x l0 IH]; intros k; [done|].
    simpl. rewrite Nat.add_0_r. f_equal.
    rewrite <- IH. apply imap_ext. intros i y _. simpl. f_equal. f_equal. lia. }
  rewrite <- (H 0%nat l). by apply imap_ext.
Qed.

Lemma elem_of_runnums (N : nat) n :
  n ∈ (λ i, Z.of_nat i + 1) <$> seq 0 N ↔ 1 ≤ n ≤ Z.of_nat N.
Proof.
  rewrite list_elem_of_fmap. split.
  - intros (i & -> & Hi%elem_of_seq). lia.
  - intros Hn. exists (Z.to_nat (n - 1)). split; [lia|].
    apply elem_of_seq. lia.
Qed.

End wstat2_index.

Section C6.
Import Py.

(** C6, as stated, fails for wstat.py: a database with a single run, begun
    from the directory [runinfo/000], gives that run the number 0; no run
    has the number 1, and both bounds are 0. *)
Lemma run_numbers_counterexample :
  let self := Sample.loaded Sample.db1 in
  Wstat.runnum2id self !! 0 = Some "run-a" ∧
  Wstat.runnum2id self !! 1 = None ∧
  Wstat.runmin self = 0 ∧ Wstat.runmax self = 0.
Proof. split_and!; by vm_compute. Qed.

(** C6 (amended).  In wstat.py the run number of a run is the number its
    run directory is named by, whatever the start-time order: the index
    holds exactly the numbers of the runs of the table, every one of them
    lies between [runmin] and [runmax], and on a non-empty table whose
    numbers lie between -1 and 999999999 (the initial bounds) [runmin] and
    [runmax] are themselves numbers of the index, hence its smallest and
    largest.  In wstat2.py the numbers are those of the column [runnum] of
    the view, with the same bounds properties; when the view numbers the
    runs as the specification says, the numbers in start-time order are 1,
    2, ..., the number of runs, and on a non-empty table [runmin] is 1 and
    [runmax] is the number of runs. *)
Theorem run_numbers :
  (∀ db tr self,
      Wstat.readWorkflowTable db Wstat.fresh = (tr, Ok ((), self)) →
      Wstat.wrows self = Sql.workflow_by_time_began (Wstat.workflow db) ∧
      (∀ n, is_Some (Wstat.runnum2id self !! n) ↔
            ∃ row, row ∈ Wstat.workflow db ∧ run_number row = Ok n) ∧
      (∀ n, is_Some (Wstat.runnum2id self !! n) →
            Wstat.runmin self ≤ n ≤ Wstat.runmax self) ∧
      (Wstat.workflow db ≠ [] →
       (∀ n, is_Some (Wstat.runnum2id self !! n) → -1 ≤ n ≤ 999999999) →
       is_Some (Wstat.runnum2id self !! Wstat.runmin self) ∧
       is_Some (Wstat.runnum2id self !! Wstat.runmax self))) ∧
  (∀ rows,
      let self := Wstat2.loadWorkflowTable rows Wstat2.fresh in
      Wstat2.wrows self = rows ∧
      (∀ n, is_Some (Wstat2.runnum2id self !! n) ↔ n ∈ Run.runnum <$> rows) ∧
      (∀ n, is_Some (Wstat2.runnum2id self !! n) →
            Wstat2.runmin self ≤ n ≤ Wstat2.runmax self) ∧
      (rows ≠ [] →
       (∀ n, is_Some (Wstat2.runnum2id self !! n) → -1 ≤ n ≤ 999999999) →
       is_Some (Wstat2.runnum2id self !! Wstat2.runmin self) ∧
       is_Some (Wstat2.runnum2id self !! Wstat2.runmax self))) ∧
  (∀ tbl,
      let self := Wstat2.loadWorkflowTable (Wstat2.workflow_query tbl)
                                           Wstat2.fresh in
      Run.runnum <$> Wstat2.wrows self
      = (λ i, Z.of_nat i + 1) <$> seq 0 (length tbl) ∧
      (∀ n, is_Some (Wstat2.runnum2id self !! n) ↔
            1 ≤ n ≤ Z.of_nat (length tbl)) ∧
      (tbl ≠ [] →
       Wstat2.runmin self = 1 ∧ Wstat2.runmax self = Z.of_nat (length tbl))).
Proof.
  split_and!.
  - intros db tr self Hinit.
    destruct (constructor_indexed _ _ _ Hinit) as (_ & nums & Hix).
    split_and!.
    + apply (ix_wrows _ _ _ Hix).
    + intros n. by rewrite (indexed_keys _ _ _ Hix), (indexed_nums _ _ _ Hix).
    + intros n Hn%(indexed_keys _ _ _ Hix). by eapply indexed_bounds.
    + intros Hne Hall.
      assert (Hnums : nums ≠ []).
      { intros ->. pose proof (ix_nums _ _ _ Hix) as H2.
        apply Forall2_nil_inv_r in H2. rewrite (ix_wrows _ _ _ Hix) in H2.
        apply Hne. apply Permutation_nil_r.
        rewrite <- H2. unfold Sql.workflow_by_time_began.
        by rewrite merge_sort_Permutation. }
      destruct (indexed_attained _ _ _ Hix Hnums) as [Hlo Hhi].
      { apply Forall_forall. intros n Hn. apply Hall.
        by apply (indexed_keys _ _ _ Hix). }
      split; by apply (indexed_keys _ _ _ Hix).
  - intros rows self.
    destruct (wstat2_loaded rows) as (Hw & Hlo & Hhi & Hkeys). fold self in Hw, Hlo, Hhi, Hkeys.
    split_and!; [done | done | |].
    + intros n Hn%Hkeys. rewrite Hlo, Hhi. split; [by apply lower_le | by apply upper_ge].
    + intros Hne Hall.
      assert (Hnums : Run.runnum <$> rows ≠ []) by (by destruct rows).
      rewrite !Hkeys, Hlo, Hhi. split.
      * apply lower_attained; [done|]. apply Forall_forall.
        intros n Hn%Hkeys%Hall. lia.
      * apply upper_attained; [done|]. apply Forall_forall.
        intros n Hn%Hkeys%Hall. lia.
  - intros tbl self.
    destruct (wstat2_loaded (Wstat2.workflow_query tbl)) as (Hw & Hlo & Hhi & Hkeys).
    fold self in Hw, Hlo, Hhi, Hkeys.
    pose proof (workflow_query_runnums tbl) as Hq.
    split_and!.
    + by rewrite Hw.
    + intros n. by rewrite Hkeys, Hq, elem_of_runnums.
    + intros Hne.
      assert (Hlen : (0 < length tbl)%nat) by (destruct tbl; [done | simpl; lia]).
      rewrite Hlo, Hhi, Hq.
      set (nums := (λ i, Z.of_nat i + 1) <$> seq 0 (length tbl)).
      assert (H1 : 1 ∈ nums) by (apply elem_of_runnums; lia).
      assert (HN : Z.of_nat (length tbl) ∈ nums) by (apply elem_of_runnums; lia).
      split.
      * pose proof (lower_le nums 999999999) as [_ Hle].
        specialize (Hle 1 H1).
        destruct (lower_elem_of nums 999999999) as [He|He]; [lia|].
        apply elem_of_runnums in He. lia.
      * pose proof (upper_ge nums (-1)) as [_ Hge].
        specialize (Hge _ HN).
        destruct (upper_elem_of nums (-1)) as [He|He]; [lia|].
        apply elem_of_runnums in He. lia.
Qed.

(** The run of the sample database is run 0 and bounds the index. *)
Lemma run_numbers_witness :
  Wstat.runmin (Sample.loaded Sample.db1) ≤ 0
  ≤ Wstat.runmax (Sample.loaded Sample.db1).
Proof.
  refine (proj1 (proj2 (proj2 (proj1 run_numbers Sample.db1 _
                                 (Sample.loaded Sample.db1) _))) 0 _).
  - vm_compute. reflexivity.
  - vm_compute. eauto.
Defined.

End C6.

(** ** Missing durations (C7) *)

Section C7.
Import Py Wstat.
Local Open Scope nat_scope.

Lemma plot_loop_spec tasks : ∀ t,
  (plot_loop tasks t).1 = warnings (nErrors t) (filter no_runtime tasks) ∧
  nErrors (plot_loop tasks t).2 = nErrors t + length (filter no_runtime tasks) ∧
  nTasks (plot_loop tasks t).2 = nTasks t + length tasks.
Proof.
  induction tasks as [|task tasks IH]; intros t.
  - simpl. split_and!; [done | lia | lia].
  - cbn [plot_loop].
    destruct (plot_step t task) as [tr1 t1] eqn:Hstep.
    destruct (plot_loop tasks t1) as [tr2 t2] eqn:Hloop.
    destruct (IH t1) as (Htr & Herr & Hn). rewrite Hloop in Htr, Herr, Hn.
    simpl in Htr, Herr, Hn. simpl fst. simpl snd.
    rewrite filter_cons. unfold plot_step in Hstep. simpl in Hstep.
    destruct (str_in "done" (status task)) eqn:Hdone.
    + destruct (runTime task) as [d|] eqn:Hrt.
      * injection Hstep as <- <-. simpl in *.
        rewrite decide_False by (unfold no_runtime; rewrite Hrt; intros [_ [=]]).
        split_and!; [done | lia | lia].
      * injection Hstep as <- <-. simpl in *.
        rewrite decide_True by (by unfold no_runtime).
        cbn [warnings length]. rewrite Htr. split_and!; [done | lia | lia].
    + injection Hstep as <- <-. simpl in *.
      rewrite decide_False by (unfold no_runtime; rewrite Hdone; intros [[=] _]).
      split_and!; [done | lia | lia].
Qed.

(** The first nine tasks without a run time are reported one by one, the
    tenth by the notice that there are too many, the others not at all. *)
Lemma warnings_capped tasks : ∀ nErrors,
  warnings nErrors tasks
  = (PrintNoRuntime <$> take (9 - nErrors) tasks) ++
    (if (nErrors <? 10) && (10 <=? nErrors + length tasks)
     then [PrintTooManyNoRuntime] else []).
Proof.
  induction tasks as [|task tasks IH]; intros e.
  - cbn [warnings length]. rewrite take_nil, Nat.add_0_r, fmap_nil.
    destruct (Nat.ltb_spec e 10); destruct (Nat.leb_spec 10 e); simpl; try done; lia.
  - cbn [warnings length]. rewrite IH.
    destruct (Nat.ltb_spec (S e) 10) as [H9|H9].
    + replace (9 - e) with (S (9 - S e)) by lia. simpl.
      replace (e <? 10) with true by (symmetry; apply Nat.ltb_lt; lia).
      replace (S e <? 10) with true by (symmetry; apply Nat.ltb_lt; lia).
      by replace (e + S (length tasks)) with (S e + length tasks) by lia.
    + replace (9 - S e) with 0 by lia. replace (9 - e) with 0 by lia.
      rewrite !take_0, !fmap_nil.
      replace (S e <? 10) with false by (symmetry; apply Nat.ltb_ge; lia).
      rewrite andb_false_l, app_nil_r, app_nil_l.
      destruct (Nat.eqb_spec (S e) 10) as [H10|H10].
      * replace (e <? 10) with true by (symmetry; apply Nat.ltb_lt; lia).
        by replace (10 <=? e + S (length tasks)) with true
          by (symmetry; apply Nat.leb_le; lia).
      * by replace (e <? 10) with false by (symmetry; apply Nat.ltb_ge; lia).
Qed.

Lemma for_emit tr self : for_ tr emit self = (tr, Ok ((), self)).
Proof.
  induction tr as [|e tr IH]; [done|]. cbn [for_].
  unfold mbind, M_bind. simpl. by rewrite IH.
Qed.

Lemma for_plots (hist : list (string * list Z)) self :
  for_ hist (λ '(task, data), emit (Plot task data)) self
  = ((λ '(task, data), Plot task data) <$> hist, Ok ((), self)).
Proof.
  induction hist as [|[task data] hist IH]; [done|]. cbn [for_].
  unfold mbind, M_bind. simpl. by rewrite IH.
Qed.

(** C7.  A duration with an absent endpoint is absent: [timeDiff] returns
    None (it neither raises nor returns zero) as soon as one of the two
    times is None, and so is the run time of the task that [getTaskData]
    builds from a row whose start or end time is absent.  On a filled,
    non-empty task list [plotStats] runs its tally to the end and returns:
    of the tasks in a done state without a run time, the first nine are
    reported one by one, the tenth by the notice that there are too many,
    the later ones not at all, and all are counted in the totals line. *)
Theorem missing_durations :
  (∀ strptime start end_,
      start = None ∨ end_ = None → timeDiff strptime start end_ = Ok None) ∧
  (∀ strptime strftime splitext self row task,
      shape strptime strftime splitext self row = Ok task →
      TaskRow.task_try_time_running row = None ∨
      TaskRow.task_try_time_returned row = None →
      runTime task = None) ∧
  (∀ strptime strftime splitext db runnum self,
      pTasksFilled self = true → pTasks self ≠ [] →
      let missing := filter no_runtime (pTasks self) in
      ∃ t,
        plotStats strptime strftime splitext db runnum self
        = ([PrintTaskCount (length (pTasks self))] ++
           (PrintNoRuntime <$> take 9 missing) ++
           (if 10 <=? length missing then [PrintTooManyNoRuntime] else []) ++
           [PrintPlotTotals (nTasks t) (nTaskTypes t) (nDone t) (nErrors t)] ++
           ((λ '(task, data), Plot task data) <$> histData t),
           Ok ((), self)) ∧
        nErrors t = length missing ∧
        nTasks t = length (pTasks self)).
Proof.
  split_and!.
  - intros strptime start end_ [-> | ->]; [done | by destruct start].
  - intros strptime strftime splitext self row task Hshape Hnone.
    unfold shape in Hshape.
    do 4 (apply bind_Ok_inv in Hshape as (? & _ & Hshape)).
    apply bind_Ok_inv in Hshape as (diff & Hdiff & Hshape).
    assert (Hd : timeDiff strptime (TaskRow.task_try_time_running row)
                          (TaskRow.task_try_time_returned row) = Ok None).
    { destruct Hnone as [-> | ->]; [done|].
      by destruct (TaskRow.task_try_time_running row). }
    rewrite Hd in Hdiff. injection Hdiff as <-. by injection Hshape as <-.
  - intros strptime strftime splitext db runnum self Hf Hne missing.
    exists (plot_loop (pTasks self) (PlotTally [] 0 0 0 0)).2.
    pose proof (plot_loop_spec (pTasks self) (PlotTally [] 0 0 0 0))
      as (Htr & Herr & Hn).
    simpl in Htr, Herr, Hn. fold missing in Htr, Herr.
    split_and!; [|done|done].
    unfold plotStats. unfold mbind at 1, M_bind. simpl. rewrite Hf.
    unfold mbind at 1, M_bind. simpl.
    unfold mbind at 1, M_bind. simpl.
    destruct (pTasks self) as [|task0 tasks0] eqn:Htasks; [done|].
    cbn [length Nat.ltb Nat.leb]. rewrite <- Htasks in *.
    destruct (plot_loop (pTasks self) (PlotTally [] 0 0 0 0)) as [tr t] eqn:Hloop.
    simpl in Htr. simpl snd.
    unfold mbind, M_bind. simpl.
    rewrite for_emit. simpl. rewrite for_plots.
    rewrite Htr, warnings_capped. simpl.
    replace (9 - 0) with 9 by done.
    by rewrite <- !app_assoc.
Qed.

End C7.

(** The scenario of the specification: a task marked [exec_done] that has
    no run time. *)
Lemma missing_durations_witness :
  let self := Sample.filled [Sample.task "add" "exec_done"] in
  ∃ t, Wstat.plotStats Sample.strptime Sample.strftime Sample.splitext Sample.db0
         None self
       = ([Wstat.PrintTaskCount 1; Wstat.PrintNoRuntime (Sample.task "add" "exec_done");
           Wstat.PrintPlotTotals (Wstat.nTasks t) (Wstat.nTaskTypes t)
                                 (Wstat.nDone t) (Wstat.nErrors t)] ++
          ((λ '(task, data), Wstat.Plot task data) <$> Wstat.histData t),
          Py.Ok ((), self)) ∧
       Wstat.nErrors t = 1%nat ∧ Wstat.nTasks t = 1%nat.
Proof.
  refine (proj2 (proj2 missing_durations) Sample.strptime Sample.strftime
            Sample.splitext Sample.db0 None
            (Sample.filled [Sample.task "add" "exec_done"]) _ _).
  - reflexivity.
  - discriminate.
Defined.

(** ** Status aggregator: the tally in closed form *)

Section tally_closed_form.
Import Py Aggregator.
Local Open Scope nat_scope.

Variable statList : list string.

Local Abbreviation line := (line statList).
Local Abbreviation keys_inv := (keys_inv statList).
Local Abbreviation keys_ok := (keys_ok statList).

Lemma incr_lookup_total d k :
  is_Some (d !! k) → incr d k = Ok (<[k := S (d !!! k)]> d).
Proof.
  intros [v Hv]. by rewrite (incr_Some _ _ _ Hv), (lookup_total_correct _ _ _ Hv).
Qed.

(** One iteration of the loop on a well-shaped state: it raises exactly
    when the status is not a key of the lines. *)
Lemma tally_step_eq st tName tStat :
  keys_inv st →
  tally_step statList st (tName, tStat)
  = if decide (tStat ∈ statList ∨ tStat = "TOTAL")
    then Ok (Tally (S (nTasks st))
                   (match taskStats st !! tName with
                    | Some _ => nTaskTypes st
                    | None => S (nTaskTypes st)
                    end)
                   (<[tName := bump (line st tName) tStat]> (taskStats st))
                   (bump (statTotals st) tStat))
    else Raise KeyError.
Proof.
  intros Hinv. case_decide as Hs.
  2:{ apply tally_step_KeyError; [done|..]; intros ?; apply Hs; auto. }
  pose proof (line_keys statList st tName Hinv) as Hline.
  assert (H1 : is_Some (line st tName !! tStat)) by by apply Hline.
  assert (H3 : is_Some (statTotals st !! tStat)) by by apply Hinv.
  assert (H2 : is_Some (<[tStat := S (line st tName !!! tStat)]> (line st tName)
                        !! "TOTAL")).
  { apply (keys_ok_insert statList); [done..|]. by right. }
  assert (H4 : is_Some (<[tStat := S (statTotals st !!! tStat)]> (statTotals st)
                        !! "TOTAL")).
  { apply (keys_ok_insert statList); [apply Hinv | done |]. by right. }
  unfold tally_step. fold (zero_row statList).
  assert (Hrow : ∃ stats,
    (match taskStats st !! tName with
     | Some _ => (nTaskTypes st, taskStats st)
     | None => (S (nTaskTypes st), <[tName := zero_row statList]> (taskStats st))
     end) = (match taskStats st !! tName with
             | Some _ => nTaskTypes st
             | None => S (nTaskTypes st)
             end, stats) ∧
    stats !! tName = Some (line st tName) ∧
    ∀ r, <[tName := r]> stats = <[tName := r]> (taskStats st)).
  { unfold line. destruct (taskStats st !! tName) as [r|] eqn:Hr; eexists;
      (split; [done|]); simpl; split; try done.
    - apply lookup_insert_eq.
    - intros r. apply insert_insert_eq. }
  destruct Hrow as (stats & -> & Hlk & Hins).
  rewrite (getitem_Some _ _ _ Hlk), bind_Ok.
  rewrite (incr_lookup_total _ _ H1), bind_Ok.
  rewrite (getitem_Some _ _ _ (lookup_insert_eq _ _ _)), bind_Ok.
  rewrite (incr_lookup_total _ _ H2), bind_Ok.
  rewrite (incr_lookup_total _ _ H3), bind_Ok.
  rewrite (incr_lookup_total _ _ H4), bind_Ok.
  rewrite insert_insert_eq, Hins. done.
Qed.

(** *** The cells after an increment, for every key *)

Lemma bump_lookup_total r a k :
  bump r a !!! k
  = r !!! k + (if decide (k = a) then 1 else 0)
            + (if decide (k = "TOTAL") then 1 else 0).
Proof.
  unfold bump.
  destruct (decide (k = "TOTAL")) as [->|Hk].
  - rewrite lookup_total_insert_eq.
    destruct (decide ("TOTAL" = a)) as [<-|Ha].
    + rewrite lookup_total_insert_eq. lia.
    + rewrite lookup_total_insert_ne by done. lia.
  - rewrite lookup_total_insert_ne by done.
    destruct (decide (k = a)) as [->|Ha].
    + rewrite lookup_total_insert_eq. lia.
    + rewrite lookup_total_insert_ne by done. lia.
Qed.

Lemma bump_lookup r a k :
  bump r a !! k
  = if decide (k = a ∨ k = "TOTAL") then Some (bump r a !!! k) else r !! k.
Proof.
  case_decide as Hk.
  - assert (H : is_Some (bump r a !! k)).
    { unfold bump. destruct (decide (k = "TOTAL")) as [->|Hne].
      - rewrite lookup_insert_eq. eauto.
      - destruct Hk as [->|?]; [|done].
        rewrite lookup_insert_ne, lookup_insert_eq by done. eauto. }
    destruct H as [v Hv]. by rewrite (lookup_total_correct _ _ _ Hv).
  - unfold bump. rewrite !lookup_insert_ne; [done|..]; intros <-; apply Hk; auto.
Qed.

(** Two increments of one line commute. *)
Lemma bump_comm r a b : bump (bump r a) b = bump (bump r b) a.
Proof.
  apply map_eq. intros k. rewrite !bump_lookup, !bump_lookup_total.
  repeat case_decide; try done; try (f_equal; lia); try tauto.
Qed.

Lemma line_insert st n1 n2 t r totals t' :
  line (Tally n1 n2 (<[t := r]> (taskStats st)) totals) t'
  = if decide (t = t') then r else line st t'.
Proof.
  unfold line. simpl. case_decide as Ht.
  - subst. by rewrite lookup_insert_eq.
  - by rewrite lookup_insert_ne.
Qed.

(** Two iterations commute, as computations that may raise. *)
Lemma tally_step_comm st a b :
  keys_inv st →
  (tally_step statList st a ≫= λ st1, tally_step statList st1 b)
  = (tally_step statList st b ≫= λ st1, tally_step statList st1 a).
Proof.
  intros Hinv. destruct a as [ta sa], b as [tb sb].
  assert (Hnext : ∀ t s st1,
            tally_step statList st (t, s) = Ok st1 → keys_inv st1).
  { intros t s st1. by apply keys_inv_step. }
  pose proof (Hnext ta sa) as Ha. pose proof (Hnext tb sb) as Hb.
  rewrite (tally_step_eq st ta sa Hinv) in *.
  rewrite (tally_step_eq st tb sb Hinv) in *.
  destruct (decide (sa ∈ statList ∨ sa = "TOTAL")) as [Hsa|Hsa];
    destruct (decide (sb ∈ statList ∨ sb = "TOTAL")) as [Hsb|Hsb];
    rewrite ?bind_Ok; try done.
  - rewrite !tally_step_eq by eauto.
    rewrite !decide_True by done. cbn [nTasks nTaskTypes taskStats statTotals].
    rewrite !line_insert.
    f_equal. f_equal.
    + destruct (decide (ta = tb)) as [->|Hne].
      * rewrite !lookup_insert_eq. by destruct (taskStats st !! tb).
      * rewrite !lookup_insert_ne by done.
        by destruct (taskStats st !! ta), (taskStats st !! tb).
    + destruct (decide (ta = tb)) as [->|Hne].
      * rewrite !decide_True by done. rewrite !insert_insert_eq.
        by rewrite bump_comm.
      * rewrite !decide_False by done. by apply insert_insert_ne.
    + apply bump_comm.
  - rewrite tally_step_eq by eauto. by rewrite decide_False.
  - rewrite tally_step_eq by eauto. by rewrite decide_False.
Qed.

(** The loop reaches the same state, or raises alike, on every
    rearrangement of its rows. *)
Lemma for_each_perm tasks tasks' :
  tasks ≡ₚ tasks' →
  ∀ st, keys_inv st →
        for_each (tally_step statList) tasks st
        = for_each (tally_step statList) tasks' st.
Proof.
  induction 1 as [|x l l' _ IH|x y l|l l' l'' _ IH1 _ IH2]; intros st Hinv.
  - done.
  - cbn [for_each].
    destruct (tally_step statList st x) as [st1|e] eqn:Hx; [|done].
    apply IH. by eapply keys_inv_step.
  - cbn [for_each].
    pose proof (tally_step_comm st x y Hinv) as Hc.
    destruct (tally_step statList st x) as [sx|ex] eqn:Hx;
      destruct (tally_step statList st y) as [sy|ey] eqn:Hy;
      rewrite ?bind_Ok in Hc; simpl in Hc.
    + by rewrite Hc.
    + by rewrite Hc.
    + by rewrite <- Hc.
    + unfold mbind, res_bind, bind in Hc. by rewrite Hc.
  - rewrite IH1 by done. by apply IH2.
Qed.

Lemma statusMatrix_perm tasks tasks' :
  tasks ≡ₚ tasks' →
  statusMatrix statList tasks = statusMatrix statList tasks'.
Proof.
  intros Hp. unfold statusMatrix.
  rewrite (Permutation_length Hp).
  by rewrite (for_each_perm _ _ Hp _ (keys_inv_init statList)).
Qed.

End tally_closed_form.

(** ** Status aggregator: what the cells count *)

Section tally_counts.
Import Py Aggregator.
Local Open Scope nat_scope.

Variable statList : list string.

Lemma count_cell_snoc t s done task :
  count_cell t s (done ++ [task])
  = count_cell t s done + (if decide (task = (t, s)) then 1 else 0).
Proof.
  unfold count_cell. rewrite filter_app, length_app. f_equal.
  rewrite filter_cons, filter_nil. by case_decide.
Qed.

Lemma count_status_snoc s done task :
  count_status s (done ++ [task])
  = count_status s done + (if decide (task.2 = s) then 1 else 0).
Proof.
  unfold count_status. rewrite filter_app, length_app. f_equal.
  rewrite filter_cons, filter_nil. by case_decide.
Qed.

Lemma counted_init : counted statList [] (tally_init statList).
Proof.
  split.
  - apply keys_inv_init.
  - intros t. simpl. rewrite lookup_empty. split; [by intros [? ?] |].
    by intros ?%elem_of_nil.
  - intros t s _. unfold line. simpl. rewrite lookup_empty. simpl.
    apply zero_row_total.
  - intros s Hs. simpl. fold (zero_row statList). apply zero_row_total.
Qed.

Lemma counted_step done st task st' :
  counted statList done st →
  tally_step statList st task = Ok st' →
  counted statList (done ++ [task]) st'.
Proof.
  intros Hc Hstep. destruct task as [tName tStat].
  pose proof (keys_inv_step _ _ _ _ (cnt_keys _ _ _ Hc) Hstep) as Hkeys.
  rewrite (tally_step_eq statList st tName tStat (cnt_keys _ _ _ Hc)) in Hstep.
  case_decide as Hs; [|done]. injection Hstep as <-.
  split; [done|..].
  - intros t. cbn [taskStats]. rewrite fmap_app, elem_of_app. simpl.
    rewrite list_elem_of_singleton.
    destruct (decide (tName = t)) as [->|Hne].
    + rewrite lookup_insert_eq. split; [by right | by eauto].
    + rewrite lookup_insert_ne by done. rewrite (cnt_types _ _ _ Hc).
      split; [by left | by intros [?|?]].
  - intros t s Hne. rewrite line_insert, count_cell_snoc.
    destruct (decide (tName = t)) as [->|Ht].
    + rewrite bump_lookup_total, (cnt_cells _ _ _ Hc) by done.
      rewrite (decide_False (P := s = "TOTAL")) by done.
      destruct (decide (s = tStat)) as [->|Hs'].
      * rewrite decide_True by done. lia.
      * rewrite decide_False by congruence. lia.
    + rewrite (cnt_cells _ _ _ Hc) by done.
      rewrite decide_False by congruence. lia.
  - intros s Hne. cbn [statTotals].
    rewrite bump_lookup_total, count_status_snoc, (cnt_status _ _ _ Hc) by done.
    rewrite (decide_False (P := s = "TOTAL")) by done. simpl.
    destruct (decide (s = tStat)) as [->|Hs'].
    + rewrite decide_True by done. lia.
    + rewrite decide_False by congruence. lia.
Qed.

Lemma counted_loop tasks : ∀ done st st',
  counted statList done st →
  for_each (tally_step statList) tasks st = Ok st' →
  counted statList (done ++ tasks) st'.
Proof.
  induction tasks as [|task tasks IH]; intros done st st' Hc.
  - simpl. intros [= <-]. by rewrite app_nil_r.
  - cbn [for_each].
    destruct (tally_step statList st task) as [st1|] eqn:H1; [|done].
    intros Hrest. rewrite (cons_middle task), app_assoc.
    apply (IH _ st1); [|done]. by eapply counted_step.
Qed.

(** The matrix is the counted state with the bottom line stored under
    ['TOTAL']. *)
Lemma statusMatrix_counted tasks m :
  statusMatrix statList tasks = Ok (Matrix m) →
  ∃ st, counted statList tasks st ∧
        m = <["TOTAL" := statTotals st]> (taskStats st).
Proof.
  unfold statusMatrix. destruct (length tasks <? 1); [done|].
  intros (st & Hloop & [= <-])%bind_Ok_inv.
  exists st. split; [|done].
  apply (counted_loop tasks [] _ _ counted_init Hloop).
Qed.

Lemma statusMatrix_cells tasks m t s :
  statusMatrix statList tasks = Ok (Matrix m) → s ∈ statList →
  "TOTAL" ∉ statList →
  (t ≠ "TOTAL" → cell m t s = count_cell t s tasks) ∧
  cell m "TOTAL" s = count_status s tasks.
Proof.
  intros (st & Hc & ->)%statusMatrix_counted Hs Hno.
  assert (Hne : s ≠ "TOTAL") by (by intros ->).
  unfold cell. split.
  - intros Ht. rewrite lookup_total_insert_ne by done.
    rewrite <- (cnt_cells _ _ _ Hc) by done.
    unfold line. rewrite (lookup_total_alt (taskStats st)).
    destruct (taskStats st !! t) as [r|]; simpl; [done|].
    by rewrite lookup_total_empty, zero_row_total.
  - rewrite lookup_total_insert_eq. by apply (cnt_status _ _ _ Hc).
Qed.

Lemma statusMatrix_lines tasks m :
  statusMatrix statList tasks = Ok (Matrix m) →
  (∀ t, is_Some (m !! t) ↔ t = "TOTAL" ∨ t ∈ tasks.*1) ∧
  (∀ t r, m !! t = Some r → keys_ok statList r).
Proof.
  intros (st & Hc & ->)%statusMatrix_counted. split.
  - intros t. destruct (decide (t = "TOTAL")) as [->|Hne].
    + rewrite lookup_insert_eq. split; [by left | by eauto].
    + rewrite lookup_insert_ne by done. rewrite (cnt_types _ _ _ Hc).
      split; [by right | by intros [?|?]].
  - intros t r. destruct (decide (t = "TOTAL")) as [->|Hne].
    + rewrite lookup_insert_eq. intros [= <-]. apply (cnt_keys _ _ _ Hc).
    + rewrite lookup_insert_ne by done. apply (cnt_keys _ _ _ Hc).
Qed.

End tally_counts.

(** ** Status aggregator: cells, lines and the order of the rows *)

Section matrix_contents.
Import Py Aggregator.

Lemma taskStatusMatrix_pairs view self :
  Wstat2.taskStatusMatrix view self
  = statusMatrix Wstat2.statList (wstat2_pairs (wstat2_rows view self)).
Proof. done. Qed.

(** Every state cell of a task-type line of the printed matrix is the
    number of tallied tasks with that type and status, and every state
    cell of the bottom line is the number of tallied tasks with that
    status; in wstat.py the tallied tasks are [self.pTasks], in wstat2.py
    the loaded rows of the view [summary]. *)
Theorem status_matrix_cells :
  (∀ strptime strftime splitext db runnum self tr self' m,
      Wstat.printStatusMatrix strptime strftime splitext db runnum self
      = (tr, Ok ((), self')) →
      Wstat.PrintStatusMatrix m ∈ tr →
      ∀ t s, s ∈ Wstat.statList →
        (t ≠ "TOTAL" →
         cell m t s = count_cell t s (wstat_pairs (Wstat.pTasks self'))) ∧
        cell m "TOTAL" s = count_status s (wstat_pairs (Wstat.pTasks self'))) ∧
  (∀ view self m,
      Wstat2.taskStatusMatrix view self = Ok (Matrix m) →
      ∀ t s, s ∈ Wstat2.statList →
        (t ≠ "TOTAL" →
         cell m t s = count_cell t s (wstat2_pairs (wstat2_rows view self))) ∧
        cell m "TOTAL" s
        = count_status s (wstat2_pairs (wstat2_rows view self))).
Proof.
  split.
  - intros strptime strftime splitext db runnum self tr self' m Hrun Hin t s Hs.
    apply printStatusMatrix_printed with (m := m) in Hrun; [|done].
    by apply (statusMatrix_cells Wstat.statList _ _ _ _ Hrun Hs),
             wstat_statList_TOTAL.
  - intros view self m Hm t s Hs. rewrite taskStatusMatrix_pairs in Hm.
    by apply (statusMatrix_cells Wstat2.statList _ _ _ _ Hm Hs),
             wstat2_statList_TOTAL.
Qed.

(** The printed matrix has one line per task type among the tallied
    tasks and the line ['TOTAL'], and no other; every line has one cell
    per state of the state list and the cell ['TOTAL'], and no other. *)
Theorem status_matrix_lines :
  (∀ strptime strftime splitext db runnum self tr self' m,
      Wstat.printStatusMatrix strptime strftime splitext db runnum self
      = (tr, Ok ((), self')) →
      Wstat.PrintStatusMatrix m ∈ tr →
      (∀ t, is_Some (m !! t) ↔
            t = "TOTAL" ∨ t ∈ Wstat.task_name <$> Wstat.pTasks self') ∧
      (∀ t r k, m !! t = Some r →
                is_Some (r !! k) ↔ k ∈ Wstat.statList ∨ k = "TOTAL")) ∧
  (∀ view self m,
      Wstat2.taskStatusMatrix view self = Ok (Matrix m) →
      (∀ t, is_Some (m !! t) ↔
            t = "TOTAL" ∨ t ∈ SummaryRow.function <$> wstat2_rows view self) ∧
      (∀ t r k, m !! t = Some r →
                is_Some (r !! k) ↔ k ∈ Wstat2.statList ∨ k = "TOTAL")).
Proof.
  split.
  - intros strptime strftime splitext db runnum self tr self' m Hrun Hin.
    apply printStatusMatrix_printed with (m := m) in Hrun; [|done].
    destruct (statusMatrix_lines Wstat.statList _ _ Hrun) as [Hl Hk].
    split.
    + intros t. rewrite Hl. unfold wstat_pairs.
      by rewrite <- list_fmap_compose.
    + intros t r k Hr. apply (Hk t r Hr).
  - intros view self m Hm. rewrite taskStatusMatrix_pairs in Hm.
    destruct (statusMatrix_lines Wstat2.statList _ _ Hm) as [Hl Hk].
    split.
    + intros t. rewrite Hl. unfold wstat2_pairs.
      by rewrite <- list_fmap_compose.
    + intros t r k Hr. apply (Hk t r Hr).
Qed.


End matrix_contents.

(** Two tasks of type [add] in state [exec_done] and one of type [mul] in
    state [failed], as rows of the view [summary]. *)
Lemma status_matrix_cells_witness :
  ∃ m, Wstat2.taskStatusMatrix
         [Sample.srow "add" "exec_done"; Sample.srow "mul" "failed";
          Sample.srow "add" "exec_done"] Wstat2.fresh
       = Py.Ok (Aggregator.Matrix m) ∧
       Aggregator.cell m "add" "exec_done" = 2%nat ∧
       Aggregator.cell m "TOTAL" "failed" = 1%nat.
Proof.
  set (view := [Sample.srow "add" "exec_done"; Sample.srow "mul" "failed";
                Sample.srow "add" "exec_done"]).
  destruct (statusMatrix_total Wstat2.statList wstat2_statList_TOTAL
              (wstat2_pairs (wstat2_rows view Wstat2.fresh))) as [m Hm].
  { discriminate. }
  { apply (bool_decide_unpack _). by vm_compute. }
  exists m. split; [exact Hm|].
  pose proof (proj2 status_matrix_cells view Wstat2.fresh m Hm) as H.
  split.
  - rewrite (proj1 (H "add" "exec_done"
                      ltac:(apply (bool_decide_unpack _); by vm_compute)))
      by discriminate.
    by vm_compute.
  - rewrite (proj2 (H "add" "failed"
                      ltac:(apply (bool_decide_unpack _); by vm_compute))).
    by vm_compute.
Defined.

Lemma status_matrix_lines_witness :
  ∃ m, Wstat2.taskStatusMatrix
         [Sample.srow "add" "exec_done"; Sample.srow "mul" "failed"] Wstat2.fresh
       = Py.Ok (Aggregator.Matrix m) ∧
       is_Some (m !! "mul") ∧ ¬ is_Some (m !! "div").
Proof.
  set (view := [Sample.srow "add" "exec_done"; Sample.srow "mul" "failed"]).
  destruct (statusMatrix_total Wstat2.statList wstat2_statList_TOTAL
              (wstat2_pairs (wstat2_rows view Wstat2.fresh))) as [m Hm].
  { discriminate. }
  { apply (bool_decide_unpack _). by vm_compute. }
  exists m. split; [exact Hm|].
  destruct (proj2 status_matrix_lines view Wstat2.fresh m Hm) as [Hl _].
  split.
  - apply Hl. right. apply (bool_decide_unpack _). by vm_compute.
  - rewrite Hl. intros [?|Hin]; [done|].
    revert Hin. apply (bool_decide_unpack _). by vm_compute.
Defined.


(** ** The run index: loading *)

Section index_loading.
Import Py Wstat.

(** A dictionary filled by successive assignments, from keys that are
    all different: it holds exactly the assigned pairs. *)
Lemma fold_insert_lookup `{Countable K} {V} (pairs : list (K * V)) :
  ∀ (d : gmap K V) k,
  k ∉ pairs.*1 → foldl (λ d p, <[p.1 := p.2]> d) d pairs !! k = d !! k.
Proof.
  induction pairs as [|[k' v'] pairs IH]; intros d k Hk; [done|].
  simpl. rewrite fmap_cons in Hk. apply not_elem_of_cons in Hk as [Hne Hk].
  rewrite IH by done. by rewrite lookup_insert_ne.
Qed.

Lemma fold_insert_NoDup `{Countable K} {V} (pairs : list (K * V)) :
  ∀ (d : gmap K V) k v,
  NoDup pairs.*1 → (k, v) ∈ pairs →
  foldl (λ d p, <[p.1 := p.2]> d) d pairs !! k = Some v.
Proof.
  induction pairs as [|[k' v'] pairs IH]; intros d k v Hnd Hin;
    [by apply elem_of_nil in Hin|].
  rewrite fmap_cons in Hnd. apply NoDup_cons in Hnd as [Hk' Hnd].
  simpl. apply elem_of_cons in Hin as [[= -> ->]|Hin].
  - rewrite fold_insert_lookup by done. apply lookup_insert_eq.
  - by apply IH.
Qed.

Lemma fold_insert_elem_of `{Countable K} {V} (pairs : list (K * V)) :
  ∀ (d : gmap K V) k v,
  foldl (λ d p, <[p.1 := p.2]> d) d pairs !! k = Some v →
  d !! k = Some v ∨ (k, v) ∈ pairs.
Proof.
  induction pairs as [|[k' v'] pairs IH]; intros d k v; simpl; [by left|].
  intros [Hl|Hin]%IH; [|right; by right].
  destruct (decide (k' = k)) as [->|Hne].
  - rewrite lookup_insert_eq in Hl. injection Hl as ->. right. by left.
  - rewrite lookup_insert_ne in Hl by done. by left.
Qed.

(** [int] raises nothing but [ValueError]. *)
Lemma int_Raise s e : int s = Raise e → e = ValueError.
Proof.
  unfold int. destruct (match s with
                        | String "-" body => _
                        | String "+" body => _
                        | _ => _
                        end); [done|]. by intros [= <-].
Qed.

Lemma index_row_Raise self row e : index_row self row = Raise e → e = ValueError.
Proof.
  unfold index_row.
  destruct (int (basename (Workflow.rundir row))) as [n|e'] eqn:Hn; [done|].
  intros [= <-]. by eapply int_Raise.
Qed.

(** The loop of [readWorkflowTable] gets through exactly when every run
    directory is named by an integer, and raises [ValueError] otherwise. *)
Lemma index_loop_progress rows : ∀ self,
  Forall (λ row, ∃ n, run_number row = Ok n) rows →
  ∃ self', for_each index_row rows self = Ok self'.
Proof.
  induction rows as [|row rows IH]; intros self Hall; [by eexists|].
  apply Forall_cons in Hall as [[n Hn] Hall]. cbn [for_each].
  unfold index_row at 1. fold (run_number row). rewrite Hn.
  change (Ok n ≫= ?k) with (k n). cbv beta.
  change (mret ?x) with (Ok x). cbv iota. by apply IH.
Qed.

Lemma index_loop_Raise rows : ∀ self e,
  for_each index_row rows self = Raise e → e = ValueError.
Proof.
  induction rows as [|row rows IH]; intros self e; cbn [for_each]; [done|].
  destruct (index_row self row) as [self1|e1] eqn:Hrow.
  - apply IH.
  - intros [= <-]. by eapply index_row_Raise.
Qed.

(** The run ids with the text of their numbers, as the loop assigns
    them to [self.runid2num]. *)
Lemma index_loop_runid2num rows : ∀ self self',
  for_each index_row rows self = Ok self' →
  runid2num self'
  = foldl (λ d p, <[p.1 := p.2]> d) (runid2num self)
          ((λ row, (Workflow.run_id row, basename (Workflow.rundir row)))
             <$> rows).
Proof.
  induction rows as [|row rows IH]; intros self self'; cbn [for_each].
  - by intros [= <-].
  - destruct (index_row self row) as [self1|e] eqn:Hrow; [|done].
    intros ->%IH. unfold index_row in Hrow.
    destruct (int _) as [n|]; [|done]. by injection Hrow as <-.
Qed.

(** [readWorkflowTable] in terms of its loop. *)
Lemma readWorkflowTable_run db self :
  readWorkflowTable db self
  = let rows := Sql.workflow_by_time_began (workflow db) in
    match for_each index_row rows
            (set_runs self rows ∅ ∅ (runmin self) (runmax self)) with
    | Ok s => ([QueryWorkflow], Ok ((), set_numRuns s (length rows)))
    | Raise e => ([QueryWorkflow], Raise e)
    end.
Proof.
  unfold readWorkflowTable.
  unfold mbind at 1, M_bind. cbn [emit]. cbv iota.
  unfold mbind at 1, M_bind. cbn [get]. cbv iota.
  unfold mbind at 1, M_bind, lift.
  by destruct (for_each _ _ _).
Qed.

End index_loading.

(** ** The run index: run directories, round trips and selection *)

Section run_index.
Import Py Wstat.

Lemma sorted_workflow_elem_of db row :
  row ∈ Sql.workflow_by_time_began (workflow db) ↔ row ∈ workflow db.
Proof. unfold Sql.workflow_by_time_began. by rewrite merge_sort_Permutation. Qed.


(** What the constructor of wstat.py leaves in its two dictionaries. *)
Lemma constructor_dicts db tr self :
  readWorkflowTable db fresh = (tr, Ok ((), self)) →
  let rows := Sql.workflow_by_time_began (workflow db) in
  ∃ nums,
    wrows self = rows ∧
    Forall2 (λ row n, run_number row = Ok n) rows nums ∧
    runnum2id self = num2id ∅ (zip nums (Workflow.run_id <$> rows)) ∧
    runid2num self
    = foldl (λ d p, <[p.1 := p.2]> d) ∅
            ((λ row, (Workflow.run_id row, basename (Workflow.rundir row)))
               <$> rows).
Proof.
  rewrite readWorkflowTable_run. cbv zeta.
  destruct (for_each index_row _ _) as [s|e] eqn:Hloop; [|done].
  intros [= <- <-].
  pose proof (index_loop_runid2num _ _ _ Hloop) as Hid.
  apply index_loop in Hloop as (nums & Hnums & _ & _ & Hd & Hw & _).
  exists nums. simpl in *. by rewrite Hw, Hd, Hid.
Qed.

Lemma Forall2_NoDup_inj {A B} (f : A → res B) (l : list A) (k : list B) :
  Forall2 (λ a b, f a = Ok b) l k → NoDup l →
  (∀ x y, x ∈ l → y ∈ l → f x = f y → x = y) → NoDup k.
Proof.
  induction 1 as [|a b l k Hab Hall IH]; intros Hnd Hinj; [constructor|].
  apply NoDup_cons in Hnd as [Ha Hnd]. apply NoDup_cons. split.
  - intros (i & Hi)%list_elem_of_lookup_1.
    destruct (Forall2_lookup_r _ _ _ _ _ Hall Hi) as (a' & Ha' & Hf).
    apply list_elem_of_lookup_2 in Ha'.
    assert (a = a'); [|by subst].
    apply Hinj; [by left | by right | congruence].
  - apply IH; [done|]. intros x y Hx Hy. apply Hinj; by right.
Qed.

Lemma wstat2_index_runid2num rows : ∀ s,
  Wstat2.runid2num (foldl Wstat2.index_row s rows)
  = foldl (λ d p, <[p.1 := p.2]> d) (Wstat2.runid2num s)
          ((λ row, (Run.run_id row, Run.runnum row)) <$> rows).
Proof.
  induction rows as [|row rows IH]; intros s; [done|].
  simpl. by rewrite IH.
Qed.

(** The two dictionaries of the run index are inverse to each other.
    With distinct run ids, the id registered under a number is
    registered with the text of that number; if moreover no two runs
    share a number, the number a run id is registered with leads back to
    that id.  In wstat.py the numbers are read off the run directories,
    in wstat2.py they are the column [runnum]. *)
Theorem run_index_round_trip :
  (∀ db tr self,
      readWorkflowTable db fresh = (tr, Ok ((), self)) →
      NoDup (Workflow.run_id <$> workflow db) →
      (∀ n id, runnum2id self !! n = Some id →
               ∃ num, runid2num self !! id = Some num ∧ int num = Ok n) ∧
      ((∀ r1 r2, r1 ∈ workflow db → r2 ∈ workflow db →
                 run_number r1 = run_number r2 → r1 = r2) →
       ∀ id num, runid2num self !! id = Some num →
                 ∃ n, int num = Ok n ∧ runnum2id self !! n = Some id)) ∧
  (∀ rows,
      let self := Wstat2.loadWorkflowTable rows Wstat2.fresh in
      NoDup (Run.run_id <$> rows) →
      (∀ n id, Wstat2.runnum2id self !! n = Some id →
               Wstat2.runid2num self !! id = Some n) ∧
      (NoDup (Run.runnum <$> rows) →
       ∀ id n, Wstat2.runid2num self !! id = Some n →
               Wstat2.runnum2id self !! n = Some id)).
Proof.
  split.
  - intros db tr self Hinit Hnd.
    destruct (constructor_dicts _ _ _ Hinit) as (nums & Hw & Hnums & Hn2i & Hi2n).
    set (rows := Sql.workflow_by_time_began (workflow db)) in *.
    assert (Hnd' : NoDup (Workflow.run_id <$> rows)).
    { unfold rows, Sql.workflow_by_time_began. by rewrite merge_sort_Permutation. }
    assert (Hkeys : NoDup ((λ row, (Workflow.run_id row,
                                     basename (Workflow.rundir row))) <$> rows).*1).
    { by rewrite <- list_fmap_compose. }
    assert (Hlen : length nums = length (Workflow.run_id <$> rows)).
    { rewrite length_fmap. symmetry. by eapply Forall2_length. }
    split.
    + intros n id Hl. rewrite Hn2i in Hl.
      apply num2id_lookup in Hl as [Hl|Hin]; [by rewrite lookup_empty in Hl|].
      apply list_elem_of_lookup_1 in Hin as (i & Hi).
      apply lookup_zip_with_Some in Hi as (n' & id' & [= <- <-] & Hni & Hidi).
      rewrite list_lookup_fmap in Hidi.
      destruct (rows !! i) as [row|] eqn:Hrow; [|done]. injection Hidi as <-.
      destruct (Forall2_lookup_l _ _ _ _ _ Hnums Hrow) as (m & Hm & Hnum).
      rewrite Hni in Hm. injection Hm as <-.
      exists (basename (Workflow.rundir row)). split; [|done].
      rewrite Hi2n. apply fold_insert_NoDup; [done|].
      apply list_elem_of_fmap. exists row. split; [done|].
      by eapply list_elem_of_lookup_2.
    + intros Hinj id num Hl. rewrite Hi2n in Hl.
      apply fold_insert_elem_of in Hl as [Hl|Hin]; [by rewrite lookup_empty in Hl|].
      apply list_elem_of_fmap in Hin as (row & [= -> ->] & Hrow).
      apply list_elem_of_lookup_1 in Hrow as (i & Hrow).
      destruct (Forall2_lookup_l _ _ _ _ _ Hnums Hrow) as (n & Hn & Hnum).
      exists n. split; [done|].
      rewrite Hn2i. unfold num2id. apply fold_insert_NoDup.
      * rewrite fst_zip by lia.
        apply (Forall2_NoDup_inj run_number rows nums Hnums).
        -- by apply (NoDup_fmap_1 Workflow.run_id).
        -- intros x y Hx%sorted_workflow_elem_of Hy%sorted_workflow_elem_of.
           by apply Hinj.
      * apply list_elem_of_lookup. exists i.
        apply lookup_zip_with_Some. exists n, (Workflow.run_id row).
        split; [done|]. split; [done|]. by rewrite list_lookup_fmap, Hrow.
  - intros rows self Hnd.
    pose proof (wstat2_index_loop rows
                  (Wstat2.Pmon rows ∅ ∅ 0 999999999 (-1) false []))
      as (_ & _ & Hn2i & _).
    assert (Hi2n : Wstat2.runid2num self
                   = foldl (λ d p, <[p.1 := p.2]> d) ∅
                           ((λ row, (Run.run_id row, Run.runnum row)) <$> rows)).
    { unfold self, Wstat2.loadWorkflowTable. cbn [Wstat2.runid2num].
      by rewrite wstat2_index_runid2num. }
    assert (Hn2i' : Wstat2.runnum2id self
                    = num2id ∅ (zip (Run.runnum <$> rows) (Run.run_id <$> rows))).
    { unfold self, Wstat2.loadWorkflowTable. cbn [Wstat2.runnum2id].
      simpl in Hn2i. exact Hn2i. }
    assert (Hzip : ∀ n id, (n, id) ∈ zip (Run.runnum <$> rows) (Run.run_id <$> rows)
                           ↔ ∃ row, row ∈ rows ∧ Run.runnum row = n ∧
                                    Run.run_id row = id).
    { intros n id. rewrite list_elem_of_lookup. split.
      - intros (i & Hi).
        apply lookup_zip_with_Some in Hi as (n' & id' & [= <- <-] & Hni & Hidi).
        rewrite list_lookup_fmap in Hni. rewrite list_lookup_fmap in Hidi.
        destruct (rows !! i) as [row|] eqn:Hrow; [|done].
        injection Hni as <-. injection Hidi as <-.
        exists row. split; [by eapply list_elem_of_lookup_2 | done].
      - intros (row & (i & Hi)%list_elem_of_lookup_1 & <- & <-).
        exists i. apply lookup_zip_with_Some.
        exists (Run.runnum row), (Run.run_id row).
        by rewrite !list_lookup_fmap, Hi. }
    split.
    + intros n id Hl. rewrite Hn2i' in Hl.
      apply num2id_lookup in Hl as [Hl|Hin]; [by rewrite lookup_empty in Hl|].
      apply Hzip in Hin as (row & Hrow & <- & <-).
      rewrite Hi2n. apply fold_insert_NoDup.
      * by rewrite <- list_fmap_compose.
      * apply list_elem_of_fmap. by exists row.
    + intros Hnd2 id n Hl. rewrite Hi2n in Hl.
      apply fold_insert_elem_of in Hl as [Hl|Hin]; [by rewrite lookup_empty in Hl|].
      apply list_elem_of_fmap in Hin as (row & [= -> ->] & Hrow).
      rewrite Hn2i'. unfold num2id. apply fold_insert_NoDup.
      * by rewrite fst_zip by (by rewrite !length_fmap).
      * apply Hzip. by exists row.
Qed.

End run_index.

(** ** The run index: selecting a run by its number *)

Section run_selection.
Import Py.

(** The loop of [selectRunID] stops at the first row carrying the id
    registered under the number. *)
Lemma selectRunID_loop_first self n id rows : ∀ rdx0,
  Wstat.runnum2id self !! n = Some id →
  id ∈ Workflow.run_id <$> rows →
  ∃ k row, Wstat.selectRunID_loop self n rows rdx0 = Ok (rdx0 + Z.of_nat k) ∧
           rows !! k = Some row ∧ Workflow.run_id row = id ∧
           ∀ j row', (j < k)%nat → rows !! j = Some row' →
                     Workflow.run_id row' ≠ id.
Proof.
  intros rdx0 Hid. revert rdx0.
  induction rows as [|row rows IH]; intros rdx0 Hin; [by apply elem_of_nil in Hin|].
  cbn [Wstat.selectRunID_loop]. unfold getitem. rewrite Hid.
  change (Ok id ≫= ?k) with (k id). cbv beta.
  case_bool_decide as Heq.
  - exists 0%nat, row. split_and!; [f_equal; lia | done | done |].
    intros j row' Hj. lia.
  - rewrite fmap_cons in Hin. apply elem_of_cons in Hin as [Hin|Hin]; [done|].
    destruct (IH (rdx0 + 1) Hin) as (k & r & Hl & Hk & Hr & Hfirst).
    exists (S k), r. split_and!; [rewrite Hl; f_equal; lia | done | done |].
    intros [|j] row' Hj; simpl.
    + by intros [= <-].
    + apply Hfirst. lia.
Qed.

Lemma wstat2_selectRunID_loop_first self n id rows : ∀ rdx0,
  Wstat2.runnum2id self !! n = Some id →
  id ∈ Run.run_id <$> rows →
  ∃ k row, Wstat2.selectRunID_loop self n rows rdx0 = Ok (rdx0 + Z.of_nat k) ∧
           rows !! k = Some row ∧ Run.run_id row = id ∧
           ∀ j row', (j < k)%nat → rows !! j = Some row' →
                     Run.run_id row' ≠ id.
Proof.
  intros rdx0 Hid. revert rdx0.
  induction rows as [|row rows IH]; intros rdx0 Hin; [by apply elem_of_nil in Hin|].
  cbn [Wstat2.selectRunID_loop]. unfold getitem. rewrite Hid.
  change (Ok id ≫= ?k) with (k id). cbv beta.
  case_bool_decide as Heq.
  - exists 0%nat, row. split_and!; [f_equal; lia | done | done |].
    intros j row' Hj. lia.
  - rewrite fmap_cons in Hin. apply elem_of_cons in Hin as [Hin|Hin]; [done|].
    destruct (IH (rdx0 + 1) Hin) as (k & r & Hl & Hk & Hr & Hfirst).
    exists (S k), r. split_and!; [rewrite Hl; f_equal; lia | done | done |].
    intros [|j] row' Hj; simpl.
    + by intros [= <-].
    + apply Hfirst. lia.
Qed.

Lemma zip_elem_of_r {A B} (l : list A) (k : list B) a b :
  (a, b) ∈ zip l k → b ∈ k.
Proof.
  intros (i & Hi)%list_elem_of_lookup_1.
  apply lookup_zip_with_Some in Hi as (a' & b' & [= <- <-] & _ & Hb).
  by eapply list_elem_of_lookup_2.
Qed.

(** On an instance that the constructor has built, [selectRunID] with a
    run number returns the position of the first row of the workflow
    table whose run id is registered under that number, and raises
    [KeyError] when no id is; its closing [assert False] is reached only
    when the workflow table is empty. *)
Theorem select_run_id :
  (∀ db tr self,
      Wstat.readWorkflowTable db Wstat.fresh = (tr, Ok ((), self)) →
      (Wstat.workflow db = [] →
       ∀ n, Wstat.selectRunID self (Some n) = Raise AssertionError) ∧
      (Wstat.workflow db ≠ [] →
       ∀ n,
         (Wstat.runnum2id self !! n = None ∧
          Wstat.selectRunID self (Some n) = Raise KeyError) ∨
         (∃ k row,
             Wstat.selectRunID self (Some n) = Ok (Z.of_nat k) ∧
             Wstat.wrows self !! k = Some row ∧
             Wstat.runnum2id self !! n = Some (Workflow.run_id row) ∧
             ∀ j row', (j < k)%nat → Wstat.wrows self !! j = Some row' →
                       Workflow.run_id row' ≠ Workflow.run_id row))) ∧
  (∀ rows,
      let self := Wstat2.loadWorkflowTable rows Wstat2.fresh in
      (rows = [] →
       ∀ n, Wstat2.selectRunID self (Some n) = Raise AssertionError) ∧
      (rows ≠ [] →
       ∀ n,
         (Wstat2.runnum2id self !! n = None ∧
          Wstat2.selectRunID self (Some n) = Raise KeyError) ∨
         (∃ k row,
             Wstat2.selectRunID self (Some n) = Ok (Z.of_nat k) ∧
             Wstat2.wrows self !! k = Some row ∧
             Wstat2.runnum2id self !! n = Some (Run.run_id row) ∧
             ∀ j row', (j < k)%nat → Wstat2.wrows self !! j = Some row' →
                       Run.run_id row' ≠ Run.run_id row))).
Proof.
  split.
  - intros db tr self Hinit.
    destruct (constructor_dicts _ _ _ Hinit) as (nums & Hw & Hnums & Hn2i & _).
    split.
    + intros Hempty n. unfold Wstat.selectRunID. rewrite Hw, Hempty. done.
    + intros Hne n.
      assert (Hne' : Wstat.wrows self ≠ []).
      { rewrite Hw. intros Hnil. apply Hne.
        apply Permutation_nil_r. rewrite <- Hnil.
        unfold Sql.workflow_by_time_began. by rewrite merge_sort_Permutation. }
      destruct (Wstat.runnum2id self !! n) as [id|] eqn:Hid.
      * right.
        destruct (selectRunID_loop_first self n id (Wstat.wrows self) 0 Hid)
          as (k & row & Hsel & Hk & Hrow & Hfirst).
        { rewrite Hn2i in Hid.
          apply num2id_lookup in Hid as [Hid|Hin];
            [by rewrite lookup_empty in Hid|].
          rewrite Hw. by eapply zip_elem_of_r. }
        exists k, row. subst id. split_and!; try done.
      * left. split; [done|]. by apply selectRunID_loop_KeyError.
  - intros rows self.
    destruct (wstat2_loaded rows) as (Hw & _ & _ & _).
    fold self in Hw.
    pose proof (wstat2_index_loop rows
                  (Wstat2.Pmon rows ∅ ∅ 0 999999999 (-1) false []))
      as (_ & _ & Hn2i & _).
    assert (Hn2i' : Wstat2.runnum2id self
                    = num2id ∅ (zip (Run.runnum <$> rows) (Run.run_id <$> rows))).
    { exact Hn2i. }
    split.
    + intros -> n. done.
    + intros Hne n.
      destruct (Wstat2.runnum2id self !! n) as [id|] eqn:Hid.
      * right.
        destruct (wstat2_selectRunID_loop_first self n id (Wstat2.wrows self) 0 Hid)
          as (k & row & Hsel & Hk & Hrow & Hfirst).
        { rewrite Hn2i' in Hid.
          apply num2id_lookup in Hid as [Hid|Hin];
            [by rewrite lookup_empty in Hid|].
          rewrite Hw. by eapply zip_elem_of_r. }
        exists k, row. subst id. split_and!; try done.
      * left. split; [done|].
        unfold Wstat2.selectRunID. rewrite Hw.
        destruct rows as [|row rows']; [done|].
        cbn [Wstat2.selectRunID_loop]. unfold getitem. by rewrite Hid.
Qed.

End run_selection.


(** Two runs, numbered 0 and 1 by their directories. *)
Lemma run_index_round_trip_witness :
  ∃ num, Wstat.runid2num (Sample.loaded Sample2.db_two) !! "run-b" = Some num ∧
         Py.int num = Py.Ok 1.
Proof.
  apply (proj1 (proj1 run_index_round_trip Sample2.db_two [Wstat.QueryWorkflow]
                  (Sample.loaded Sample2.db_two)
                  ltac:(vm_compute; reflexivity)
                  ltac:(apply (bool_decide_unpack _); by vm_compute))).
  by vm_compute.
Defined.

Lemma select_run_id_witness :
  Wstat2.selectRunID (Wstat2.loadWorkflowTable [] Wstat2.fresh) (Some 1)
  = Py.Raise Py.AssertionError.
Proof.
  apply (proj1 (proj2 select_run_id [])). reflexivity.
Defined.

(** ** The task read-model: the task limit and the rows of a summary *)

Section task_rows_facts.
Import Py.

(** With a positive task limit the loop shapes the first [limit] kept
    rows. *)
Lemma processed_take taskStatus limit tRowz : ∀ gr,
  0 < limit → Z.of_nat gr < limit →
  processed taskStatus limit tRowz gr
  = take (Z.to_nat limit - gr)
         (filter (λ row, Wstat.keep taskStatus (TaskRow.task_status_name row) = true)
                 tRowz).
Proof.
  intros gr Hl. revert gr.
  induction tRowz as [|row rest IH]; intros gr Hgr; [by destruct (Z.to_nat limit - gr)%nat|].
  cbn [processed]. rewrite filter_cons.
  destruct (Wstat.keep taskStatus (TaskRow.task_status_name row)) eqn:Hk.
  - rewrite decide_True by done.
    replace (Z.to_nat limit - gr)%nat with (S (Z.to_nat limit - S gr)) by lia.
    cbn [take]. f_equal.
    replace (0 <? limit) with true by (symmetry; apply Z.ltb_lt; lia).
    destruct (Z.leb_spec limit (Z.of_nat (S gr))) as [Hle|Hlt]; simpl.
    + replace (Z.to_nat limit - S gr)%nat with 0%nat by lia. by rewrite take_0.
    + apply IH. lia.
  - rewrite decide_False by done. by apply IH.
Qed.

Lemma latest_fold_None best rows :
  foldl (λ best r,
           match best with
           | None => Some r
           | Some b =>
               if bool_decide (String.le (TaskRow.timestamp r) (TaskRow.timestamp b))
               then Some b else Some r
           end) best rows = None → best = None ∧ rows = [].
Proof.
  revert best. induction rows as [|x rows IH]; intros best; simpl; [done|].
  intros [Hb _]%IH. destruct best as [b|]; [|done]. by destruct (bool_decide _).
Qed.

Lemma latest_None rows : Sql.latest rows = None → rows = [].
Proof. unfold Sql.latest. by intros [_ ?]%latest_fold_None. Qed.

(** The row that [latest] picks carries a timestamp that no row of the
    group exceeds. *)
Lemma latest_max rows r :
  Sql.latest rows = Some r →
  ∀ r', r' ∈ rows → String.le (TaskRow.timestamp r') (TaskRow.timestamp r).
Proof.
  unfold Sql.latest.
  assert (H : ∀ best,
    foldl (λ best r,
             match best with
             | None => Some r
             | Some b =>
                 if bool_decide (String.le (TaskRow.timestamp r) (TaskRow.timestamp b))
                 then Some b else Some r
             end) best rows = Some r →
    (∀ b, best = Some b → String.le (TaskRow.timestamp b) (TaskRow.timestamp r)) ∧
    ∀ r', r' ∈ rows → String.le (TaskRow.timestamp r') (TaskRow.timestamp r)).
  { induction rows as [|x rows IH]; intros best; simpl.
    - intros ->. split; [by intros b [= ->] | by intros r' ?%elem_of_nil].
    - intros [Hb Hrows]%IH. destruct best as [b|].
      + case_bool_decide as Hle.
        * split; [intros b' [= <-]; by apply Hb|].
          intros r' [->|Hin]%elem_of_cons; [|by apply Hrows].
          etrans; [exact Hle|]. by apply Hb.
        * split.
          -- intros b' [= <-]. etrans; [|by apply Hb].
             by destruct (total String.le (TaskRow.timestamp b)
                                (TaskRow.timestamp x)).
          -- intros r' [->|Hin]%elem_of_cons; [by apply Hb | by apply Hrows].
      + split; [done|].
        intros r' [->|Hin]%elem_of_cons; [by apply Hb | by apply Hrows]. }
  intros Hl. by apply (H None).
Qed.

(** The task ids of the rows of a summary query: each id of a matching
    row once, in ascending order. *)
Lemma summary_task_ids conds joined :
  TaskRow.task_id <$> Sql.summary conds joined
  = merge_sort Z.le
      (remove_dups (TaskRow.task_id <$>
                      filter (λ r, Sql.where_ conds r = true) joined)).
Proof.
  unfold Sql.summary.
  set (rows := filter (λ r, Sql.where_ conds r = true) joined).
  assert (Hids : ∀ i, i ∈ merge_sort Z.le (remove_dups (TaskRow.task_id <$> rows)) →
                      i ∈ TaskRow.task_id <$> rows).
  { intros i. by rewrite merge_sort_Permutation, elem_of_remove_dups. }
  revert Hids. generalize (merge_sort Z.le (remove_dups (TaskRow.task_id <$> rows))).
  intros ids. induction ids as [|i ids IH]; intros Hids; [done|].
  cbn [omap list_omap].
  destruct (Sql.latest (filter (λ r, TaskRow.task_id r = i) rows)) as [r|] eqn:Hl.
  - rewrite fmap_cons. f_equal.
    + apply latest_elem_of, list_elem_of_filter in Hl. tauto.
    + apply IH. intros j Hj. apply Hids. by right.
  - exfalso. apply latest_None in Hl.
    assert (Hi : i ∈ TaskRow.task_id <$> rows) by (apply Hids; by left).
    apply list_elem_of_fmap in Hi as (r & -> & Hr).
    assert (Hin : r ∈ filter (λ r0, TaskRow.task_id r0 = TaskRow.task_id r) rows)
      by by apply list_elem_of_filter.
    rewrite Hl in Hin. by apply elem_of_nil in Hin.
Qed.

Lemma StronglySorted_lt_of_le (l : list Z) :
  NoDup l → StronglySorted Z.le l → StronglySorted Z.lt l.
Proof.
  induction l as [|x l IH]; [constructor|].
  rewrite NoDup_cons, !StronglySorted_cons. intros [Hx Hnd] [Hall Hs].
  split; [|by apply IH].
  apply Forall_forall. intros y Hy.
  assert (x ≤ y) by by apply (proj1 (Forall_forall _ _) Hall).
  assert (x ≠ y) by (by intros ->). lia.
Qed.

Lemma StronglySorted_of_fmap {A B} (f : A → B) (R : relation B) (l : list A) :
  StronglySorted R (f <$> l) → StronglySorted (λ a b, R (f a) (f b)) l.
Proof.
  induction l as [|x l IH]; [constructor|].
  rewrite fmap_cons, !StronglySorted_cons, Forall_fmap. intros [Hall Hs].
  split; [done | by apply IH].
Qed.

Lemma summary_sorted conds joined :
  StronglySorted (λ a b, TaskRow.task_id a < TaskRow.task_id b)
                 (Sql.summary conds joined).
Proof.
  apply (StronglySorted_of_fmap TaskRow.task_id Z.lt).
  rewrite summary_task_ids. apply StronglySorted_lt_of_le.
  - rewrite merge_sort_Permutation. apply NoDup_remove_dups.
  - apply StronglySorted_merge_sort; apply _.
Qed.

(** Each row of a summary query is a matching row of the join that
    carries the latest timestamp of its task id. *)
Lemma summary_latest conds joined r :
  r ∈ Sql.summary conds joined →
  r ∈ joined ∧ Sql.where_ conds r = true ∧
  ∀ r', r' ∈ joined → Sql.where_ conds r' = true →
        TaskRow.task_id r' = TaskRow.task_id r →
        String.le (TaskRow.timestamp r') (TaskRow.timestamp r).
Proof.
  intros Hr. destruct (summary_elem_of _ _ _ Hr) as [Hin Hw].
  split; [done|]. split; [done|].
  unfold Sql.summary in Hr. apply list_elem_of_omap in Hr as (i & _ & Hl).
  pose proof (latest_elem_of _ _ Hl) as Hri.
  apply list_elem_of_filter in Hri as [<- _].
  intros r' Hin' Hw' Hid. apply (latest_max _ _ Hl).
  apply list_elem_of_filter. split; [done|]. by apply list_elem_of_filter.
Qed.

End task_rows_facts.

(** ** The task read-model: what [getTaskData] appends *)

Section task_data.
Import Py Wstat.

Variable strptime : string → option Z.
Variable strftime : Z → string.
Variable splitext : string → string.
Variable db : database.

(** The fields of a task that are copied from its row. *)
Lemma shape_fields self row task :
  shape strptime strftime splitext self row = Ok task →
  task_id task = TaskRow.task_id row ∧
  task_name task = TaskRow.task_func_name row ∧
  status task = TaskRow.task_status_name row ∧
  hostname task = TaskRow.hostname row.
Proof.
  unfold shape. intros H.
  do 5 (apply bind_Ok_inv in H as (? & _ & H)).
  by injection H as <-.
Qed.

(** [getTaskData] appends to [self.pTasks] one task per row that the
    status filter keeps, in the order of the query, and stops after
    [taskLimit] tasks when the limit is positive: the appended tasks are
    built from the first [taskLimit] kept rows, and from all kept rows
    when the limit is zero or negative. *)
Theorem task_limit runnum rep printSummary taskID taskStatus taskName
    self tr self' :
  getTaskData strptime strftime splitext db runnum rep printSummary
              taskID taskStatus taskName self = (tr, Ok ((), self')) →
  let kept := filter (λ row, keep taskStatus (TaskRow.task_status_name row) = true)
                     (task_rows db rep taskID taskName) in
  let rows := if 0 <? taskLimit self
              then take (Z.to_nat (taskLimit self)) kept else kept in
  ∃ tasks,
    pTasks self' = pTasks self ++ tasks ∧
    Forall2 (λ row task, shape strptime strftime splitext self row = Ok task)
            rows tasks ∧
    (0 < taskLimit self → Z.of_nat (length tasks) ≤ taskLimit self).
Proof.
  intros Hrun kept rows. apply getTaskData_Ok in Hrun.
  destruct Hrun as ((tasks & Hall & Hp) & _).
  exists tasks. split; [done|].
  assert (Hrows : processed taskStatus (taskLimit self)
                            (task_rows db rep taskID taskName) 0 = rows).
  { unfold rows. destruct (Z.ltb_spec 0 (taskLimit self)) as [Hpos|Hle].
    - rewrite processed_take by lia. by rewrite Nat.sub_0_r.
    - by apply processed_no_limit. }
  rewrite Hrows in Hall. split; [done|].
  intros Hpos. rewrite <- (Forall2_length _ _ _ Hall). unfold rows.
  replace (0 <? taskLimit self) with true by (symmetry; apply Z.ltb_lt; lia).
  rewrite length_take. lia.
Qed.

(** In Summary mode the appended tasks have strictly increasing task
    ids, so that each task id is tallied once; and each of them shows
    the status of a matching row of the join that no matching row of the
    same task id exceeds in timestamp. *)
Theorem summary_one_row_per_task runnum printSummary taskID taskStatus taskName
    self tr self' :
  getTaskData strptime strftime splitext db runnum Summary printSummary
              taskID taskStatus taskName self = (tr, Ok ((), self')) →
  let conds := task_conds Summary taskID taskName in
  ∃ tasks,
    pTasks self' = pTasks self ++ tasks ∧
    StronglySorted (λ a b, task_id a < task_id b) tasks ∧
    ∀ task, task ∈ tasks →
      ∃ row, row ∈ joined db ∧ Sql.where_ conds row = true ∧
             TaskRow.task_id row = task_id task ∧
             TaskRow.task_status_name row = status task ∧
             ∀ row', row' ∈ joined db → Sql.where_ conds row' = true →
                     TaskRow.task_id row' = task_id task →
                     String.le (TaskRow.timestamp row') (TaskRow.timestamp row).
Proof.
  intros Hrun conds. apply getTaskData_Ok in Hrun.
  destruct Hrun as ((tasks & Hall & Hp) & _).
  exists tasks. split; [done|].
  set (rows := processed taskStatus (taskLimit self)
                         (task_rows db Summary taskID taskName) 0) in *.
  assert (Hids : task_id <$> tasks = TaskRow.task_id <$> rows).
  { clear Hp. induction Hall as [|row task rows' tasks' Hs _ IH]; [done|].
    rewrite !fmap_cons, IH. f_equal. by apply shape_fields in Hs as (-> & _). }
  split.
  - apply (StronglySorted_of_fmap task_id Z.lt). rewrite Hids.
    apply (StronglySorted_fmap TaskRow.task_id
             (λ a b, TaskRow.task_id a < TaskRow.task_id b) Z.lt).
    { done. }
    eapply StronglySorted_sublist; [apply processed_sublist|].
    apply summary_sorted.
  - intros task (i & Hi)%list_elem_of_lookup_1.
    destruct (Forall2_lookup_r _ _ _ _ _ Hall Hi) as (row & Hrow & Hs).
    apply shape_fields in Hs as (Hid & _ & Hst & _).
    assert (Hin : row ∈ Sql.summary conds (joined db)).
    { eapply elem_of_sublist; [|apply processed_sublist].
      by eapply list_elem_of_lookup_2. }
    apply summary_latest in Hin as (Hj & Hw & Hmax).
    exists row. rewrite Hid, Hst. split_and!; done.
Qed.

(** [printWorkflowSummary] prints one summary and leaves the instance
    as it was. *)
Lemma printWorkflowSummary_Ok runnum self tr self' :
  printWorkflowSummary strptime strftime runnum self = (tr, Ok ((), self')) →
  self' = self ∧
  ∃ row runNumTxt runStart runEnd duration,
    tr = [PrintWorkflowSummary row runNumTxt runStart runEnd duration].
Proof.
  unfold printWorkflowSummary.
  intros (tra & s0 & sa & trb & Hget & Hk & ->)%M_bind_Ok_inv.
  injection Hget as <- <- <-.
  apply M_bind_Ok_inv in Hk as (? & rowindex & ? & ? & H1 & Hk & ->).
  apply lift_Ok_inv in H1 as (_ & -> & ->).
  apply M_bind_Ok_inv in Hk as (? & row & ? & ? & H2 & Hk & ->).
  apply lift_Ok_inv in H2 as (_ & -> & ->).
  apply M_bind_Ok_inv in Hk as (? & irunNum & ? & ? & H3 & Hk & ->).
  apply lift_Ok_inv in H3 as (_ & -> & ->).
  apply M_bind_Ok_inv in Hk as (? & runStart & ? & ? & H4 & Hk & ->).
  apply lift_Ok_inv in H4 as (_ & -> & ->).
  apply M_bind_Ok_inv in Hk as (? & runEnd & ? & ? & H5 & Hk & ->).
  apply lift_Ok_inv in H5 as (_ & -> & ->).
  apply M_bind_Ok_inv in Hk as (? & duration & ? & ? & H6 & Hk & ->).
  apply lift_Ok_inv in H6 as (_ & -> & ->).
  injection Hk as <- <-. split; [done|]. simpl. eauto 10.
Qed.


End task_data.

(** ** The task read-model: when [getTaskData] returns *)

Section task_data_progress.
Import Py Wstat.

Variable strptime : string → option Z.
Variable strftime : Z → string.
Variable splitext : string → string.

Lemma stripms_parses t :
  parses strptime t → ∃ r, stripms strptime strftime t = Ok r.
Proof.
  intros Hp. destruct t as [s|]; [|by eexists].
  destruct (Hp s eq_refl) as [z Hz].
  unfold stripms, stripms_str, makedt. rewrite Hz. by eexists.
Qed.

Lemma timeDiff_parses start end_ :
  parses strptime start → parses strptime end_ →
  ∃ d, timeDiff strptime start end_ = Ok d.
Proof.
  intros Hs He. destruct start as [s|], end_ as [e|]; try by eexists.
  destruct (Hs s eq_refl) as [zs Hzs]. destruct (He e eq_refl) as [ze Hze].
  unfold timeDiff, makedt. rewrite Hzs, Hze. by eexists.
Qed.

(** A row is shaped without an exception when its run is indexed and
    its times can be read. *)
Lemma shape_progress self row :
  is_Some (runid2num self !! TaskRow.run_id row) →
  parses strptime (TaskRow.task_try_time_launched row) →
  parses strptime (TaskRow.task_try_time_running row) →
  parses strptime (TaskRow.task_try_time_returned row) →
  ∃ task, shape strptime strftime splitext self row = Ok task.
Proof.
  intros [num Hnum] Hl Hr He. unfold shape.
  rewrite (getitem_Some _ _ _ Hnum), bind_Ok.
  destruct (stripms_parses _ Hl) as [l ->]. rewrite bind_Ok.
  destruct (stripms_parses _ Hr) as [r ->]. rewrite bind_Ok.
  destruct (stripms_parses _ He) as [e ->]. rewrite bind_Ok.
  destruct (timeDiff_parses _ _ Hr He) as [d ->]. rewrite bind_Ok.
  by eexists.
Qed.

Lemma shape_ext self1 self2 row :
  runid2num self1 = runid2num self2 →
  shape strptime strftime splitext self1 row
  = shape strptime strftime splitext self2 row.
Proof. intros H. unfold shape. by rewrite H. Qed.

(** The loop over the rows of the query gets through when every row can
    be shaped. *)
Lemma task_loop_progress taskStatus self0 tRowz : ∀ c self,
  runid2num self = runid2num self0 →
  Forall (λ row, ∃ task, shape strptime strftime splitext self0 row = Ok task)
         tRowz →
  ∃ c' self', task_loop strptime strftime splitext taskStatus tRowz c self
              = ([], Ok (c', self')).
Proof.
  induction tRowz as [|row rest IH]; intros c self Hd Hall; [by eexists _, _|].
  apply Forall_cons in Hall as [[task Htask] Hall].
  cbn [task_loop].
  destruct (negb (keep taskStatus (TaskRow.task_status_name row))).
  { by apply IH. }
  rewrite <- (shape_ext self self0 row Hd) in Htask.
  unfold mbind at 1, M_bind at 1. cbn [get]. cbv iota.
  unfold mbind at 1, M_bind at 1, lift at 1. rewrite Htask. cbv iota.
  unfold mbind at 1, M_bind at 1. cbn [put]. cbv iota.
  match goal with
  | |- context [if ?b then mret ?x else _] => destruct b
  end.
  - eexists _, _. reflexivity.
  - match goal with
    | |- context [task_loop _ _ _ _ rest ?c1 ?s1] =>
        destruct (IH c1 s1) as (c' & self' & ->); [|done|]
    end.
    + by destruct (bool_decide (TaskRow.task_status_name row = "running")).
    + eexists _, _. reflexivity.
Qed.

Lemma fold_insert_is_Some `{Countable K} {V} (pairs : list (K * V)) :
  ∀ (d : gmap K V) k,
  k ∈ pairs.*1 → is_Some (foldl (λ d p, <[p.1 := p.2]> d) d pairs !! k).
Proof.
  induction pairs as [|[k' v'] pairs IH]; intros d k Hk;
    [by apply elem_of_nil in Hk|].
  simpl. destruct (decide (k ∈ pairs.*1)) as [Hin|Hin]; [by apply IH|].
  rewrite fmap_cons in Hk. apply elem_of_cons in Hk as [->|Hk]; [|done].
  rewrite fold_insert_lookup by done. rewrite lookup_insert_eq. eauto.
Qed.


End task_data_progress.

(** Two running tasks and a task limit of one: one task is appended. *)
Lemma task_limit_witness :
  let self := Wstat.set_taskLimit (Sample.loaded Sample.db1) 1 in
  ∃ tr self',
    Wstat.getTaskData Sample.strptime Sample.strftime Sample.splitext Sample.db1
      None Wstat.Summary false None None None self = (tr, Py.Ok ((), self')) ∧
    ∃ tasks, Wstat.pTasks self' = Wstat.pTasks self ++ tasks ∧
             Z.of_nat (length tasks) ≤ 1.
Proof.
  intros self. eexists _, _. split; [vm_compute; reflexivity|].
  destruct (task_limit Sample.strptime Sample.strftime Sample.splitext Sample.db1
              None Wstat.Summary false None None None self _ _
              ltac:(vm_compute; reflexivity))
    as (tasks & Hp & _ & Hlen).
  exists tasks. split; [exact Hp|]. apply Hlen. by vm_compute.
Defined.

(** Task 0 with three status events stored out of order and task 1 with
    one: the summary lists each task once, in the order of their ids. *)
Lemma summary_one_row_per_task_witness :
  let self := Sample.loaded Sample.db2 in
  ∃ tr self',
    Wstat.getTaskData Sample.strptime Sample.strftime Sample.splitext Sample.db2
      None Wstat.Summary false None None None self = (tr, Py.Ok ((), self')) ∧
    ∃ tasks, Wstat.pTasks self' = Wstat.pTasks self ++ tasks ∧
             StronglySorted (λ a b, Wstat.task_id a < Wstat.task_id b) tasks.
Proof.
  intros self. eexists _, _. split; [vm_compute; reflexivity|].
  destruct (summary_one_row_per_task Sample.strptime Sample.strftime
              Sample.splitext Sample.db2 None false None None None self _ _
              ltac:(vm_compute; reflexivity))
    as (tasks & Hp & Hs & _).
  exists tasks. split; [exact Hp | exact Hs].
Defined.



(** ** The run-time histograms of [plotStats] *)

Section histograms.
Import Py Wstat.
Local Open Scope nat_scope.

Lemma hist_add_keys h n x :
  (hist_add h n x).*1 = if decide (n ∈ h.*1) then h.*1 else h.*1 ++ [n].
Proof.
  induction h as [|[k xs] h IH]; [done|]. cbn [hist_add].
  case_bool_decide as Hk.
  - subst. rewrite !fmap_cons. simpl. rewrite decide_True; [done | by left].
  - rewrite !fmap_cons, IH. simpl.
    destruct (decide (n ∈ h.*1)) as [Hin|Hin].
    + rewrite decide_True; [done | by right].
    + rewrite decide_False; [done|]. intros [?|?]%elem_of_cons; congruence.
Qed.

Lemma hist_add_elem_of h n x k d :
  NoDup h.*1 →
  (k, d) ∈ hist_add h n x ↔
  (k ≠ n ∧ (k, d) ∈ h) ∨
  (k = n ∧ ∃ xs, d = xs ++ [x] ∧ ((n, xs) ∈ h ∨ ((n ∉ h.*1) ∧ xs = []))).
Proof.
  induction h as [|[k' xs'] h IH]; intros Hnd.
  - simpl. rewrite list_elem_of_singleton. split.
    + intros [= -> ->]. right. split; [done|]. exists []. split; [done|].
      right. split; [apply not_elem_of_nil | done].
    + intros [[_ []%elem_of_nil]|(-> & xs & -> & [[]%elem_of_nil|[_ ->]])].
      done.
  - rewrite fmap_cons in Hnd. apply NoDup_cons in Hnd as [Hk' Hnd]. simpl in Hk'.
    cbn [hist_add]. case_bool_decide as Hk.
    + subst k'. rewrite !elem_of_cons. split.
      * intros [[= -> ->]|Hin].
        -- right. split; [done|]. exists xs'. split; [done|]. left. by left.
        -- left. split; [|by right]. intros ->. apply Hk'.
           apply list_elem_of_fmap. by exists (n, d).
      * intros [[Hne [[= -> ->]|Hin]]|(-> & xs & -> & [Hin|[Hnot ->]])];
          try done.
        -- by right.
        -- apply elem_of_cons in Hin as [[= ->]|Hin]; [by left|].
           exfalso. apply Hk'. apply list_elem_of_fmap. by exists (n, xs).
        -- exfalso. apply Hnot. rewrite fmap_cons. by left.
    + assert (HA : ∀ xs, (n, xs) ∈ (k', xs') :: h ↔ (n, xs) ∈ h).
      { intros xs. rewrite elem_of_cons.
        split; [intros [[= ? ?]|?]; [congruence | done] | by right]. }
      assert (HB : n ∉ ((k', xs') :: h).*1 ↔ n ∉ h.*1).
      { rewrite fmap_cons, not_elem_of_cons. simpl.
        split; [by intros [_ ?] | intros ?; split; [congruence | done]]. }
      rewrite !elem_of_cons, (IH Hnd). split.
      * intros [[= -> ->]|[[Hne Hin]|(-> & xs & -> & Hc)]].
        -- left. split; [congruence | by left].
        -- left. split; [done | by right].
        -- right. split; [done|]. exists xs. split; [done|].
           by rewrite HA, HB.
      * intros [[Hne [[= -> ->]|Hin]]|(-> & xs & -> & Hc)].
        -- by left.
        -- right. left. done.
        -- right. right. split; [done|]. exists xs. split; [done|].
           by rewrite HA, HB in Hc.
Qed.

Lemma done_times_snoc name done task :
  done_times name (done ++ [task])
  = done_times name done ++
    (if decide (task_name task = name ∧ str_in "done" (status task) = true)
     then from_option (λ d, [d]) [] (runTime task) else []).
Proof.
  unfold done_times. rewrite filter_app, omap_app. f_equal.
  rewrite filter_cons, filter_nil. case_decide; [|done].
  simpl. by destruct (runTime task).
Qed.

(** One iteration keeps [histData] the run times seen so far, and the
    counters in step with it. *)
Lemma plot_step_hist done t task :
  hist_ok done (histData t) → nTaskTypes t = length (histData t) →
  nDone t = length (filter (λ task, str_in "done" (status task) = true) done) →
  let t' := (plot_step t task).2 in
  hist_ok (done ++ [task]) (histData t') ∧
  nTaskTypes t' = length (histData t') ∧
  nDone t'
  = length (filter (λ task, str_in "done" (status task) = true) (done ++ [task])).
Proof.
  intros [Hnd Hh] Hn Hd. unfold plot_step. cbn [histData nTasks nTaskTypes nDone nErrors].
  rewrite filter_app, length_app, filter_cons, filter_nil.
  destruct (str_in "done" (status task)) eqn:Hdone.
  - rewrite decide_True by done.
    destruct (runTime task) as [d|] eqn:Hrt; simpl.
    + split_and!.
      * split.
        -- rewrite hist_add_keys. case_decide; [done|].
           apply NoDup_app. split_and!; [done | | apply NoDup_singleton].
           intros k Hk ->%list_elem_of_singleton. done.
        -- intros name data. rewrite (hist_add_elem_of _ _ _ _ _ Hnd).
           rewrite done_times_snoc, Hrt. simpl. split.
           ++ intros [[Hne Hin]|(-> & xs & -> & [Hin|[Hnot ->]])].
              ** apply Hh in Hin as [? ->].
                 rewrite decide_False by (intros [? _]; congruence).
                 by rewrite app_nil_r.
              ** apply Hh in Hin as [? ->]. rewrite decide_True by done.
                 split; [by destruct (done_times _ _) | done].
              ** rewrite decide_True by done. split; [done|].
                 destruct (done_times (task_name task) done) as [|z zs] eqn:Hz;
                   [done|].
                 exfalso. apply Hnot. apply list_elem_of_fmap.
                 exists (task_name task, z :: zs). split; [done|].
                 apply Hh. by rewrite Hz.
           ++ intros [Hne ->].
              destruct (decide (task_name task = name ∧
                                str_in "done" (status task) = true))
                as [[<- _]|Hno].
              ** right. split; [done|]. eexists. split; [done|].
                 destruct (done_times (task_name task) done) as [|z zs] eqn:Hz.
                 --- right. split; [|done].
                     intros ([k xs] & Hk & Hin)%list_elem_of_fmap. simpl in Hk.
                     subst k. apply Hh in Hin as [Hx Hxs]. congruence.
                 --- left. apply Hh. by rewrite Hz.
              ** left. rewrite app_nil_r in *.
                 split; [intros ->; by apply Hno | by apply Hh].
      * rewrite <- (length_fmap fst), hist_add_keys.
        case_bool_decide as Hin.
        -- rewrite decide_True by done. by rewrite length_fmap.
        -- rewrite decide_False by done.
           rewrite length_app, length_fmap. simpl. lia.
      * simpl. lia.
    + split_and!; [|done|simpl; lia]. split; [done|].
      intros name data. rewrite done_times_snoc, Hrt. simpl.
      destruct (decide _); rewrite app_nil_r; apply Hh.
  - rewrite decide_False by done. simpl.
    split_and!; [|done|lia]. split; [done|].
    intros name data. rewrite done_times_snoc.
    rewrite decide_False by (intros [_ ?]; congruence).
    rewrite app_nil_r. apply Hh.
Qed.

Lemma plot_loop_hist tasks : ∀ done t,
  hist_ok done (histData t) → nTaskTypes t = length (histData t) →
  nDone t = length (filter (λ task, str_in "done" (status task) = true) done) →
  let t' := (plot_loop tasks t).2 in
  hist_ok (done ++ tasks) (histData t') ∧
  nTaskTypes t' = length (histData t') ∧
  nDone t'
  = length (filter (λ task, str_in "done" (status task) = true) (done ++ tasks)).
Proof.
  induction tasks as [|task tasks IH]; intros done t Hh Hn Hd.
  - simpl. by rewrite app_nil_r.
  - cbn [plot_loop].
    destruct (plot_step_hist done t task Hh Hn Hd) as (Hh1 & Hn1 & Hd1).
    destruct (plot_step t task) as [tr1 t1]. simpl in Hh1, Hn1, Hd1.
    specialize (IH (done ++ [task]) t1 Hh1 Hn1 Hd1).
    destruct (plot_loop tasks t1) as [tr2 t2]. simpl in IH. simpl.
    by rewrite (cons_middle task), app_assoc.
Qed.

(** [plotStats] on a filled, non-empty task list, in terms of its
    tally loop. *)
Lemma plotStats_filled strptime strftime splitext db runnum self :
  pTasksFilled self = true → pTasks self ≠ [] →
  plotStats strptime strftime splitext db runnum self
  = let '(tr, t) := plot_loop (pTasks self) (PlotTally [] 0 0 0 0) in
    ([PrintTaskCount (length (pTasks self))] ++ tr ++
     [PrintPlotTotals (nTasks t) (nTaskTypes t) (nDone t) (nErrors t)] ++
     ((λ '(task, data), Plot task data) <$> histData t),
     Ok ((), self)).
Proof.
  intros Hf Hne.
  unfold plotStats. unfold mbind at 1, M_bind. simpl. rewrite Hf.
  unfold mbind at 1, M_bind. simpl.
  unfold mbind at 1, M_bind. simpl.
  destruct (pTasks self) as [|task0 tasks0] eqn:Htasks; [done|].
  cbn [length Nat.ltb Nat.leb]. rewrite <- Htasks in *.
  destruct (plot_loop (pTasks self) (PlotTally [] 0 0 0 0)) as [tr t] eqn:Hloop.
  unfold mbind, M_bind. simpl.
  rewrite for_emit. simpl. rewrite for_plots.
  by rewrite <- ?app_assoc.
Qed.

Lemma plot_loop_trace tasks : ∀ t e,
  e ∈ (plot_loop tasks t).1 →
  (∃ task, e = PrintNoRuntime task) ∨ e = PrintTooManyNoRuntime.
Proof.
  intros t e. rewrite (proj1 (plot_loop_spec tasks t)).
  generalize (nErrors t) (filter no_runtime tasks). intros n l. revert n.
  induction l as [|task l IH]; intros n; cbn [warnings].
  - by intros ?%elem_of_nil.
  - intros [Hin|Hin]%elem_of_app; [|by eapply IH].
    destruct (S n <? 10).
    + apply list_elem_of_singleton in Hin. eauto.
    + destruct (S n =? 10).
      * apply list_elem_of_singleton in Hin. eauto.
      * by apply elem_of_nil in Hin.
Qed.

Lemma plot_names_app tr1 tr2 :
  plot_names (tr1 ++ tr2) = plot_names tr1 ++ plot_names tr2.
Proof. apply omap_app. Qed.

Lemma plot_names_plots (h : list (string * list Z)) :
  plot_names ((λ '(task, data), Plot task data) <$> h) = h.*1.
Proof.
  induction h as [|[k xs] h IH]; [done|].
  rewrite !fmap_cons. unfold plot_names in *. cbn [omap list_omap].
  by rewrite IH.
Qed.

Lemma plot_names_warnings tr :
  (∀ e, e ∈ tr →
        (∃ task, e = PrintNoRuntime task) ∨ e = PrintTooManyNoRuntime) →
  plot_names tr = [].
Proof.
  induction tr as [|e tr IH]; intros Htr; [done|].
  unfold plot_names in *. cbn [omap list_omap].
  destruct (Htr e) as [[task ->]| ->]; [by left|..];
    apply IH; intros e' ?; apply Htr; by right.
Qed.

(** On a filled, non-empty task list [plotStats] draws one histogram
    per task type that has a task in a done state with a run time, and
    no other; the histogram of a type holds the run times of exactly
    those tasks, in the order of the task list.  The totals line
    reports the number of tasks, the number of histograms and the number
    of tasks in a done state. *)
Theorem plot_histograms strptime strftime splitext db runnum self :
  pTasksFilled self = true → pTasks self ≠ [] →
  ∃ tr,
    plotStats strptime strftime splitext db runnum self = (tr, Ok ((), self)) ∧
    (∀ name data, Plot name data ∈ tr ↔
                  data ≠ [] ∧ data = done_times name (pTasks self)) ∧
    NoDup (plot_names tr) ∧
    ∃ nErrors,
      PrintPlotTotals
        (length (pTasks self)) (length (plot_names tr))
        (length (filter (λ task, str_in "done" (status task) = true)
                        (pTasks self)))
        nErrors ∈ tr.
Proof.
  intros Hf Hne. rewrite plotStats_filled by done.
  pose proof (plot_loop_hist (pTasks self) [] (PlotTally [] 0 0 0 0)) as Hh.
  pose proof (plot_loop_spec (pTasks self) (PlotTally [] 0 0 0 0))
    as (_ & _ & Hn).
  pose proof (plot_loop_trace (pTasks self) (PlotTally [] 0 0 0 0)) as Htr.
  destruct (plot_loop (pTasks self) (PlotTally [] 0 0 0 0)) as [tr t].
  simpl in Hh, Hn, Htr.
  assert (H0 : hist_ok [] []).
  { split; [constructor|]. intros name data. split; [by intros ?%elem_of_nil|].
    by intros [? ->]. }
  destruct (Hh H0 eq_refl eq_refl) as ([Hnd Hh'] & Hk & Hd). clear Hh H0.
  rename Hh' into Hh.
  eexists. split; [reflexivity|].
  assert (Hnames : plot_names
            ([PrintTaskCount (length (pTasks self))] ++ tr ++
             [PrintPlotTotals (nTasks t) (nTaskTypes t) (nDone t) (nErrors t)] ++
             ((λ '(task, data), Plot task data) <$> histData t))
          = (histData t).*1).
  { rewrite !plot_names_app, plot_names_plots.
    rewrite (plot_names_warnings tr) by done. done. }
  split_and!.
  - intros name data. rewrite <- Hh. simpl.
    rewrite elem_of_cons, elem_of_app, elem_of_cons, list_elem_of_fmap.
    split.
    + intros [?|[Hin|[?|([k xs] & [= -> ->] & Hin)]]]; try done.
      destruct (Htr _ Hin) as [[task ?]|?]; done.
    + intros Hin. do 3 right. by exists (name, data).
  - by rewrite Hnames.
  - exists (nErrors t). rewrite Hnames, length_fmap, <- Hk, <- Hd.
    rewrite <- Hn. simpl.
    apply elem_of_cons. right. apply elem_of_app. right. by left.
Qed.

End histograms.

(** Two done tasks of type [add] with run times, one without, and a
    running task of type [mul]. *)
Lemma plot_histograms_witness :
  let timed d := Wstat.PTask 0 "add" "000" "exec_done" None 0 0 None None None
                             (Some d) "None" in
  let self := Sample.filled [timed 60; Sample.task "add" "exec_done";
                             Sample.task "mul" "running"; timed 90] in
  ∃ tr, Wstat.plotStats Sample.strptime Sample.strftime Sample.splitext Sample.db0
          None self = (tr, Py.Ok ((), self)) ∧
        Wstat.Plot "add" [60; 90] ∈ tr ∧ length (plot_names tr) = 1%nat.
Proof.
  intros timed self.
  destruct (plot_histograms Sample.strptime Sample.strftime Sample.splitext
              Sample.db0 None self eq_refl ltac:(discriminate))
    as (tr & Hrun & Hplot & _ & n & Htot).
  exists tr. split; [exact Hrun|]. split.
  - apply Hplot. split; [discriminate | by vm_compute].
  - vm_compute in Hrun. injection Hrun as <-. by vm_compute.
Defined.
